(** * Runway Playa Vista event scraper ([bs.py]): a shallow embedding

    The script harvests the anchors of the venue's listing page, fetches
    every event page in turn, extracts eight fields from fixed selectors
    and dumps the merged records as one JSON document.

    Python values are embedded as follows.
    - [str] is a list of Unicode code points ([N]); [lit] turns an ASCII
      literal of the source into a [str].
    - a [dict] with string keys is an association list in insertion
      order ([Dict]), updated in place by [dict_set] like [d[k] = v].
    - the network, the markup parser, the clock, the encoding of the
      console and the file system are oracles carried by the [World];
      the console lines, the request log, the time slept and the files
      written are logs of the same [World].
    - code that may raise lives in the monad [M], whose results are
      [Ok v] or [Raise e]; [try_except] is the [try ... except] block.
    - [print] raises [UnicodeEncodeError] on a line the console cannot
      encode; [open] raises what the file system answers; [json.dump]
      raises [UnicodeEncodeError] on a lone surrogate and leaves the
      pieces written before it in the file. The streams themselves are
      taken to work: an [OSError] from a closed or broken stream or
      from a full disk is not part of the model. *)

From Stdlib Require Import List NArith Arith Bool Ascii String Lia.
From Stdlib Require Import Numbers.DecimalString.
From Stdlib Require Numbers.HexadecimalString.
Import ListNotations.

Set Implicit Arguments.

(** ** Python strings *)

Module PyStr.

Definition char := N.
Definition str := list char.

Definition lit (s : string) : str :=
  map N_of_ascii (list_ascii_of_string s).

(** [str(n)] and [f"{n}"] for a non-negative integer. *)
Definition str_of_nat (n : nat) : str :=
  lit (NilEmpty.string_of_uint (Nat.to_uint n)).

(** Truth value of a string: [bool(s)]. *)
Definition truthy (s : str) : bool :=
  match s with
  | [] => false
  | _ :: _ => true
  end.

Fixpoint str_eqb (a b : str) : bool :=
  match a, b with
  | [], [] => true
  | x :: a', y :: b' => N.eqb x y && str_eqb a' b'
  | _, _ => false
  end.

(** [s.startswith(p)] *)
Fixpoint startswith (p s : str) : bool :=
  match p, s with
  | [], _ => true
  | x :: p', y :: s' => N.eqb x y && startswith p' s'
  | _ :: _, [] => false
  end.

(** [p in s] for strings: some suffix of [s] starts with [p]. *)
Fixpoint contains (p s : str) : bool :=
  startswith p s ||
  match s with
  | [] => false
  | _ :: s' => contains p s'
  end.

(** The code points for which [str.isspace], [str.strip] and the
    regular-expression class [\s] (on [str] patterns) agree: CPython's
    [Py_UNICODE_ISSPACE]. *)
Definition isspace (c : char) : bool :=
  (((9 <=? c) && (c <=? 13)) || ((28 <=? c) && (c <=? 32))
   || (c =? 133) || (c =? 160) || (c =? 5760)
   || ((8192 <=? c) && (c <=? 8202))
   || (c =? 8232) || (c =? 8233) || (c =? 8239) || (c =? 8287)
   || (c =? 12288))%N.

Definition SP : char := 32%N.
Definition COMMA : char := 44%N.
Definition NL : char := 10%N.

Fixpoint lstrip (s : str) : str :=
  match s with
  | [] => []
  | c :: s' => if isspace c then lstrip s' else s
  end.

Definition rstrip (s : str) : str := rev (lstrip (rev s)).

(** [s.strip()] *)
Definition strip (s : str) : str := rstrip (lstrip s).

(** [sep.join(parts)] *)
Fixpoint join (sep : str) (parts : list str) : str :=
  match parts with
  | [] => []
  | [p] => p
  | p :: rest => p ++ sep ++ join sep rest
  end.

(** The first occurrence of [sep] in [s], scanning from the left:
    the text before it and the text after it. *)
Fixpoint partition_first (sep s : str) : option (str * str) :=
  if startswith sep s then Some ([], skipn (List.length sep) s)
  else
    match s with
    | [] => None
    | c :: s' =>
        match partition_first sep s' with
        | Some (before, after) => Some (c :: before, after)
        | None => None
        end
    end.

(** [s.split(sep, 1)] for a non-empty [sep] (Python raises
    [ValueError] on an empty separator; the script's separator is the
    constant [", "]). *)
Definition split1 (sep s : str) : list str :=
  match partition_first sep s with
  | Some (before, after) => [before; after]
  | None => [s]
  end.

(** [re.sub(r'\s+', ' ', s)]: the scanner copies every character that
    is not white space and emits one space for each maximal run of
    white space. [in_run] tells that the previous character belonged
    to a run whose space is already emitted. *)
Fixpoint sub_ws_from (in_run : bool) (s : str) : str :=
  match s with
  | [] => []
  | c :: s' =>
      if isspace c
      then if in_run then sub_ws_from true s' else SP :: sub_ws_from true s'
      else c :: sub_ws_from false s'
  end.

Definition re_sub_ws (s : str) : str := sub_ws_from false s.

End PyStr.
Import PyStr.

(** ** Dictionaries *)

Definition Dict := list (string * str).

Fixpoint dict_get (d : Dict) (k : string) : option str :=
  match d with
  | [] => None
  | (k', v) :: d' => if String.eqb k' k then Some v else dict_get d' k
  end.

(** [d.get(k, default)] *)
Definition dict_get_default (d : Dict) (k : string) (default : str) : str :=
  match dict_get d k with
  | Some v => v
  | None => default
  end.

(** [d[k] = v]: an existing key keeps its position, a new key goes last. *)
Fixpoint dict_set (d : Dict) (k : string) (v : str) : Dict :=
  match d with
  | [] => [(k, v)]
  | (k', v') :: d' =>
      if String.eqb k' k then (k', v) :: d' else (k', v') :: dict_set d' k v
  end.

(** [{**d, **extra}]: the items of [extra] assigned in order onto [d]. *)
Definition dict_update (d extra : Dict) : Dict :=
  fold_left (fun acc kv => dict_set acc (fst kv) (snd kv)) extra d.

Definition dict_keys (d : Dict) : list string := map fst d.

(** ** Markup as the script sees it

    A [Tag] is what the script reads of an element: its attributes and
    the text nodes below it in document order. A parsed page ([Soup])
    answers CSS selectors with the matching elements in document
    order. *)

Record Tag := {
  tag_attrs : Dict;
  tag_strings : list str
}.

(** [tag.get(key)] *)
Definition tag_get (t : Tag) (key : string) : option str :=
  dict_get (tag_attrs t) key.

(** [tag.get(key, default)] *)
Definition tag_get_default (t : Tag) (key : string) (default : str) : str :=
  dict_get_default (tag_attrs t) key default.

(** The text nodes with [strip=True]: each one stripped, the empty ones
    dropped. *)
Fixpoint stripped_strings (l : list str) : list str :=
  match l with
  | [] => []
  | s :: l' =>
      let s' := strip s in
      if truthy s' then s' :: stripped_strings l' else stripped_strings l'
  end.

(** [tag.get_text(separator=separator, strip=True)] *)
Definition get_text (separator : str) (t : Tag) : str :=
  join separator (stripped_strings (tag_strings t)).

Definition Soup := string -> list Tag.

Definition select (soup : Soup) (selector : string) : list Tag :=
  soup selector.

Definition select_one (soup : Soup) (selector : string) : option Tag :=
  hd_error (soup selector).

(** ** Exceptions, the world and the monad *)

(** The two handlers of the script tell [requests.RequestException]
    (connection errors, time-outs, [HTTPError]) from every other
    [Exception]. [exn_str] is [str(e)]. Only instances of [Exception]
    are modelled: a fetch or a parse raises nothing else, and the
    signals of the interpreter ([KeyboardInterrupt], [SystemExit]) are
    outside the script. *)
Inductive exn_class := RequestException | OtherException.

Record exn := {
  exn_class_of : exn_class;
  exn_str : str
}.

Inductive result (A : Type) : Type :=
| Ok (a : A)
| Raise (e : exn).
Arguments Ok {A} a.
Arguments Raise {A} e.

Record Request := {
  rq_url : str;
  rq_headers : Dict
}.

Record Response := {
  status_code : N;
  reason : str;
  resp_url : str;
  content : str
}.

(** One [open(path, mode, encoding=...)] with the text written to it. *)
Record FileWrite := {
  fw_path : str;
  fw_mode : string;
  fw_encoding : string;
  fw_text : str
}.

(** The console as [print] meets it: the code points beyond ASCII that
    the encoding of [sys.stdout] has (every such encoding has ASCII),
    and the codec name and the reason its [UnicodeEncodeError] gives. *)
Record Console := {
  con_encodes : char -> bool;
  con_codec : str;
  con_reason : str
}.

Record World := {
  w_server : nat -> Request -> result Response;
  w_parser : str -> result Soup;
  w_clock : nat -> str;
  w_console : Console;
  w_open : str -> option exn;
  w_requests : list Request;
  w_clock_reads : nat;
  w_stdout : list str;
  w_slept : nat;
  w_files : list FileWrite
}.

Definition M (A : Type) : Type := World -> result A * World.

Definition ret {A} (a : A) : M A := fun w => (Ok a, w).

Definition bind {A B} (m : M A) (k : A -> M B) : M B :=
  fun w =>
    match m w with
    | (Ok a, w') => k a w'
    | (Raise e, w') => (Raise e, w')
    end.

(** [try: body except ... as e: handler e] *)
Definition try_except {A} (body : M A) (handler : exn -> M A) : M A :=
  fun w =>
    match body w with
    | (Ok a, w') => (Ok a, w')
    | (Raise e, w') => handler e w'
    end.

Declare Scope py_scope.
Delimit Scope py_scope with py.
Notation "x <- c1 ;; c2" := (bind c1 (fun x => c2))
  (at level 100, c1 at next level, right associativity) : py_scope.
Notation "c1 ;; c2" := (bind c1 (fun _ => c2))
  (at level 100, right associativity) : py_scope.
Open Scope py_scope.

(** [raise e] *)
Definition raise {A} (e : exn) : M A := fun w => (Raise e, w).

(** *** What a stream can encode *)

Definition is_ascii (c : char) : bool := (c <? 128)%N.

Definition ascii_only (s : str) : str := filter is_ascii s.

(** [n] in lower-case hexadecimal, with at least [width] digits. *)
Definition hex (width : nat) (n : N) : str :=
  let digits :=
    lit (HexadecimalString.NilEmpty.string_of_uint (N.to_hex_uint n)) in
  repeat 48%N (width - List.length digits) ++ digits.

(** The characters before the first one that [bad] marks, and the run
    of marked characters from there. *)
Fixpoint bad_run (bad : char -> bool) (text : str) : str :=
  match text with
  | [] => []
  | c :: text' => if bad c then c :: bad_run bad text' else []
  end.

Fixpoint first_bad (bad : char -> bool) (text : str) : nat * str :=
  match text with
  | [] => (0, [])
  | c :: text' =>
      if bad c then (0, bad_run bad text)
      else let (start, run) := first_bad bad text' in (S start, run)
  end.

(** [str(e)] for the [UnicodeEncodeError] a codec raises on [text]:
    the first run of characters it cannot encode, as CPython words
    it. *)
Definition encode_error_text (codec reason : str) (bad : char -> bool)
    (text : str) : str :=
  let (start, run) := first_bad bad text in
  match run with
  | [c] =>
      lit "'" ++ ascii_only codec ++ lit "' codec can't encode character '"
      ++ (if (c <=? 255)%N then lit "\x" ++ hex 2 c
          else if (c <=? 65535)%N then lit "\u" ++ hex 4 c
          else lit "\U" ++ hex 8 c)
      ++ lit "' in position " ++ str_of_nat start ++ lit ": "
      ++ ascii_only reason
  | _ =>
      lit "'" ++ ascii_only codec
      ++ lit "' codec can't encode characters in position "
      ++ str_of_nat start ++ lit "-"
      ++ str_of_nat (start + List.length run - 1) ++ lit ": "
      ++ ascii_only reason
  end.

(** [UnicodeEncodeError] is a [ValueError]: an [Exception] that is not
    a [RequestException]. *)
Definition UnicodeEncodeError (codec reason : str) (bad : char -> bool)
    (text : str) : exn :=
  {| exn_class_of := OtherException;
     exn_str := encode_error_text codec reason bad text |}.

Definition encodable (con : Console) (c : char) : bool :=
  is_ascii c || con_encodes con c.

(** The console can encode every character of the line. *)
Definition can_print (con : Console) (line : str) : bool :=
  forallb (encodable con) line.

(** The exception of [print(line)] on a line the console cannot
    encode. *)
Definition print_error (con : Console) (line : str) : exn :=
  UnicodeEncodeError (con_codec con) (con_reason con)
    (fun c => negb (encodable con c)) line.

(** [print(line)] on [sys.stdout] with its default error handler
    [strict]: the text is encoded whole before any of it is written,
    so the line goes to the console, or the encoder raises and nothing
    of it is written. Every console encoding has ASCII, so a line of
    ASCII characters is always printed. A stream that is closed or
    broken ([OSError]) is outside the model. *)
Definition print (line : str) : M unit :=
  fun w =>
    if can_print (w_console w) line then
      (Ok tt,
       {| w_server := w_server w; w_parser := w_parser w; w_clock := w_clock w;
          w_console := w_console w; w_open := w_open w;
          w_requests := w_requests w; w_clock_reads := w_clock_reads w;
          w_stdout := w_stdout w ++ [line];
          w_slept := w_slept w; w_files := w_files w |})
    else (Raise (print_error (w_console w) line), w).

(** [requests.get(url, headers=headers)]: the server oracle answers the
    request by its rank among the requests of the run. *)
Definition requests_get (url : str) (headers : Dict) : M Response :=
  fun w =>
    let rq := {| rq_url := url; rq_headers := headers |} in
    (w_server w (List.length (w_requests w)) rq,
     {| w_server := w_server w; w_parser := w_parser w; w_clock := w_clock w;
        w_console := w_console w; w_open := w_open w;
        w_requests := w_requests w ++ [rq];
        w_clock_reads := w_clock_reads w;
        w_stdout := w_stdout w;
        w_slept := w_slept w; w_files := w_files w |}).

(** The [HTTPError] that [response.raise_for_status()] builds for the
    statuses 400 to 599; [HTTPError] is a [RequestException]. *)
Definition http_error (r : Response) : option exn :=
  if ((400 <=? status_code r) && (status_code r <? 500))%N then
    Some {| exn_class_of := RequestException;
            exn_str := str_of_nat (N.to_nat (status_code r))
                       ++ lit " Client Error: " ++ reason r
                       ++ lit " for url: " ++ resp_url r |}
  else if ((500 <=? status_code r) && (status_code r <? 600))%N then
    Some {| exn_class_of := RequestException;
            exn_str := str_of_nat (N.to_nat (status_code r))
                       ++ lit " Server Error: " ++ reason r
                       ++ lit " for url: " ++ resp_url r |}
  else None.

(** [response.raise_for_status()] *)
Definition raise_for_status (r : Response) : M unit :=
  match http_error r with
  | Some e => raise e
  | None => ret tt
  end.

(** [BeautifulSoup(markup, 'html.parser')] *)
Definition BeautifulSoup (markup : str) : M Soup :=
  fun w => (w_parser w markup, w).

(** [datetime.now().isoformat()] *)
Definition datetime_now_isoformat : M str :=
  fun w =>
    (Ok (w_clock w (w_clock_reads w)),
     {| w_server := w_server w; w_parser := w_parser w; w_clock := w_clock w;
        w_console := w_console w; w_open := w_open w;
        w_requests := w_requests w;
        w_clock_reads := S (w_clock_reads w);
        w_stdout := w_stdout w;
        w_slept := w_slept w; w_files := w_files w |}).

(** [time.sleep(seconds)] *)
Definition time_sleep (seconds : nat) : M unit :=
  fun w =>
    (Ok tt,
     {| w_server := w_server w; w_parser := w_parser w; w_clock := w_clock w;
        w_console := w_console w; w_open := w_open w;
        w_requests := w_requests w; w_clock_reads := w_clock_reads w;
        w_stdout := w_stdout w;
        w_slept := w_slept w + seconds; w_files := w_files w |}).

(** ** [json.dump(obj, f, indent=..., ensure_ascii=False)]

    The encoder of the standard library on an array of objects with
    string values. With [ensure_ascii=False] only the quote, the
    backslash and the control characters below U+0020 are escaped. *)

Module Json.

Definition QUOTE : char := 34%N.
Definition BACKSLASH : char := 92%N.

Definition hex_digit (d : N) : char :=
  (if d <? 10 then 48 + d else 87 + d)%N.

Definition escape_char (c : char) : str :=
  (if c =? 34 then [BACKSLASH; QUOTE]
   else if c =? 92 then [BACKSLASH; BACKSLASH]
   else if c =? 8 then [BACKSLASH; 98]
   else if c =? 12 then [BACKSLASH; 102]
   else if c =? 10 then [BACKSLASH; 110]
   else if c =? 13 then [BACKSLASH; 114]
   else if c =? 9 then [BACKSLASH; 116]
   else if c <? 32 then
     [BACKSLASH; 117; 48; 48; hex_digit (c / 16); hex_digit (c mod 16)]
   else [c])%N.

Definition encode_string (s : str) : str :=
  QUOTE :: flat_map escape_char s ++ [QUOTE].

Definition newline_indent (indent level : nat) : str :=
  NL :: repeat SP (indent * level).

Definition encode_item (kv : string * str) : str :=
  encode_string (lit (fst kv)) ++ lit ": " ++ encode_string (snd kv).

Definition encode_dict (indent level : nat) (d : Dict) : str :=
  match d with
  | [] => lit "{}"
  | _ :: _ =>
      lit "{" ++ newline_indent indent (S level)
      ++ join (lit "," ++ newline_indent indent (S level))
              (map encode_item d)
      ++ newline_indent indent level ++ lit "}"
  end.

Definition encode_list (indent level : nat) (l : list Dict) : str :=
  match l with
  | [] => lit "[]"
  | _ :: _ =>
      lit "[" ++ newline_indent indent (S level)
      ++ join (lit "," ++ newline_indent indent (S level))
              (map (encode_dict indent (S level)) l)
      ++ newline_indent indent level ++ lit "]"
  end.

Definition dumps (indent : nat) (l : list Dict) : str :=
  encode_list indent 0 l.

(** The same text as the pieces [json.dump] hands to [f.write], one
    after the other. *)
Definition item_chunks (kv : string * str) : list str :=
  [encode_string (lit (fst kv)); lit ": "; encode_string (snd kv)].

Fixpoint items_chunks (separator : str) (d : Dict) : list str :=
  match d with
  | [] => []
  | kv :: d' => [separator] ++ item_chunks kv ++ items_chunks separator d'
  end.

Definition dict_chunks (indent level : nat) (d : Dict) : list str :=
  match d with
  | [] => [lit "{}"]
  | kv :: d' =>
      [lit "{"; newline_indent indent (S level)]
      ++ item_chunks kv
      ++ items_chunks (lit "," ++ newline_indent indent (S level)) d'
      ++ [newline_indent indent level; lit "}"]
  end.

Fixpoint dicts_chunks (indent level : nat) (separator : str) (l : list Dict)
    : list str :=
  match l with
  | [] => []
  | d :: l' =>
      [separator] ++ dict_chunks indent level d
      ++ dicts_chunks indent level separator l'
  end.

Definition chunks (indent : nat) (l : list Dict) : list str :=
  match l with
  | [] => [lit "[]"]
  | d :: l' =>
      [lit "[" ++ newline_indent indent 1]
      ++ dict_chunks indent 1 d
      ++ dicts_chunks indent 1 (lit "," ++ newline_indent indent 1) l'
      ++ [newline_indent indent 0; lit "]"]
  end.

End Json.

(** The UTF-8 codec of a text file encodes everything but the
    surrogates. *)
Definition is_surrogate (c : char) : bool :=
  ((55296 <=? c) && (c <=? 57343))%N.

Definition utf8_ok (text : str) : bool :=
  forallb (fun c => negb (is_surrogate c)) text.

(** [f.write(chunk)] for each chunk in turn: a chunk is encoded whole
    before any of it is written, so the first chunk with a surrogate
    raises and leaves the chunks before it in the file. *)
Fixpoint write_chunks (chunks : list str) (written : str)
    : str * option exn :=
  match chunks with
  | [] => (written, None)
  | chunk :: rest =>
      if utf8_ok chunk then write_chunks rest (written ++ chunk)
      else
        (written,
         Some (UnicodeEncodeError (lit "utf-8") (lit "surrogates not allowed")
                 is_surrogate chunk))
  end.

(** [with open(path, 'w', encoding='utf-8') as f:
       json.dump(data, f, indent=indent, ensure_ascii=False)]
    When [open] raises (the oracle [w_open]) nothing is written. When
    a write raises, the [with] block closes the file with what was
    written so far and the exception goes on. A device that fails
    while writing ([OSError]) is outside the model. *)
Definition open_w_utf8_json_dump (path : str) (data : list Dict)
    (indent : nat) : M unit :=
  fun w =>
    match w_open w path with
    | Some e => (Raise e, w)
    | None =>
        let (text, error) := write_chunks (Json.chunks indent data) [] in
        (match error with
         | Some e => Raise e
         | None => Ok tt
         end,
         {| w_server := w_server w; w_parser := w_parser w; w_clock := w_clock w;
            w_console := w_console w; w_open := w_open w;
            w_requests := w_requests w; w_clock_reads := w_clock_reads w;
            w_stdout := w_stdout w; w_slept := w_slept w;
            w_files := w_files w ++
              [{| fw_path := path; fw_mode := "w"; fw_encoding := "utf-8";
                  fw_text := text |}] |})
    end.

(** ** The script *)

Record EventReference := {
  ev_title : str;
  ev_url : str;
  ev_scraped_at : str
}.

Definition USER_AGENT : str :=
  lit "Mozilla/5.0 (Macintosh; Intel Mac OS X 10_15_7) AppleWebKit/537.36 (KHTML, like Gecko) Chrome/91.0.4472.124 Safari/537.36".

Definition SITE_ORIGIN : str := lit "https://www.runwayplayavista.com/".

(** [a or b] on strings *)
Definition str_or (a b : str) : str := if truthy a then a else b.

(** The [for link in event_links] loop of [scrape_runway_events];
    [events] is the list built so far. *)
Fixpoint harvest_links (event_links : list Tag) (events : list EventReference)
    : M (list EventReference) :=
  match event_links with
  | [] => ret events
  | link :: rest =>
      match tag_get link "href" with
      | Some href =>
          if truthy href then
            let title :=
              str_or (get_text [] link)
                     (tag_get_default link "title" (lit "No title")) in
            now <- datetime_now_isoformat ;;
            let event_info :=
              {| ev_title := title;
                 ev_url := SITE_ORIGIN ++ href;
                 ev_scraped_at := now |} in
            let events := events ++ [event_info] in
            print (lit "Found event: " ++ title ++ lit " - " ++ href) ;;
            harvest_links rest events
          else harvest_links rest events
      | None => harvest_links rest events
      end
  end.

Definition LISTING_URL : str := lit "https://www.runwayplayavista.com/events2".

Definition HEADERS : Dict := [("User-Agent"%string, USER_AGENT)].

Definition LISTING_SELECTOR : string :=
  "div.eventlist.eventlist--upcoming > article.eventlist-event > a".

(** The [try] block of [scrape_runway_events]. *)
Definition scrape_runway_events_try : M (list EventReference) :=
  let url := LISTING_URL in
  let headers := HEADERS in
  print (lit "Fetching events from: " ++ url) ;;
  response <- requests_get url headers ;;
  raise_for_status response ;;
  soup <- BeautifulSoup (content response) ;;
  let event_links := select soup LISTING_SELECTOR in
  events <- harvest_links event_links [] ;;
  print ([NL] ++ lit "Total events found: "
         ++ str_of_nat (List.length events)) ;;
  ret events.

(** The two [except] clauses of [scrape_runway_events]. *)
Definition scrape_runway_events_except (e : exn) : M (list EventReference) :=
  match exn_class_of e with
  | RequestException =>
      print (lit "Error fetching the webpage: " ++ exn_str e) ;;
      ret []
  | OtherException =>
      print (lit "Error parsing the webpage: " ++ exn_str e) ;;
      ret []
  end.

Definition scrape_runway_events : M (list EventReference) :=
  try_except scrape_runway_events_try scrape_runway_events_except.

(** The date field of [scrape_event_details] from the text of the date
    element: [full_date_text.split(', ', 1)], the second part when
    there are two, the whole text otherwise. *)
Definition date_of_text (full_date_text : str) : str :=
  let date_parts := split1 (lit ", ") full_date_text in
  match date_parts with
  | _ :: part1 :: _ => part1
  | _ => full_date_text
  end.

(** The body of the [try] block of [scrape_event_details] after the
    page is parsed: the dictionary [details] filled key by key. *)
Definition extract_details (soup : Soup) : Dict :=
  let details : Dict := [] in
  let title_elem := select_one soup "h1.eventitem-title" in
  let details :=
    dict_set details "title"
      match title_elem with
      | Some e => get_text [] e
      | None => lit "No title found"
      end in
  let date_elem := select_one soup "time.event-date" in
  let details :=
    match date_elem with
    | Some e =>
        let full_date_text := get_text [] e in
        let details := dict_set details "date" (date_of_text full_date_text) in
        dict_set details "date_datetime" (tag_get_default e "datetime" [])
    | None =>
        let details := dict_set details "date" (lit "No date found") in
        dict_set details "date_datetime" []
    end in
  let start_time_elem := select_one soup "time.event-time-localized-start" in
  let details :=
    dict_set details "start_time"
      match start_time_elem with
      | Some e => get_text [] e
      | None => lit "No start time found"
      end in
  let end_time_elem := select_one soup "time.event-time-localized-end" in
  let details :=
    dict_set details "end_time"
      match end_time_elem with
      | Some e => get_text [] e
      | None => lit "No end time found"
      end in
  let book_link_elem :=
    select_one soup
      "a.sqs-block-button-element--medium.sqs-button-element--primary.sqs-block-button-element" in
  let details :=
    match book_link_elem with
    | Some e =>
        let details := dict_set details "book_link" (tag_get_default e "href" []) in
        dict_set details "book_link_text" (get_text [] e)
    | None =>
        let details := dict_set details "book_link" [] in
        dict_set details "book_link_text" []
    end in
  let desc_elem := select_one soup "div.sqs-block.html-block.sqs-block-html" in
  let details :=
    match desc_elem with
    | Some e =>
        let description_text := get_text (lit " ") e in
        let description_text := re_sub_ws description_text in
        dict_set details "description" description_text
    | None => dict_set details "description" (lit "No description found")
    end in
  details.

(** The dictionary returned by the [except] block of
    [scrape_event_details]. *)
Definition error_details (e : exn) : Dict :=
  [ ("title"%string, []);
    ("date"%string, []);
    ("start_time"%string, []);
    ("end_time"%string, []);
    ("book_link"%string, []);
    ("description"%string, lit "Error: " ++ exn_str e) ].

(** The [try] block of [scrape_event_details]. *)
Definition scrape_event_details_try (event_url : str) : M Dict :=
  let headers := HEADERS in
  response <- requests_get event_url headers ;;
  raise_for_status response ;;
  soup <- BeautifulSoup (content response) ;;
  ret (extract_details soup).

(** The [except Exception as e] clause of [scrape_event_details]. *)
Definition scrape_event_details_except (event_url : str) (e : exn) : M Dict :=
  print (lit "Error scraping event details from " ++ event_url
         ++ lit ": " ++ exn_str e) ;;
  ret (error_details e).

Definition scrape_event_details (event_url : str) : M Dict :=
  try_except (scrape_event_details_try event_url)
             (scrape_event_details_except event_url).

(** [{'url': event['url'], 'scraped_at': event['scraped_at'], **details}] *)
Definition detailed_event (event : EventReference) (details : Dict) : Dict :=
  dict_update
    [ ("url"%string, ev_url event);
      ("scraped_at"%string, ev_scraped_at event) ]
    details.

(** The [for i, event in enumerate(events, 1)] loop of
    [scrape_all_event_details]: [total] is [len(events)], [i] the rank
    of the first event of [rest], [detailed_events] the list so far. *)
Fixpoint scrape_all_loop (total i : nat) (rest : list EventReference)
    (detailed_events : list Dict) : M (list Dict) :=
  match rest with
  | [] => ret detailed_events
  | event :: rest' =>
      print (lit "Scraping details for event " ++ str_of_nat i ++ lit "/"
             ++ str_of_nat total ++ lit ": " ++ ev_title event) ;;
      details <- scrape_event_details (ev_url event) ;;
      let detailed_events := detailed_events ++ [detailed_event event details] in
      time_sleep 1 ;;
      scrape_all_loop total (S i) rest' detailed_events
  end.

Definition scrape_all_event_details (events : list EventReference)
    : M (list Dict) :=
  scrape_all_loop (List.length events) 1 events [].

Definition OUTPUT_PATH : str := lit "runway_events_detailed.json".

(** The [if __name__ == "__main__":] block. *)
Definition main : M unit :=
  events <- scrape_runway_events ;;
  match events with
  | _ :: _ =>
      print ([NL] ++ lit "Scraping detailed information for "
             ++ str_of_nat (List.length events) ++ lit " events...") ;;
      detailed_events <- scrape_all_event_details events ;;
      open_w_utf8_json_dump OUTPUT_PATH detailed_events 2 ;;
      print (lit "Detailed events saved to runway_events_detailed.json")
  | [] =>
      print (lit "No events found to scrape details for.")
  end.

(** ** Observations on runs *)

(** The request both functions send for [url]. *)
Definition request_for (url : str) : Request :=
  {| rq_url := url; rq_headers := HEADERS |}.

(** The outcome of the first three statements of both [try] blocks
    when the server's answer is [reply]: the status check, then the
    parse. *)
Definition page_of_reply (parser : str -> result Soup)
    (reply : result Response) : result Soup :=
  match reply with
  | Raise e => Raise e
  | Ok r =>
      match http_error r with
      | Some e => Raise e
      | None => parser (content r)
      end
  end.

(** The page obtained for [url] by a fetch issued in world [w]. *)
Definition fetch_page (url : str) (w : World) : result Soup :=
  page_of_reply (w_parser w)
    (w_server w (List.length (w_requests w)) (request_for url)).

(** Two worlds with the same server, parser and clock. *)
Definition same_oracles (w w' : World) : Prop :=
  w_server w' = w_server w /\ w_parser w' = w_parser w
  /\ w_clock w' = w_clock w.

(** The href the loop of [scrape_runway_events] goes on with: present
    and not empty. *)
Definition usable_href (link : Tag) : option str :=
  match tag_get link "href" with
  | Some href => if truthy href then Some href else None
  | None => None
  end.

Definition has_usable_href (link : Tag) : bool :=
  match usable_href link with
  | Some _ => true
  | None => false
  end.

(** The title the loop gives to the reference of [link]. *)
Definition link_title (link : Tag) : str :=
  str_or (get_text [] link) (tag_get_default link "title" (lit "No title")).

(** The references the loop appends for [links] when the clock was
    read [k] times before. *)
Fixpoint harvested (clock : nat -> str) (k : nat) (links : list Tag)
    : list EventReference :=
  match links with
  | [] => []
  | link :: rest =>
      match usable_href link with
      | Some href =>
          {| ev_title := link_title link;
             ev_url := SITE_ORIGIN ++ href;
             ev_scraped_at := clock k |}
          :: harvested clock (S k) rest
      | None => harvested clock k rest
      end
  end.

(** What [scrape_event_details] returns for a page or a failure. *)
Definition details_of_page (page : result Soup) : Dict :=
  match page with
  | Ok soup => extract_details soup
  | Raise e => error_details e
  end.

(** The records [scrape_all_event_details] appends for [events] when
    [k] requests were sent before: the event of rank [j] is fetched by
    the request of rank [k + j]. *)
Fixpoint detailed_from (server : nat -> Request -> result Response)
    (parser : str -> result Soup) (k : nat) (events : list EventReference)
    : list Dict :=
  match events with
  | [] => []
  | event :: rest =>
      detailed_event event
        (details_of_page
           (page_of_reply parser (server k (request_for (ev_url event)))))
      :: detailed_from server parser (S k) rest
  end.

(** The keys of a detail record on the success path and on the failure
    path. *)
Definition DETAIL_KEYS : list string :=
  ["title"; "date"; "date_datetime"; "start_time"; "end_time";
   "book_link"; "book_link_text"; "description"]%string.

Definition ERROR_KEYS : list string :=
  ["title"; "date"; "start_time"; "end_time"; "book_link";
   "description"]%string.

(** The world after [requests.get(url, ...)]. *)
Definition sent (url : str) (w : World) : World :=
  snd (requests_get url HEADERS w).

(** ** The date field as the specification words it

    For a text with a comma: what follows the first comma, less the
    space after that comma; a text without a comma is kept. It is
    compared with [date_of_text], which follows the source. *)
Definition date_after_first_comma (text : str) : str :=
  match partition_first [COMMA] text with
  | Some (_, after) =>
      match after with
      | c :: after' => if N.eqb c SP then after' else after
      | [] => after
      end
  | None => text
  end.


(** The world [w] with another console, and with another answer of
    [open]. *)
Definition with_console (console : Console) (w : World) : World :=
  {| w_server := w_server w; w_parser := w_parser w; w_clock := w_clock w;
     w_console := console; w_open := w_open w;
     w_requests := w_requests w; w_clock_reads := w_clock_reads w;
     w_stdout := w_stdout w; w_slept := w_slept w; w_files := w_files w |}.

Definition with_open (open : str -> option exn) (w : World) : World :=
  {| w_server := w_server w; w_parser := w_parser w; w_clock := w_clock w;
     w_console := w_console w; w_open := open;
     w_requests := w_requests w; w_clock_reads := w_clock_reads w;
     w_stdout := w_stdout w; w_slept := w_slept w; w_files := w_files w |}.

(** ** Sample pages and worlds *)

Module Demo.

Definition anchor (attrs : Dict) (texts : list str) : Tag :=
  {| tag_attrs := attrs; tag_strings := texts |}.

Definition page (items : list (string * list Tag)) : Soup :=
  fun selector =>
    match find (fun item => String.eqb (fst item) selector) items with
    | Some item => snd item
    | None => []
    end.

(** The listing of the end-to-end scenario: two anchors. *)
Definition listing_links : list Tag :=
  [ anchor [("href"%string, lit "/events2/event-a")] [lit " Jazz Night "];
    anchor [("href"%string, lit "/events2/event-b")] [lit "Trivia"] ].

(** Anchors of every kind the loop distinguishes: text; no text but a
    title attribute; neither; no href; an empty href; an absolute
    href. *)
Definition assorted_links : list Tag :=
  [ anchor [("href"%string, lit "/events2/event-a")] [lit " Jazz Night "];
    anchor [("href"%string, lit "/events2/event-c");
            ("title"%string, lit "Yoga")] [lit "  "];
    anchor [("href"%string, lit "/events2/event-d")] [];
    anchor [("title"%string, lit "Ghost")] [lit "No link"];
    anchor [("href"%string, [])] [lit "Gala"];
    anchor [("href"%string, lit "https://example.org/x")] [lit "Away"] ].

(** An anchor with an href attribute that is the empty string. *)
Definition gala_link : Tag := anchor [("href"%string, [])] [lit "Gala"].

Definition empty_href_links : list Tag := [gala_link].

Definition event_a_soup : Soup :=
  page
    [ ("h1.eventitem-title"%string, [anchor [] [lit "Jazz Night"]]);
      ("time.event-date"%string,
       [anchor [("datetime"%string, lit "2025-08-06")]
               [lit "Wednesday, August 6, 2025"]]);
      ("time.event-time-localized-start"%string, [anchor [] [lit "7:00 PM"]]);
      ("time.event-time-localized-end"%string, [anchor [] [lit "9:00 PM"]]);
      ("a.sqs-block-button-element--medium.sqs-button-element--primary.sqs-block-button-element"%string,
       [anchor [("href"%string, lit "https://tickets.example/jazz")]
               [lit "Book now"]]);
      ("div.sqs-block.html-block.sqs-block-html"%string,
       [anchor [] [lit " Live   music "; lit "on the  lawn. "]]) ].

(** A page with none of the six elements. *)
Definition bare_soup : Soup := page [].

Definition listing_soup (listing : list Tag) : Soup :=
  page [(LISTING_SELECTOR, listing)].

Definition parser (listing : list Tag) (markup : str) : result Soup :=
  if str_eqb markup (lit "listing") then Ok (listing_soup listing)
  else if str_eqb markup (lit "event-a") then Ok event_a_soup
  else if str_eqb markup (lit "bare") then Ok bare_soup
  else Raise {| exn_class_of := OtherException;
                exn_str := lit "cannot parse" |}.

Definition ok_response (url markup : str) : Response :=
  {| status_code := 200; reason := lit "OK"; resp_url := url;
     content := markup |}.

(** The listing and event-a are served, event-c is a bare page,
    event-d answers 404 and every other URL is unreachable. *)
Definition server (k : nat) (rq : Request) : result Response :=
  let url := rq_url rq in
  if str_eqb url LISTING_URL then Ok (ok_response url (lit "listing"))
  else if str_eqb url (SITE_ORIGIN ++ lit "/events2/event-a") then
    Ok (ok_response url (lit "event-a"))
  else if str_eqb url (SITE_ORIGIN ++ lit "/events2/event-c") then
    Ok (ok_response url (lit "bare"))
  else if str_eqb url (SITE_ORIGIN ++ lit "/events2/event-d") then
    Ok {| status_code := 404; reason := lit "Not Found"; resp_url := url;
          content := [] |}
  else Raise {| exn_class_of := RequestException;
                exn_str := lit "Connection refused" |}.

Definition unreachable (k : nat) (rq : Request) : result Response :=
  Raise {| exn_class_of := RequestException;
           exn_str := lit "Connection refused" |}.

Definition not_found (k : nat) (rq : Request) : result Response :=
  Ok {| status_code := 404; reason := lit "Not Found";
        resp_url := rq_url rq; content := [] |}.

Definition garbled (k : nat) (rq : Request) : result Response :=
  Ok (ok_response (rq_url rq) (lit "garbage")).


Definition clock (k : nat) : str := lit "2025-08-01T12:00:0" ++ str_of_nat k.

(** A console in UTF-8 and one in ASCII. *)
Definition utf8_console : Console :=
  {| con_encodes := fun c => negb (is_surrogate c);
     con_codec := lit "utf-8";
     con_reason := lit "surrogates not allowed" |}.

Definition ascii_console : Console :=
  {| con_encodes := fun _ => false;
     con_codec := lit "ascii";
     con_reason := lit "ordinal not in range(128)" |}.

(** The sample worlds have a UTF-8 console and a writable directory. *)
Definition world_of (server : nat -> Request -> result Response)
    (listing : list Tag) : World :=
  {| w_server := server; w_parser := parser listing; w_clock := clock;
     w_console := utf8_console; w_open := fun _ => None;
     w_requests := []; w_clock_reads := 0; w_stdout := [];
     w_slept := 0; w_files := [] |}.

(** The fault-injection scenario: event-a is served, event-b is not. *)
Definition world : World := world_of server listing_links.

Definition assorted_world : World := world_of server assorted_links.

Definition empty_href_world : World := world_of server empty_href_links.

Definition offline_world : World := world_of unreachable listing_links.

Definition not_found_world : World := world_of not_found listing_links.

Definition garbled_world : World := world_of garbled listing_links.

Definition empty_listing_world : World := world_of server [].

Definition event_a : EventReference :=
  {| ev_title := lit "Jazz Night";
     ev_url := SITE_ORIGIN ++ lit "/events2/event-a";
     ev_scraped_at := clock 0 |}.

Definition event_b : EventReference :=
  {| ev_title := lit "Trivia";
     ev_url := SITE_ORIGIN ++ lit "/events2/event-b";
     ev_scraped_at := clock 1 |}.

End Demo.

(** ** Shapes of extracted text *)

(** The text begins, or ends, with a white-space character. *)
Definition starts_with_space (s : str) : bool :=
  match s with
  | [] => false
  | c :: _ => isspace c
  end.

Fixpoint ends_with_space (s : str) : bool :=
  match s with
  | [] => false
  | [c] => isspace c
  | _ :: s' => ends_with_space s'
  end.

(** Every white-space character of the text is a plain space and no two
    of them are adjacent; [after_space] tells that the character before
    the text is white space. *)
Fixpoint collapsed_from (after_space : bool) (s : str) : bool :=
  match s with
  | [] => true
  | c :: s' =>
      if isspace c
      then N.eqb c SP && negb after_space && collapsed_from true s'
      else collapsed_from false s'
  end.

Definition collapsed (s : str) : bool := collapsed_from false s.

(** The characters of the text that are not white space, in order. *)
Definition ink (s : str) : str := filter (fun c => negb (isspace c)) s.

(** A piece of text as [get_text(strip=True)] keeps it: not empty, with
    no white space at either end. *)
Definition solid (p : str) : Prop :=
  p <> [] /\ starts_with_space p = false /\ ends_with_space p = false.

(** ** The effects of a run on the world *)

(** The world [w] after some more requests, readings of the clock,
    console lines, seconds of sleep and files; the oracles stay. *)
Definition advance (requests : list Request) (reads : nat) (lines : list str)
    (seconds : nat) (files : list FileWrite) (w : World) : World :=
  {| w_server := w_server w; w_parser := w_parser w; w_clock := w_clock w;
     w_console := w_console w; w_open := w_open w;
     w_requests := w_requests w ++ requests;
     w_clock_reads := w_clock_reads w + reads;
     w_stdout := w_stdout w ++ lines;
     w_slept := w_slept w + seconds;
     w_files := w_files w ++ files |}.

(** The anchors of the listing for which a reference is emitted. *)
Definition kept_links (links : list Tag) : list Tag :=
  filter has_usable_href links.

(** The console line of the loop of [scrape_runway_events] for a kept
    anchor. *)
Definition found_line (link : Tag) : str :=
  lit "Found event: " ++ link_title link ++ lit " - "
  ++ tag_get_default link "href" [].

(** The console line of the [except] clauses of
    [scrape_runway_events]. *)
Definition listing_error_line (e : exn) : str :=
  match exn_class_of e with
  | RequestException => lit "Error fetching the webpage: " ++ exn_str e
  | OtherException => lit "Error parsing the webpage: " ++ exn_str e
  end.

(** The first and the last console line of the [try] block of
    [scrape_runway_events]. *)
Definition FETCH_LINE : str := lit "Fetching events from: " ++ LISTING_URL.

Definition total_line (n : nat) : str :=
  [NL] ++ lit "Total events found: " ++ str_of_nat n.

(** The lines before the first one that the console cannot print, with
    that line. *)
Fixpoint first_unprintable (con : Console) (lines : list str)
    : option (list str * str) :=
  match lines with
  | [] => None
  | line :: rest =>
      if can_print con line then
        match first_unprintable con rest with
        | Some (before, bad) => Some (line :: before, bad)
        | None => None
        end
      else Some ([], line)
  end.

(** What [scrape_runway_events] does in world [w]: its result, the
    number of readings of the clock and the console lines. A
    ['Found event'] line the console cannot print raises inside the
    [try] block, after the reading of the clock for that anchor: the
    handler prints the error and the result is empty. An error line
    the console cannot print raises inside the handler and the
    exception leaves the function. *)
Definition listing_report (w : World)
    : result (list EventReference) * nat * list str :=
  let con := w_console w in
  match fetch_page LISTING_URL w with
  | Ok soup =>
      let kept := kept_links (soup LISTING_SELECTOR) in
      match first_unprintable con (map found_line kept) with
      | None =>
          (Ok (harvested (w_clock w) (w_clock_reads w)
                 (soup LISTING_SELECTOR)),
           List.length kept,
           [FETCH_LINE] ++ map found_line kept
           ++ [total_line (List.length kept)])
      | Some (before, bad) =>
          (Ok [], S (List.length before),
           [FETCH_LINE] ++ before
           ++ [listing_error_line (print_error con bad)])
      end
  | Raise e =>
      if can_print con (listing_error_line e) then
        (Ok [], 0, [FETCH_LINE; listing_error_line e])
      else (Raise (print_error con (listing_error_line e)), 0, [FETCH_LINE])
  end.

(** The console line of the [except] clause of
    [scrape_event_details]. *)
Definition details_error_line (event_url : str) (e : exn) : str :=
  lit "Error scraping event details from " ++ event_url
  ++ lit ": " ++ exn_str e.

(** The console lines of [scrape_event_details] when it returns: none
    when the page is fetched and parsed, one when it is not. *)
Definition details_console (event_url : str) (page : result Soup) : list str :=
  match page with
  | Ok _ => []
  | Raise e => [details_error_line event_url e]
  end.

(** What [scrape_event_details] does in world [w]: its result and its
    console lines. An error line the console cannot print raises
    inside the handler, before the [return]. *)
Definition details_report (event_url : str) (w : World)
    : result Dict * list str :=
  match fetch_page event_url w with
  | Ok soup => (Ok (extract_details soup), [])
  | Raise e =>
      if can_print (w_console w) (details_error_line event_url e) then
        (Ok (error_details e), [details_error_line event_url e])
      else
        (Raise (print_error (w_console w) (details_error_line event_url e)),
         [])
  end.

(** The progress line of [scrape_all_event_details] for [event],
    numbered [i] out of [total]. *)
Definition progress_line (total i : nat) (event : EventReference) : str :=
  lit "Scraping details for event " ++ str_of_nat i ++ lit "/"
  ++ str_of_nat total ++ lit ": " ++ ev_title event.

(** The console lines of the loop of [scrape_all_event_details] for
    [events], numbered from [i] out of [total], when [k] requests were
    sent before and every line can be printed. *)
Fixpoint progress_console (server : nat -> Request -> result Response)
    (parser : str -> result Soup) (total i k : nat)
    (events : list EventReference) : list str :=
  match events with
  | [] => []
  | event :: rest =>
      [progress_line total i event]
      ++ details_console (ev_url event)
           (page_of_reply parser (server k (request_for (ev_url event))))
      ++ progress_console server parser total (S i) (S k) rest
  end.

(** The console can print every line of the loop of
    [scrape_all_event_details] for [events]: the progress line of each
    reference and the error line of each failed fetch. *)
Fixpoint loop_printable (con : Console)
    (server : nat -> Request -> result Response)
    (parser : str -> result Soup) (total i k : nat)
    (events : list EventReference) : bool :=
  match events with
  | [] => true
  | event :: rest =>
      can_print con (progress_line total i event)
      && forallb (can_print con)
           (details_console (ev_url event)
              (page_of_reply parser (server k (request_for (ev_url event)))))
      && loop_printable con server parser total (S i) (S k) rest
  end.

(** Two worlds built from the same fields, up to the laws of [++] and [+]. *)
Ltac same_world :=
  unfold advance; cbn [w_server w_parser w_clock w_console w_open w_requests
                       w_clock_reads w_stdout w_slept w_files
                       List.length map];
  f_equal; try lia;
  repeat rewrite <- app_assoc; cbn [app];
  repeat rewrite app_nil_r; try reflexivity.

(** The lines of the main block around the loop. *)
Definition SCRAPING_LINE (n : nat) : str :=
  [NL] ++ lit "Scraping detailed information for " ++ str_of_nat n
  ++ lit " events...".

Definition SAVED_LINE : str :=
  lit "Detailed events saved to runway_events_detailed.json".

Definition NO_EVENTS_LINE : str :=
  lit "No events found to scrape details for.".

(** The file of a run, holding [text]. *)
Definition output_file (text : str) : FileWrite :=
  {| fw_path := OUTPUT_PATH; fw_mode := "w"; fw_encoding := "utf-8";
     fw_text := text |}.

(** The console of [w] can print what the loop of
    [scrape_all_event_details] prints for [events]: the title of every
    reference (the rest of a progress line is digits and ASCII words)
    and the error line of every reference whose fetch fails, the
    reference of rank [j] being fetched by the request of rank [j]
    after those already sent. *)
Definition loop_lines_printable (w : World) (events : list EventReference)
    : Prop :=
  forall j event,
    nth_error events j = Some event ->
    can_print (w_console w) (ev_title event) = true
    /\ forall e,
         page_of_reply (w_parser w)
           (w_server w (List.length (w_requests w) + j)
              (request_for (ev_url event))) = Raise e ->
         can_print (w_console w) (details_error_line (ev_url event) e) = true.

(** More sample pages. *)
Module Samples.

(** An element whose text nodes hold white space only. *)
Definition blank : Tag :=
  {| tag_attrs := []; tag_strings := [[SP; NL]; []; [SP]] |}.

(** A page whose six elements are all present and blank, without
    attributes. *)
Definition blank_soup : Soup :=
  Demo.page
    [ ("h1.eventitem-title"%string, [blank]);
      ("time.event-date"%string, [blank]);
      ("time.event-time-localized-start"%string, [blank]);
      ("time.event-time-localized-end"%string, [blank]);
      ("a.sqs-block-button-element--medium.sqs-button-element--primary.sqs-block-button-element"%string,
       [blank]);
      ("div.sqs-block.html-block.sqs-block-html"%string, [blank]) ].

(** An anchor with an href, no text and an empty title attribute. *)
Definition untitled_link : Tag :=
  {| tag_attrs := [("href"%string, lit "/events2/x"); ("title"%string, [])];
     tag_strings := [] |}.

Definition untitled_world : World :=
  Demo.world_of Demo.server [untitled_link].

(** A page whose date element has no space after its first comma. *)
Definition squeezed_date_soup : Soup :=
  Demo.page
    [ ("time.event-date"%string,
       [Demo.anchor [] [lit "Wednesday,August 6, 2025"]]) ].

(** A detail record that brings its own [url]. *)
Definition clashing_details : Dict :=
  [("title"%string, lit "T"); ("url"%string, lit "other")].

(** A server that answers every request with status 304 and the
    markup of the listing. *)
Definition not_modified (k : nat) (rq : Request) : result Response :=
  Ok {| status_code := 304; reason := lit "Not Modified";
        resp_url := rq_url rq; content := lit "listing" |}.

Definition not_modified_world : World :=
  Demo.world_of not_modified Demo.listing_links.

(** U+00E9, which ASCII does not have, and U+D83D, a lone surrogate,
    which UTF-8 does not have. *)
Definition E_ACUTE : char := 233%N.
Definition LONE_SURROGATE : char := 55357%N.

(** A listing whose second anchor has a title beyond ASCII. *)
Definition cafe_links : list Tag :=
  [ Demo.anchor [("href"%string, lit "/events2/event-a")] [lit "Jazz Night"];
    Demo.anchor [("href"%string, lit "/events2/cafe")]
      [lit "Caf" ++ [E_ACUTE] ++ lit " Night"];
    Demo.anchor [("href"%string, lit "/events2/event-c")] [lit "Yoga"] ].

(** The scenario and the listing with the accent, on an ASCII
    console. *)
Definition ascii_world : World :=
  with_console Demo.ascii_console Demo.world.

Definition cafe_ascii_world : World :=
  with_console Demo.ascii_console (Demo.world_of Demo.server cafe_links).

Definition cafe_world : World := Demo.world_of Demo.server cafe_links.

(** A server that refuses every connection with a message beyond
    ASCII. *)
Definition refused (k : nat) (rq : Request) : result Response :=
  Raise {| exn_class_of := RequestException;
           exn_str := lit "Connexion refus" ++ [E_ACUTE; E_ACUTE] |}.

Definition refused_ascii_world : World :=
  with_console Demo.ascii_console (Demo.world_of refused Demo.listing_links).

(** A reference whose title is beyond ASCII. *)
Definition cafe_event : EventReference :=
  {| ev_title := lit "Caf" ++ [E_ACUTE] ++ lit " Night";
     ev_url := SITE_ORIGIN ++ lit "/events2/event-a";
     ev_scraped_at := Demo.clock 0 |}.

(** A directory in which the output file cannot be created. *)
Definition read_only (path : str) : option exn :=
  Some {| exn_class_of := OtherException;
          exn_str := lit "[Errno 13] Permission denied: '" ++ path
                     ++ lit "'" |}.

Definition read_only_world : World := with_open read_only Demo.world.

(** A listing whose only anchor has a lone surrogate in its href, so
    that the url of its record cannot be encoded in UTF-8. *)
Definition surrogate_links : list Tag :=
  [ Demo.anchor [("href"%string, lit "/events2/" ++ [LONE_SURROGATE])]
      [lit "Jazz Night"] ].

(** The same listing on a console that prints everything (one with
    the error handler [surrogatepass], or [backslashreplace]). *)
Definition lenient_console : Console :=
  {| con_encodes := fun _ => true;
     con_codec := lit "utf-8";
     con_reason := lit "surrogates not allowed" |}.

Definition surrogate_world : World :=
  with_console lenient_console (Demo.world_of Demo.server surrogate_links).

End Samples.

(** * Strings: white space and splitting *)

Lemma isspace_SP : isspace SP = true.
Proof. reflexivity. Qed.

Lemma sub_ws_from_stable (s : str) :
  forall in_run in_run',
    (in_run' = true -> in_run = true) ->
    sub_ws_from in_run' (sub_ws_from in_run s) = sub_ws_from in_run s.
Proof.
  induction s as [| c s IH]; intros in_run in_run' Hle; cbn [sub_ws_from].
  - reflexivity.
  - destruct (isspace c) eqn:Hc.
    + destruct in_run.
      * apply IH. trivial.
      * cbn [sub_ws_from]. rewrite isspace_SP.
        destruct in_run'.
        -- discriminate (Hle eq_refl).
        -- f_equal. apply IH. trivial.
    + cbn [sub_ws_from]. rewrite Hc. f_equal. apply IH. intros H. discriminate H.
Qed.

(** C9: collapsing the runs of white space of a string that is already
    collapsed changes nothing: [re.sub(r'\s+', ' ', .)] is idempotent
    on every string. *)
Theorem re_sub_ws_idempotent (s : str) :
  re_sub_ws (re_sub_ws s) = re_sub_ws s.
Proof.
  unfold re_sub_ws. apply sub_ws_from_stable. intros H. discriminate H.
Qed.

Lemma partition_first_none (sep s : str) :
  contains sep s = false -> partition_first sep s = None.
Proof.
  induction s as [| c s IH]; simpl; intros H.
  - apply orb_false_iff in H. destruct H as [H _].
    destruct sep; simpl in *; [discriminate | reflexivity].
  - apply orb_false_iff in H. destruct H as [H1 H2].
    rewrite H1. rewrite (IH H2). reflexivity.
Qed.

Lemma contains_comma_space (s : str) :
  contains [COMMA] s = false -> contains (lit ", ") s = false.
Proof.
  induction s as [| c s IH]; simpl; intros H.
  - reflexivity.
  - apply orb_false_iff in H. destruct H as [H1 H2].
    apply andb_false_iff in H1. destruct H1 as [H1 | H1].
    + change (lit ", ") with [COMMA; SP]. simpl.
      unfold COMMA in *. rewrite H1. simpl. exact (IH H2).
    + destruct s; discriminate H1.
Qed.

Lemma partition_first_comma_space (before after : str) :
  contains (lit ", ") (before ++ [COMMA]) = false ->
  partition_first (lit ", ") (before ++ lit ", " ++ after)
  = Some (before, after).
Proof.
  change (lit ", ") with [COMMA; SP].
  induction before as [| c before IH]; intros H.
  - reflexivity.
  - cbn [app contains] in H.
    apply orb_false_iff in H. destruct H as [H1 H2].
    change ((c :: before) ++ [COMMA; SP] ++ after)
      with (c :: (before ++ [COMMA; SP] ++ after)).
    cbn [partition_first].
    assert (Hs : startswith [COMMA; SP] (c :: before ++ [COMMA; SP] ++ after)
                 = false).
    { cbn [startswith] in *.
      destruct (N.eqb COMMA c); [| reflexivity].
      destruct before as [| d before']; [reflexivity |].
      cbn [app andb startswith] in *.
      destruct (N.eqb SP d); [discriminate H1 | reflexivity]. }
    rewrite Hs. rewrite (IH H2). reflexivity.
Qed.

Lemma no_comma_no_comma_space (before : str) :
  contains [COMMA] before = false ->
  contains (lit ", ") (before ++ [COMMA]) = false.
Proof.
  change (lit ", ") with [COMMA; SP].
  induction before as [| c before IH]; intros H; [reflexivity |].
  cbn [contains] in H. apply orb_false_iff in H. destruct H as [H1 H2].
  cbn [app contains]. rewrite (IH H2), orb_false_r.
  cbn [startswith] in *. rewrite andb_true_r in H1. rewrite H1. reflexivity.
Qed.

Lemma partition_first_comma (before rest : str) :
  contains [COMMA] before = false ->
  partition_first [COMMA] (before ++ COMMA :: rest) = Some (before, rest).
Proof.
  induction before as [| c before IH]; intros H.
  - cbn [app partition_first startswith]. rewrite N.eqb_refl. reflexivity.
  - cbn [contains] in H. apply orb_false_iff in H. destruct H as [H1 H2].
    cbn [app partition_first]. cbn [startswith] in *.
    rewrite andb_true_r in H1. rewrite H1. cbn [andb].
    rewrite (IH H2). reflexivity.
Qed.

(** The date text is split at the first comma that is followed by a
    space. When the text is [before ++ ", " ++ after] and no
    comma-space starts inside [before], the date field is [after]; a
    text without a comma followed by a space, and so every text
    without a comma, is kept unchanged. *)
Lemma date_of_text_split (text : str) :
  (forall before after,
      text = before ++ lit ", " ++ after ->
      contains (lit ", ") (before ++ [COMMA]) = false ->
      date_of_text text = after)
  /\ (contains (lit ", ") text = false -> date_of_text text = text)
  /\ (contains [COMMA] text = false -> date_of_text text = text).
Proof.
  assert (Hnone : contains (lit ", ") text = false -> date_of_text text = text).
  { intros H. unfold date_of_text, split1.
    rewrite (partition_first_none _ _ H). reflexivity. }
  split; [| split].
  - intros before after -> H. unfold date_of_text, split1.
    rewrite (partition_first_comma_space _ _ H). reflexivity.
  - exact Hnone.
  - intros H. apply Hnone. apply contains_comma_space. exact H.
Qed.

(** C2: the script and the rule of the specification (the rule of the
    comments on lines 79 to 86: the part after the first comma, the
    full text when there is no comma) agree on every text without a
    comma and on every text whose first comma is followed by a space.
    They part when the first comma is not followed by a space: the
    text below has commas, the rule gives "August 6, 2025", the script
    splits at the later comma-space and keeps "2025", also as the date
    field of a page whose date element has this text. *)
Theorem date_of_text_comma_without_space :
  (forall text,
      contains [COMMA] text = false ->
      date_of_text text = text /\ date_after_first_comma text = text)
  /\ (forall before after,
        contains [COMMA] before = false ->
        date_of_text (before ++ lit ", " ++ after) = after
        /\ date_after_first_comma (before ++ lit ", " ++ after) = after)
  /\ contains [COMMA] (lit "Wednesday,August 6, 2025") = true
  /\ date_after_first_comma (lit "Wednesday,August 6, 2025")
     = lit "August 6, 2025"
  /\ date_of_text (lit "Wednesday,August 6, 2025") = lit "2025"
  /\ date_of_text (lit "Wednesday,August 6, 2025")
     <> date_after_first_comma (lit "Wednesday,August 6, 2025")
  /\ select_one Samples.squeezed_date_soup "time.event-date"
     = Some (Demo.anchor [] [lit "Wednesday,August 6, 2025"])
  /\ dict_get (extract_details Samples.squeezed_date_soup) "date"
     = Some (lit "2025").
Proof.
  split; [| split].
  - intros text H. split.
    + apply (proj2 (proj2 (date_of_text_split text))). exact H.
    + unfold date_after_first_comma.
      rewrite (partition_first_none _ _ H). reflexivity.
  - intros before after H. split.
    + apply (proj1 (date_of_text_split (before ++ lit ", " ++ after))
               before after eq_refl).
      apply no_comma_no_comma_space. exact H.
    + unfold date_after_first_comma.
      change (lit ", " ++ after) with (COMMA :: SP :: after).
      rewrite (partition_first_comma _ _ H). reflexivity.
  - repeat split; try reflexivity.
    vm_compute. intros H. discriminate H.
Qed.


(** * The primitives *)

Lemma same_oracles_refl (w : World) : same_oracles w w.
Proof. repeat split. Qed.

Lemma advance_advance requests1 reads1 lines1 seconds1 files1
    requests2 reads2 lines2 seconds2 files2 (w : World) :
  advance requests2 reads2 lines2 seconds2 files2
    (advance requests1 reads1 lines1 seconds1 files1 w)
  = advance (requests1 ++ requests2) (reads1 + reads2) (lines1 ++ lines2)
      (seconds1 + seconds2) (files1 ++ files2) w.
Proof.
  unfold advance.
  cbn [w_server w_parser w_clock w_console w_open w_requests w_clock_reads
       w_stdout w_slept w_files].
  rewrite <- !app_assoc, <- !Nat.add_assoc. reflexivity.
Qed.

Lemma advance_nothing (w : World) : advance [] 0 [] 0 [] w = w.
Proof. destruct w. same_world. Qed.

Section AdvanceProjections.
Variables (requests : list Request) (reads : nat) (lines : list str)
  (seconds : nat) (files : list FileWrite) (w : World).
Local Abbreviation w' := (advance requests reads lines seconds files w).

Lemma adv_server : w_server w' = w_server w.
Proof. reflexivity. Qed.
Lemma adv_parser : w_parser w' = w_parser w.
Proof. reflexivity. Qed.
Lemma adv_clock : w_clock w' = w_clock w.
Proof. reflexivity. Qed.
Lemma adv_console : w_console w' = w_console w.
Proof. reflexivity. Qed.
Lemma adv_open : w_open w' = w_open w.
Proof. reflexivity. Qed.
Lemma adv_requests : w_requests w' = w_requests w ++ requests.
Proof. reflexivity. Qed.
Lemma adv_reads : w_clock_reads w' = w_clock_reads w + reads.
Proof. reflexivity. Qed.
Lemma adv_stdout : w_stdout w' = w_stdout w ++ lines.
Proof. reflexivity. Qed.
Lemma adv_slept : w_slept w' = w_slept w + seconds.
Proof. reflexivity. Qed.
Lemma adv_files : w_files w' = w_files w ++ files.
Proof. reflexivity. Qed.
End AdvanceProjections.

Ltac advance_proj :=
  rewrite ?adv_server, ?adv_parser, ?adv_clock, ?adv_console, ?adv_open,
    ?adv_requests, ?adv_reads, ?adv_stdout, ?adv_slept, ?adv_files.

Lemma print_ok (line : str) (w : World) :
  can_print (w_console w) line = true ->
  print line w = (Ok tt, advance [] 0 [line] 0 [] w).
Proof. intros H. unfold print. rewrite H. f_equal. destruct w. same_world. Qed.

Lemma print_fail (line : str) (w : World) :
  can_print (w_console w) line = false ->
  print line w = (Raise (print_error (w_console w) line), w).
Proof. intros H. unfold print. rewrite H. reflexivity. Qed.

Lemma requests_get_run (url : str) (w : World) :
  requests_get url HEADERS w
  = (w_server w (List.length (w_requests w)) (request_for url),
     advance [request_for url] 0 [] 0 [] w).
Proof. unfold requests_get, request_for. f_equal. destruct w. same_world. Qed.

Lemma datetime_now_isoformat_run (w : World) :
  datetime_now_isoformat w
  = (Ok (w_clock w (w_clock_reads w)), advance [] 1 [] 0 [] w).
Proof. unfold datetime_now_isoformat. f_equal. destruct w. same_world. Qed.

Lemma time_sleep_run (seconds : nat) (w : World) :
  time_sleep seconds w = (Ok tt, advance [] 0 [] seconds [] w).
Proof. unfold time_sleep. f_equal. destruct w. same_world. Qed.

(** ** Lines that every console prints *)

Lemma can_print_ascii (con : Console) (line : str) :
  forallb is_ascii line = true -> can_print con line = true.
Proof.
  unfold can_print, encodable. induction line as [| c line IH]; [reflexivity |].
  cbn [forallb]. intros H. apply andb_true_iff in H. destruct H as [Hc Hl].
  rewrite Hc, (IH Hl). reflexivity.
Qed.

Lemma can_print_app (con : Console) (a b : str) :
  can_print con (a ++ b) = can_print con a && can_print con b.
Proof. apply forallb_app. Qed.

Lemma ascii_app (a b : str) :
  forallb is_ascii a = true -> forallb is_ascii b = true ->
  forallb is_ascii (a ++ b) = true.
Proof. intros Ha Hb. rewrite forallb_app, Ha, Hb. reflexivity. Qed.

Lemma decimal_ascii (d : Decimal.uint) :
  forallb is_ascii (lit (NilEmpty.string_of_uint d)) = true.
Proof. induction d; [reflexivity | exact IHd ..]. Qed.

Lemma str_of_nat_ascii (n : nat) : forallb is_ascii (str_of_nat n) = true.
Proof. apply decimal_ascii. Qed.

Lemma hexadecimal_ascii (d : Hexadecimal.uint) :
  forallb is_ascii (lit (HexadecimalString.NilEmpty.string_of_uint d)) = true.
Proof. induction d; [reflexivity | exact IHd ..]. Qed.

Lemma hex_ascii (width : nat) (n : N) : forallb is_ascii (hex width n) = true.
Proof.
  unfold hex. apply ascii_app; [| apply hexadecimal_ascii].
  induction (width - _) as [| k IH]; [reflexivity | exact IH].
Qed.

Lemma ascii_only_ascii (s : str) : forallb is_ascii (ascii_only s) = true.
Proof.
  unfold ascii_only. induction s as [| c s IH]; [reflexivity |].
  cbn [filter]. destruct (is_ascii c) eqn:Hc; [| exact IH].
  cbn [forallb]. rewrite Hc. exact IH.
Qed.

Lemma encode_error_text_ascii codec reason bad (text : str) :
  forallb is_ascii (encode_error_text codec reason bad text) = true.
Proof.
  unfold encode_error_text. destruct (first_bad bad text) as [start run].
  assert (Hmany :
            forallb is_ascii
              (lit "'" ++ ascii_only codec
               ++ lit "' codec can't encode characters in position "
               ++ str_of_nat start ++ lit "-"
               ++ str_of_nat (start + List.length run - 1) ++ lit ": "
               ++ ascii_only reason) = true).
  { repeat (apply ascii_app;
            [first [reflexivity | apply ascii_only_ascii
                   | apply str_of_nat_ascii] |]).
    apply ascii_only_ascii. }
  destruct run as [| c [| c' run]]; try exact Hmany.
  repeat (apply ascii_app;
          [first [reflexivity | apply ascii_only_ascii | apply str_of_nat_ascii
                 | idtac] |]);
    [| apply ascii_only_ascii].
  destruct (c <=? 255)%N; [| destruct (c <=? 65535)%N];
    (apply ascii_app; [reflexivity | apply hex_ascii]).
Qed.

(** The text of the exception of a failed [print] is ASCII, so a line
    made of ASCII text and that text can be printed on every
    console. *)
Lemma print_error_line (con con' : Console) (label line : str) :
  forallb is_ascii label = true ->
  can_print con' (label ++ exn_str (print_error con line)) = true.
Proof.
  intros Hl. apply can_print_ascii, ascii_app; [exact Hl |].
  apply encode_error_text_ascii.
Qed.

Lemma FETCH_LINE_ascii : forallb is_ascii FETCH_LINE = true.
Proof. reflexivity. Qed.

Lemma total_line_ascii (n : nat) : forallb is_ascii (total_line n) = true.
Proof.
  unfold total_line. repeat (apply ascii_app; [reflexivity |]).
  apply str_of_nat_ascii.
Qed.

Lemma SCRAPING_LINE_ascii (n : nat) : forallb is_ascii (SCRAPING_LINE n) = true.
Proof.
  unfold SCRAPING_LINE. apply ascii_app; [reflexivity |].
  apply ascii_app; [reflexivity |].
  apply ascii_app; [apply str_of_nat_ascii | reflexivity].
Qed.

Lemma print_ascii (line : str) (w : World) :
  forallb is_ascii line = true ->
  print line w = (Ok tt, advance [] 0 [line] 0 [] w).
Proof. intros H. apply print_ok, can_print_ascii, H. Qed.

(** * Runs of the functions *)

Ltac advance_eq :=
  rewrite ?advance_advance; f_equal;
  cbn [app List.length map]; rewrite ?app_nil_r; try lia; try reflexivity.

Lemma sent_advance (url : str) (w : World) :
  sent url w = advance [request_for url] 0 [] 0 [] w.
Proof. unfold sent. rewrite requests_get_run. reflexivity. Qed.

Lemma fetch_steps_run (A : Type) (k : Soup -> M A) (url : str) (w : World) :
  (response <- requests_get url HEADERS ;;
   raise_for_status response ;;
   soup <- BeautifulSoup (content response) ;;
   k soup) w
  = match fetch_page url w with
    | Ok soup => k soup (advance [request_for url] 0 [] 0 [] w)
    | Raise e => (Raise e, advance [request_for url] 0 [] 0 [] w)
    end.
Proof.
  unfold bind at 1. rewrite requests_get_run.
  unfold fetch_page, page_of_reply.
  destruct (w_server w (List.length (w_requests w)) (request_for url))
    as [r | e]; [| reflexivity].
  unfold bind at 1. unfold raise_for_status.
  destruct (http_error r) as [e |]; [reflexivity |].
  unfold ret at 1. unfold bind at 1. unfold BeautifulSoup at 1.
  cbn [w_parser advance].
  destruct (w_parser w (content r)) as [soup | e]; reflexivity.
Qed.

Lemma harvested_length (clock : nat -> str) (links : list Tag) :
  forall k, List.length (harvested clock k links)
            = List.length (kept_links links).
Proof.
  unfold kept_links.
  induction links as [| link rest IH]; intros k; cbn [harvested filter];
    [reflexivity |].
  unfold has_usable_href.
  destruct (usable_href link); cbn [List.length]; rewrite IH; reflexivity.
Qed.

Lemma harvested_nth (clock : nat -> str) (links : list Tag) :
  forall k i r,
    nth_error (harvested clock k links) i = Some r ->
    ev_scraped_at r = clock (k + i).
Proof.
  induction links as [| link rest IH]; intros k i r H; cbn [harvested] in H.
  - destruct i; discriminate H.
  - destruct (usable_href link); [| exact (IH _ _ _ H)].
    destruct i as [| i]; cbn [nth_error] in H.
    + injection H as <-. rewrite Nat.add_0_r. reflexivity.
    + rewrite (IH _ _ _ H). f_equal. lia.
Qed.

Lemma harvest_links_exact (links : list Tag) :
  forall events w,
    harvest_links links events w
    = match first_unprintable (w_console w)
              (map found_line (kept_links links)) with
      | None =>
          (Ok (events ++ harvested (w_clock w) (w_clock_reads w) links),
           advance [] (List.length (kept_links links))
             (map found_line (kept_links links)) 0 [] w)
      | Some (before, bad) =>
          (Raise (print_error (w_console w) bad),
           advance [] (S (List.length before)) before 0 [] w)
      end.
Proof.
  unfold kept_links.
  induction links as [| link rest IH]; intros events w;
    cbn [harvest_links harvested filter map first_unprintable].
  - unfold ret. rewrite app_nil_r, advance_nothing. reflexivity.
  - assert (Hk : has_usable_href link
                 = match tag_get link "href" with
                   | Some href => truthy href
                   | None => false
                   end).
    { unfold has_usable_href, usable_href.
      destruct (tag_get link "href") as [href |]; [| reflexivity].
      destruct (truthy href); reflexivity. }
    assert (Hline : forall href,
               tag_get link "href" = Some href ->
               lit "Found event: "
               ++ str_or (get_text [] link)
                    (tag_get_default link "title" (lit "No title"))
               ++ lit " - " ++ href = found_line link).
    { intros href Hh. unfold found_line, link_title, tag_get_default,
        dict_get_default. unfold tag_get in Hh. rewrite Hh. reflexivity. }
    rewrite Hk. unfold usable_href.
    destruct (tag_get link "href") as [href |] eqn:Hh;
      [destruct (truthy href) |]; try apply IH.
    rewrite (Hline href eq_refl).
    cbn [map first_unprintable].
    unfold bind at 1. rewrite datetime_now_isoformat_run.
    unfold bind at 1.
    destruct (can_print (w_console w) (found_line link)) eqn:Hp.
    + rewrite print_ok by (advance_proj; exact Hp).
      rewrite IH. advance_proj.
      rewrite Nat.add_0_r, Nat.add_1_r.
      match goal with
      | |- context [first_unprintable (w_console w) ?ls] =>
          destruct (first_unprintable (w_console w) ls) as [[before bad] |]
      end.
      * f_equal. advance_eq.
      * f_equal; [rewrite <- app_assoc; reflexivity | advance_eq].
    + rewrite print_fail by (advance_proj; exact Hp).
      reflexivity.
Qed.

Lemma fetch_page_quiet (url : str) (reads : nat) (lines : list str)
    (seconds : nat) (files : list FileWrite) (w : World) :
  fetch_page url (advance [] reads lines seconds files w) = fetch_page url w.
Proof. unfold fetch_page. advance_proj. rewrite app_nil_r. reflexivity. Qed.

Lemma listing_error_line_of_print (con con' : Console) (line : str) :
  can_print con' (listing_error_line (print_error con line)) = true.
Proof.
  unfold listing_error_line. cbn [print_error UnicodeEncodeError exn_class_of].
  apply (print_error_line con con' (lit "Error parsing the webpage: ") line).
  reflexivity.
Qed.

Lemma scrape_runway_events_try_exact (w : World) :
  scrape_runway_events_try w
  = match fetch_page LISTING_URL w with
    | Ok soup =>
        match first_unprintable (w_console w)
                (map found_line (kept_links (soup LISTING_SELECTOR))) with
        | None =>
            (Ok (harvested (w_clock w) (w_clock_reads w)
                   (soup LISTING_SELECTOR)),
             advance [request_for LISTING_URL]
               (List.length (kept_links (soup LISTING_SELECTOR)))
               ([FETCH_LINE]
                ++ map found_line (kept_links (soup LISTING_SELECTOR))
                ++ [total_line
                      (List.length (kept_links (soup LISTING_SELECTOR)))])
               0 [] w)
        | Some (before, bad) =>
            (Raise (print_error (w_console w) bad),
             advance [request_for LISTING_URL] (S (List.length before))
               ([FETCH_LINE] ++ before) 0 [] w)
        end
    | Raise e =>
        (Raise e, advance [request_for LISTING_URL] 0 [FETCH_LINE] 0 [] w)
    end.
Proof.
  unfold scrape_runway_events_try.
  unfold bind at 1. fold FETCH_LINE.
  rewrite (print_ascii _ _ FETCH_LINE_ascii).
  rewrite fetch_steps_run.
  rewrite fetch_page_quiet.
  destruct (fetch_page LISTING_URL w) as [soup | e].
  - unfold bind at 1, select. rewrite harvest_links_exact. advance_proj.
    destruct (first_unprintable (w_console w)
                (map found_line (kept_links (soup LISTING_SELECTOR))))
      as [[before bad] |].
    + f_equal. advance_eq.
    + rewrite !app_nil_l. unfold bind at 1. rewrite harvested_length.
      fold (total_line (List.length (kept_links (soup LISTING_SELECTOR)))).
      rewrite (print_ascii _ _ (total_line_ascii _)).
      unfold ret. rewrite !Nat.add_0_r. f_equal. advance_eq.
  - f_equal. advance_eq.
Qed.

Lemma scrape_runway_events_exact (w : World) :
  scrape_runway_events w
  = (fst (fst (listing_report w)),
     advance [request_for LISTING_URL] (snd (fst (listing_report w)))
       (snd (listing_report w)) 0 [] w).
Proof.
  unfold scrape_runway_events, try_except, listing_report.
  rewrite scrape_runway_events_try_exact.
  destruct (fetch_page LISTING_URL w) as [soup | e].
  - destruct (first_unprintable (w_console w)
                (map found_line (kept_links (soup LISTING_SELECTOR))))
      as [[before bad] |]; cbn [fst snd]; [| reflexivity].
    unfold scrape_runway_events_except.
    cbn [print_error UnicodeEncodeError exn_class_of].
    unfold bind.
    rewrite print_ok
      by (advance_proj;
          apply (listing_error_line_of_print (w_console w) (w_console w) bad)).
    unfold ret. f_equal.
    unfold listing_error_line.
    cbn [print_error UnicodeEncodeError exn_class_of exn_str].
    advance_eq.
  - unfold scrape_runway_events_except.
    assert (Hline :
              match exn_class_of e with
              | RequestException =>
                  lit "Error fetching the webpage: " ++ exn_str e
              | OtherException =>
                  lit "Error parsing the webpage: " ++ exn_str e
              end = listing_error_line e) by reflexivity.
    destruct (can_print (w_console w) (listing_error_line e)) eqn:Hp;
      cbn [fst snd].
    + destruct (exn_class_of e); unfold bind;
        (rewrite print_ok by (advance_proj; rewrite Hline; exact Hp));
        unfold ret; rewrite Hline; f_equal; advance_eq.
    + destruct (exn_class_of e); unfold bind;
        (rewrite print_fail by (advance_proj; rewrite Hline; exact Hp));
        advance_proj; rewrite Hline; reflexivity.
Qed.

Lemma scrape_event_details_try_run (url : str) (w : World) :
  scrape_event_details_try url w
  = (match fetch_page url w with
     | Ok soup => Ok (extract_details soup)
     | Raise e => Raise e
     end, advance [request_for url] 0 [] 0 [] w).
Proof.
  unfold scrape_event_details_try. rewrite fetch_steps_run.
  destruct (fetch_page url w); reflexivity.
Qed.

Lemma scrape_event_details_exact (event_url : str) (w : World) :
  scrape_event_details event_url w
  = (fst (details_report event_url w),
     advance [request_for event_url] 0 (snd (details_report event_url w))
       0 [] w).
Proof.
  unfold scrape_event_details, try_except, details_report.
  rewrite scrape_event_details_try_run.
  destruct (fetch_page event_url w) as [soup | e]; [reflexivity |].
  unfold scrape_event_details_except. fold (details_error_line event_url e).
  unfold bind.
  destruct (can_print (w_console w) (details_error_line event_url e)) eqn:Hp;
    cbn [fst snd].
  - rewrite print_ok by (advance_proj; exact Hp).
    unfold ret. f_equal. advance_eq.
  - rewrite print_fail by (advance_proj; exact Hp). reflexivity.
Qed.

(** The result of [scrape_event_details] is an exception exactly when
    the fetch failed and the console cannot print the error line. *)
Lemma details_report_ok (event_url : str) (w : World) :
  forallb (can_print (w_console w))
    (details_console event_url (fetch_page event_url w)) = true ->
  details_report event_url w
  = (Ok (details_of_page (fetch_page event_url w)),
     details_console event_url (fetch_page event_url w)).
Proof.
  unfold details_report, details_console.
  destruct (fetch_page event_url w) as [soup | e]; [reflexivity |].
  cbn [forallb]. rewrite andb_true_r. intros ->. reflexivity.
Qed.

Lemma details_report_raise (event_url : str) (w : World) :
  forallb (can_print (w_console w))
    (details_console event_url (fetch_page event_url w)) = false ->
  exists e, details_report event_url w = (Raise e, []).
Proof.
  unfold details_report, details_console.
  destruct (fetch_page event_url w) as [soup | e]; [discriminate |].
  cbn [forallb]. rewrite andb_true_r. intros ->. eexists. reflexivity.
Qed.

Lemma details_report_quiet (url : str) (reads : nat) (lines : list str)
    (seconds : nat) (files : list FileWrite) (w : World) :
  details_report url (advance [] reads lines seconds files w)
  = details_report url w.
Proof.
  unfold details_report. rewrite fetch_page_quiet. advance_proj. reflexivity.
Qed.

Lemma scrape_all_loop_ok (events : list EventReference) :
  forall total i detailed_events w,
    loop_printable (w_console w) (w_server w) (w_parser w) total i
      (List.length (w_requests w)) events = true ->
    scrape_all_loop total i events detailed_events w
    = (Ok (detailed_events
           ++ detailed_from (w_server w) (w_parser w)
                (List.length (w_requests w)) events),
       advance (map (fun event => request_for (ev_url event)) events) 0
         (progress_console (w_server w) (w_parser w) total i
            (List.length (w_requests w)) events)
         (List.length events) [] w).
Proof.
  induction events as [| event rest IH]; intros total i acc w Hp;
    cbn [scrape_all_loop detailed_from progress_console map List.length].
  - unfold ret. rewrite app_nil_r, advance_nothing. reflexivity.
  - cbn [loop_printable] in Hp.
    apply andb_true_iff in Hp. destruct Hp as [Hp Hrest].
    apply andb_true_iff in Hp. destruct Hp as [Hline Hdet].
    fold (fetch_page (ev_url event) w) in Hdet |- *.
    fold (progress_line total i event).
    unfold bind at 1. rewrite (print_ok _ _ Hline).
    unfold bind at 1. rewrite scrape_event_details_exact.
    rewrite details_report_quiet.
    rewrite (details_report_ok _ _ Hdet).
    cbn [fst snd]. unfold bind at 1. rewrite time_sleep_run.
    rewrite IH.
    + advance_proj. rewrite !app_nil_r, length_app. cbn [List.length].
      rewrite Nat.add_1_r. f_equal.
      * rewrite <- app_assoc. reflexivity.
      * advance_eq.
    + advance_proj. rewrite !app_nil_r, length_app. cbn [List.length].
      rewrite Nat.add_1_r. exact Hrest.
Qed.

(** A loop that raises has sent the requests of the first [m]
    references, one after the other, and has slept once for each
    reference it was done with. *)
Lemma scrape_all_loop_raise (events : list EventReference) :
  forall total i detailed_events w,
    loop_printable (w_console w) (w_server w) (w_parser w) total i
      (List.length (w_requests w)) events = false ->
    exists e m lines seconds,
      m <= List.length events
      /\ seconds <= m
      /\ seconds < List.length events
      /\ scrape_all_loop total i events detailed_events w
         = (Raise e,
            advance
              (map (fun event => request_for (ev_url event)) (firstn m events))
              0 lines seconds [] w).
Proof.
  induction events as [| event rest IH]; intros total i acc w Hp;
    cbn [scrape_all_loop loop_printable] in *; [discriminate Hp |].
  fold (fetch_page (ev_url event) w) in Hp.
  fold (progress_line total i event).
  unfold bind at 1.
  destruct (can_print (w_console w) (progress_line total i event)) eqn:Hline.
  - rewrite (print_ok _ _ Hline).
    unfold bind at 1. rewrite scrape_event_details_exact.
    rewrite details_report_quiet.
    cbn [andb] in Hp.
    destruct (forallb (can_print (w_console w))
                (details_console (ev_url event)
                   (fetch_page (ev_url event) w))) eqn:Hdet.
    + rewrite (details_report_ok _ _ Hdet).
      cbn [fst snd andb] in *. unfold bind at 1. rewrite time_sleep_run.
      match goal with
      | |- context [scrape_all_loop total (S i) rest ?acc' ?w1] =>
          destruct (IH total (S i) acc' w1)
            as (e & m & lines & seconds & Hm & Hs & Hlt & Hrun)
      end.
      { advance_proj. rewrite !app_nil_r, length_app. cbn [List.length].
        rewrite Nat.add_1_r. exact Hp. }
      rewrite Hrun. rewrite !advance_advance.
      exists e, (S m). eexists. exists (S seconds).
      cbn [List.length firstn map].
      split; [lia |]. split; [lia |]. split; [lia |].
      f_equal.
    + destruct (details_report_raise _ _ Hdet) as (e & He).
      rewrite He. cbn [fst snd]. rewrite advance_advance.
      exists e, 1. eexists. exists 0.
      cbn [List.length firstn map].
      split; [lia |]. split; [lia |]. split; [lia |].
      f_equal.
  - rewrite (print_fail _ _ Hline).
    exists (print_error (w_console w) (progress_line total i event)), 0, [], 0.
    cbn [List.length firstn map].
    split; [lia |]. split; [lia |]. split; [lia |].
    rewrite advance_nothing. reflexivity.
Qed.
(** * The shape of the detail records *)

Lemma extract_details_eq (soup : Soup) :
  extract_details soup =
  [ ("title"%string,
     match select_one soup "h1.eventitem-title" with
     | Some e => get_text [] e
     | None => lit "No title found"
     end);
    ("date"%string,
     match select_one soup "time.event-date" with
     | Some e => date_of_text (get_text [] e)
     | None => lit "No date found"
     end);
    ("date_datetime"%string,
     match select_one soup "time.event-date" with
     | Some e => tag_get_default e "datetime" []
     | None => []
     end);
    ("start_time"%string,
     match select_one soup "time.event-time-localized-start" with
     | Some e => get_text [] e
     | None => lit "No start time found"
     end);
    ("end_time"%string,
     match select_one soup "time.event-time-localized-end" with
     | Some e => get_text [] e
     | None => lit "No end time found"
     end);
    ("book_link"%string,
     match select_one soup
             "a.sqs-block-button-element--medium.sqs-button-element--primary.sqs-block-button-element" with
     | Some e => tag_get_default e "href" []
     | None => []
     end);
    ("book_link_text"%string,
     match select_one soup
             "a.sqs-block-button-element--medium.sqs-button-element--primary.sqs-block-button-element" with
     | Some e => get_text [] e
     | None => []
     end);
    ("description"%string,
     match select_one soup "div.sqs-block.html-block.sqs-block-html" with
     | Some e => re_sub_ws (get_text (lit " ") e)
     | None => lit "No description found"
     end) ].
Proof.
  unfold extract_details.
  destruct (select_one soup "time.event-date");
    destruct (select_one soup
      "a.sqs-block-button-element--medium.sqs-button-element--primary.sqs-block-button-element");
    destruct (select_one soup "div.sqs-block.html-block.sqs-block-html");
    reflexivity.
Qed.

Lemma extract_details_keys (soup : Soup) :
  dict_keys (extract_details soup) = DETAIL_KEYS.
Proof. rewrite extract_details_eq. reflexivity. Qed.

Lemma error_details_keys (e : exn) : dict_keys (error_details e) = ERROR_KEYS.
Proof. reflexivity. Qed.

(** Neither kind of detail record has a [url] or a [scraped_at] key, so
    the merge puts the two keys of the reference in front of the
    detail record. *)
Lemma detailed_event_eq (event : EventReference) (page : result Soup) :
  detailed_event event (details_of_page page)
  = ("url"%string, ev_url event)
    :: ("scraped_at"%string, ev_scraped_at event)
    :: details_of_page page.
Proof.
  destruct page as [soup | e]; cbn [details_of_page].
  - rewrite extract_details_eq. reflexivity.
  - reflexivity.
Qed.

Lemma details_of_page_no_reference_key (page : result Soup) :
  dict_get (details_of_page page) "url" = None
  /\ dict_get (details_of_page page) "scraped_at" = None.
Proof.
  destruct page as [soup | e]; cbn [details_of_page].
  - rewrite extract_details_eq. split; reflexivity.
  - split; reflexivity.
Qed.

Lemma detailed_event_lookup (event : EventReference) (page : result Soup) :
  let details := details_of_page page in
  let record := detailed_event event details in
  dict_get record "url" = Some (ev_url event)
  /\ dict_get record "scraped_at" = Some (ev_scraped_at event)
  /\ (forall k v, dict_get details k = Some v -> dict_get record k = Some v)
  /\ dict_keys record = "url"%string :: "scraped_at"%string :: dict_keys details.
Proof.
  intros details record. subst record details.
  rewrite detailed_event_eq.
  destruct (details_of_page_no_reference_key page) as [Hu Hs].
  split; [reflexivity | split; [reflexivity | split; [| reflexivity]]].
  intros k v Hk. cbn [dict_get].
  destruct (String.eqb "url" k) eqn:E1.
  - apply String.eqb_eq in E1. subst k. congruence.
  - destruct (String.eqb "scraped_at" k) eqn:E2.
    + apply String.eqb_eq in E2. subst k. congruence.
    + exact Hk.
Qed.

Lemma detailed_from_length server parser (events : list EventReference) :
  forall k, List.length (detailed_from server parser k events) = List.length events.
Proof.
  induction events as [| event rest IH]; intros k; cbn [detailed_from List.length].
  - reflexivity.
  - f_equal. apply IH.
Qed.

Lemma detailed_from_nth server parser (events : list EventReference) :
  forall k i event,
    nth_error events i = Some event ->
    nth_error (detailed_from server parser k events) i
    = Some (detailed_event event
              (details_of_page
                 (page_of_reply parser
                    (server (k + i) (request_for (ev_url event)))))).
Proof.
  induction events as [| ev rest IH]; intros k i event Hnth.
  - destruct i; discriminate Hnth.
  - destruct i as [| i]; cbn [nth_error detailed_from] in *.
    + injection Hnth as ->. rewrite Nat.add_0_r. reflexivity.
    + rewrite (IH (S k) i event Hnth).
      replace (S k + i) with (k + S i) by lia. reflexivity.
Qed.


(** * The listing harvester *)

(** A fetch fails exactly when the request raises, or the status check
    raises, or the parser raises. *)
Lemma fetch_page_raise_iff (url : str) (w : World) (e : exn) :
  let reply := w_server w (List.length (w_requests w)) (request_for url) in
  fetch_page url w = Raise e <->
  (reply = Raise e
   \/ (exists r, reply = Ok r /\ http_error r = Some e)
   \/ (exists r, reply = Ok r /\ http_error r = None
                 /\ w_parser w (content r) = Raise e)).
Proof.
  cbv zeta. unfold fetch_page, page_of_reply.
  destruct (w_server w (List.length (w_requests w)) (request_for url))
    as [r | e0].
  - split.
    + intros H. right. destruct (http_error r) as [e1 |] eqn:Hh.
      * left. exists r. split; [reflexivity | congruence].
      * right. exists r. repeat split; assumption.
    + intros [H | [(r' & Hr & Hh) | (r' & Hr & Hh & Hp)]].
      * discriminate H.
      * injection Hr as <-. rewrite Hh. reflexivity.
      * injection Hr as <-. rewrite Hh. exact Hp.
  - split.
    + intros H. left. congruence.
    + intros [H | [(r' & Hr & _) | (r' & Hr & _)]];
        [congruence | discriminate Hr | discriminate Hr].
Qed.

Lemma http_error_status (r : Response) :
  (400 <= status_code r < 600)%N <-> http_error r <> None.
Proof.
  unfold http_error.
  destruct ((400 <=? status_code r)%N) eqn:E1;
    destruct ((status_code r <? 500)%N) eqn:E2;
    destruct ((500 <=? status_code r)%N) eqn:E3;
    destruct ((status_code r <? 600)%N) eqn:E4;
    cbn [andb];
    try apply N.leb_le in E1; try apply N.leb_gt in E1;
    try apply N.ltb_lt in E2; try apply N.ltb_ge in E2;
    try apply N.leb_le in E3; try apply N.leb_gt in E3;
    try apply N.ltb_lt in E4; try apply N.ltb_ge in E4;
    split; intros H; try lia; try discriminate; try congruence.
Qed.

(** * Returning and raising *)

Lemma scrape_runway_events_result (w : World) :
  fst (scrape_runway_events w) = fst (fst (listing_report w)).
Proof. rewrite scrape_runway_events_exact. reflexivity. Qed.

Lemma listing_report_failed (w : World) (e : exn) :
  fetch_page LISTING_URL w = Raise e ->
  can_print (w_console w) (listing_error_line e) = true ->
  listing_report w = (Ok [], 0, [FETCH_LINE; listing_error_line e]).
Proof. intros Hpage Hp. unfold listing_report. rewrite Hpage, Hp. reflexivity. Qed.

Lemma listing_report_fetched (w : World) (soup : Soup) :
  fetch_page LISTING_URL w = Ok soup ->
  fst (fst (listing_report w))
  = Ok match first_unprintable (w_console w)
               (map found_line (kept_links (soup LISTING_SELECTOR))) with
       | None => harvested (w_clock w) (w_clock_reads w) (soup LISTING_SELECTOR)
       | Some _ => []
       end.
Proof.
  intros Hpage. unfold listing_report. rewrite Hpage.
  destruct (first_unprintable (w_console w)
              (map found_line (kept_links (soup LISTING_SELECTOR))))
    as [[before bad] |]; reflexivity.
Qed.

Lemma scrape_event_details_result (event_url : str) (w : World) :
  fst (scrape_event_details event_url w) = fst (details_report event_url w).
Proof. rewrite scrape_event_details_exact. reflexivity. Qed.

Lemma scrape_event_details_fetched (event_url : str) (w : World) (soup : Soup) :
  fetch_page event_url w = Ok soup ->
  fst (scrape_event_details event_url w) = Ok (extract_details soup).
Proof.
  intros Hpage. rewrite scrape_event_details_result.
  unfold details_report. rewrite Hpage. reflexivity.
Qed.

Lemma scrape_event_details_failed (event_url : str) (w : World) (e : exn) :
  fetch_page event_url w = Raise e ->
  can_print (w_console w) (details_error_line event_url e) = true ->
  fst (scrape_event_details event_url w) = Ok (error_details e).
Proof.
  intros Hpage Hp. rewrite scrape_event_details_result.
  unfold details_report. rewrite Hpage, Hp. reflexivity.
Qed.

Lemma scrape_event_details_unprintable (event_url : str) (w : World) (e : exn) :
  fetch_page event_url w = Raise e ->
  can_print (w_console w) (details_error_line event_url e) = false ->
  fst (scrape_event_details event_url w)
  = Raise (print_error (w_console w) (details_error_line event_url e)).
Proof.
  intros Hpage Hp. rewrite scrape_event_details_result.
  unfold details_report. rewrite Hpage, Hp. reflexivity.
Qed.

(** What [scrape_event_details] returns, when it returns, is the
    record of the page or of the failure. *)
Lemma scrape_event_details_returns (event_url : str) (w : World)
    (details : Dict) :
  fst (scrape_event_details event_url w) = Ok details ->
  details = details_of_page (fetch_page event_url w)
  /\ forallb (can_print (w_console w))
       (details_console event_url (fetch_page event_url w)) = true.
Proof.
  rewrite scrape_event_details_result. unfold details_report.
  destruct (fetch_page event_url w) as [soup | e]; cbn [fst].
  - intros H. injection H as <-. split; reflexivity.
  - destruct (can_print (w_console w) (details_error_line event_url e)) eqn:Hp;
      cbn [fst]; intros H; [| discriminate H].
    injection H as <-. split; [reflexivity |].
    cbn [details_console forallb]. rewrite Hp. reflexivity.
Qed.

Lemma scrape_event_details_printable (event_url : str) (w : World) :
  forallb (can_print (w_console w))
    (details_console event_url (fetch_page event_url w)) = true ->
  fst (scrape_event_details event_url w)
  = Ok (details_of_page (fetch_page event_url w)).
Proof.
  intros Hp. rewrite scrape_event_details_result.
  rewrite (details_report_ok _ _ Hp). reflexivity.
Qed.

Lemma scrape_all_event_details_printable (events : list EventReference)
    (w : World) :
  loop_printable (w_console w) (w_server w) (w_parser w) (List.length events)
    1 (List.length (w_requests w)) events = true ->
  scrape_all_event_details events w
  = (Ok (detailed_from (w_server w) (w_parser w)
           (List.length (w_requests w)) events),
     advance (map (fun event => request_for (ev_url event)) events) 0
       (progress_console (w_server w) (w_parser w) (List.length events) 1
          (List.length (w_requests w)) events)
       (List.length events) [] w).
Proof.
  intros Hp. unfold scrape_all_event_details.
  rewrite (scrape_all_loop_ok _ _ _ [] _ Hp). reflexivity.
Qed.

Lemma scrape_all_event_details_unprintable (events : list EventReference)
    (w : World) :
  loop_printable (w_console w) (w_server w) (w_parser w) (List.length events)
    1 (List.length (w_requests w)) events = false ->
  exists e m lines seconds,
    m <= List.length events
    /\ seconds <= m
    /\ seconds < List.length events
    /\ scrape_all_event_details events w
       = (Raise e,
          advance
            (map (fun event => request_for (ev_url event)) (firstn m events))
            0 lines seconds [] w).
Proof.
  intros Hp. unfold scrape_all_event_details.
  apply scrape_all_loop_raise. exact Hp.
Qed.

(** [scrape_all_event_details] returns exactly when the console can
    print every line of its loop, and then it returns the records of
    [detailed_from]. *)
Lemma scrape_all_event_details_returns (events : list EventReference)
    (w : World) (out : list Dict) :
  fst (scrape_all_event_details events w) = Ok out ->
  loop_printable (w_console w) (w_server w) (w_parser w) (List.length events)
    1 (List.length (w_requests w)) events = true
  /\ out = detailed_from (w_server w) (w_parser w)
             (List.length (w_requests w)) events.
Proof.
  intros Hout.
  destruct (loop_printable (w_console w) (w_server w) (w_parser w)
              (List.length events) 1 (List.length (w_requests w)) events)
    eqn:Hp.
  - rewrite (scrape_all_event_details_printable _ _ Hp) in Hout.
    injection Hout as <-. split; reflexivity.
  - destruct (scrape_all_event_details_unprintable _ _ Hp)
      as (e & m & lines & seconds & _ & _ & _ & Hrun).
    rewrite Hrun in Hout. discriminate Hout.
Qed.

Lemma loop_printable_nth (con : Console) server parser (total : nat)
    (events : list EventReference) :
  forall i k j event,
    loop_printable con server parser total i k events = true ->
    nth_error events j = Some event ->
    can_print con (progress_line total (i + j) event) = true
    /\ forallb (can_print con)
         (details_console (ev_url event)
            (page_of_reply parser
               (server (k + j) (request_for (ev_url event))))) = true.
Proof.
  induction events as [| ev rest IH]; intros i k [| j] event Hp Hnth;
    cbn [nth_error] in Hnth; try discriminate Hnth;
    cbn [loop_printable] in Hp;
    apply andb_true_iff in Hp; destruct Hp as [Hp Hrest];
    apply andb_true_iff in Hp; destruct Hp as [Hline Hdet].
  - injection Hnth as <-. rewrite !Nat.add_0_r. split; assumption.
  - replace (i + S j) with (S i + j) by lia.
    replace (k + S j) with (S k + j) by lia.
    apply IH; assumption.
Qed.

(** Digits are ASCII: whether a progress line can be printed depends
    on the title alone. *)
Lemma progress_line_printable (con : Console) (total i : nat)
    (event : EventReference) :
  can_print con (progress_line total i event) = can_print con (ev_title event).
Proof.
  unfold progress_line. rewrite !can_print_app.
  rewrite !(can_print_ascii con _ (str_of_nat_ascii _)).
  reflexivity.
Qed.

Lemma loop_printable_numbering (con : Console) server parser
    (events : list EventReference) :
  forall total total' i i' k,
    loop_printable con server parser total i k events
    = loop_printable con server parser total' i' k events.
Proof.
  induction events as [| event rest IH]; intros total total' i i' k;
    cbn [loop_printable]; [reflexivity |].
  rewrite !progress_line_printable.
  rewrite (IH total total' (S i) (S i') (S k)). reflexivity.
Qed.

Lemma loop_printable_iff (w : World) (events : list EventReference)
    (total i : nat) :
  loop_printable (w_console w) (w_server w) (w_parser w) total i
    (List.length (w_requests w)) events = true
  <-> loop_lines_printable w events.
Proof.
  unfold loop_lines_printable.
  generalize (List.length (w_requests w)). revert total i.
  induction events as [| event rest IH]; intros total i k;
    cbn [loop_printable].
  - split; [intros _ [| j] event H; discriminate H | reflexivity].
  - rewrite progress_line_printable, !andb_true_iff, (IH total (S i) (S k)).
    split.
    + intros [[Ht Hd] Hrest] [| j] ev Hnth; cbn [nth_error] in Hnth.
      * injection Hnth as <-. rewrite Nat.add_0_r. split; [exact Ht |].
        intros e He. rewrite He in Hd. cbn [details_console forallb] in Hd.
        apply andb_true_iff in Hd. exact (proj1 Hd).
      * replace (k + S j) with (S k + j) by lia. apply Hrest. exact Hnth.
    + intros Hall. split; [split |].
      * apply (Hall 0 event eq_refl).
      * destruct (Hall 0 event eq_refl) as [_ He].
        rewrite Nat.add_0_r in He. unfold details_console.
        destruct (page_of_reply (w_parser w)
                    (w_server w k (request_for (ev_url event))))
          as [soup | e]; [reflexivity |].
        cbn [forallb]. rewrite andb_true_r. apply (He e eq_refl).
      * intros j ev Hnth. specialize (Hall (S j) ev Hnth).
        replace (S k + j) with (k + S j) by lia. exact Hall.
Qed.

(** [scrape_all_event_details] returns exactly when the console can
    print the lines of its loop. *)
Lemma scrape_all_event_details_returns_iff (events : list EventReference)
    (w : World) :
  (exists out, fst (scrape_all_event_details events w) = Ok out)
  <-> loop_lines_printable w events.
Proof.
  rewrite <- (loop_printable_iff w events (List.length events) 1). split.
  - intros (out & Hout).
    apply (scrape_all_event_details_returns _ _ Hout).
  - intros Hp. eexists.
    rewrite (scrape_all_event_details_printable _ _ Hp). reflexivity.
Qed.

Lemma detailed_from_ext server parser :
  forall (events events' : list EventReference) (k : nat),
    map ev_url events' = map ev_url events ->
    map ev_scraped_at events' = map ev_scraped_at events ->
    detailed_from server parser k events'
    = detailed_from server parser k events.
Proof.
  induction events as [| ev rest IH]; intros [| ev' rest'] k Hurl Hat;
    try discriminate; [reflexivity |].
  cbn [map] in Hurl, Hat. injection Hurl as Hu Hurl. injection Hat as Ha Hat.
  cbn [detailed_from]. rewrite (IH rest' (S k) Hurl Hat).
  rewrite Hu. f_equal.
  rewrite !detailed_event_eq. rewrite Hu, Ha. reflexivity.
Qed.

(** * The listing harvester and its exceptions *)

Lemma status_error_fetch (url : str) (w : World) (r : Response) :
  w_server w (List.length (w_requests w)) (request_for url) = Ok r ->
  (400 <= status_code r < 600)%N ->
  exists e, http_error r = Some e /\ fetch_page url w = Raise e.
Proof.
  intros Hr Hstatus. apply http_error_status in Hstatus.
  destruct (http_error r) as [e |] eqn:Hh; [| congruence].
  exists e. split; [reflexivity |].
  apply fetch_page_raise_iff. right. left. exists r. split; assumption.
Qed.

Lemma status_other_fetch (url : str) (w : World) (r : Response) :
  w_server w (List.length (w_requests w)) (request_for url) = Ok r ->
  ~ (400 <= status_code r < 600)%N ->
  fetch_page url w = w_parser w (content r).
Proof.
  intros Hr Hstatus. unfold fetch_page, page_of_reply. rewrite Hr.
  destruct (http_error r) as [e |] eqn:Hh; [| reflexivity].
  exfalso. apply Hstatus. apply http_error_status. congruence.
Qed.

(** C3 (amended): when the fetch of the listing page fails (the request
    raises, the status is one of 400 to 599, the parser raises) and
    the console can print the error line, [scrape_runway_events]
    returns the empty list. When the page is fetched and parsed, the
    function returns a list in every world, and the list is empty when
    anything in the [try] block raised. A reply with a status outside
    400 to 599 is parsed like any other. *)
Theorem scrape_runway_events_never_raises (w : World) :
  (forall e,
      fetch_page LISTING_URL w = Raise e ->
      can_print (w_console w) (listing_error_line e) = true ->
      fst (scrape_runway_events w) = Ok [])
  /\ (forall r,
        w_server w (List.length (w_requests w)) (request_for LISTING_URL)
        = Ok r ->
        (400 <= status_code r < 600)%N ->
        exists e,
          http_error r = Some e
          /\ fetch_page LISTING_URL w = Raise e
          /\ (can_print (w_console w) (listing_error_line e) = true ->
              fst (scrape_runway_events w) = Ok []))
  /\ (forall soup,
        fetch_page LISTING_URL w = Ok soup ->
        exists events,
          fst (scrape_runway_events w) = Ok events
          /\ forall e w',
               scrape_runway_events_try w = (Raise e, w') -> events = [])
  /\ (forall r,
        w_server w (List.length (w_requests w)) (request_for LISTING_URL)
        = Ok r ->
        ~ (400 <= status_code r < 600)%N ->
        fetch_page LISTING_URL w = w_parser w (content r)).
Proof.
  assert (Hfail : forall e,
             fetch_page LISTING_URL w = Raise e ->
             can_print (w_console w) (listing_error_line e) = true ->
             fst (scrape_runway_events w) = Ok []).
  { intros e He Hp. rewrite scrape_runway_events_result.
    rewrite (listing_report_failed _ He Hp). reflexivity. }
  split; [exact Hfail |]. split; [| split].
  - intros r Hr Hstatus.
    destruct (status_error_fetch _ _ Hr Hstatus) as (e & Hh & He).
    exists e. split; [exact Hh |]. split; [exact He |]. apply Hfail, He.
  - intros soup Hpage. eexists.
    split.
    + rewrite scrape_runway_events_result.
      apply (listing_report_fetched _ Hpage).
    + intros e w' Htry. rewrite scrape_runway_events_try_exact, Hpage in Htry.
      destruct (first_unprintable (w_console w)
                  (map found_line (kept_links (soup LISTING_SELECTOR))))
        as [[before bad] |]; [reflexivity | discriminate Htry].
  - intros r Hr Hstatus. apply (status_other_fetch _ _ Hr Hstatus).
Qed.

(** * The detail extractor *)

(** C5: when the page is fetched and parsed, [scrape_event_details]
    returns one record with the eight keys, whatever elements the page
    lacks, and every field whose element is absent holds its
    sentinel. *)
Theorem scrape_event_details_sentinels (event_url : str) (w : World)
    (soup : Soup) :
  fetch_page event_url w = Ok soup ->
  exists details,
    fst (scrape_event_details event_url w) = Ok details
    /\ dict_keys details
       = ["title"; "date"; "date_datetime"; "start_time"; "end_time";
          "book_link"; "book_link_text"; "description"]%string
    /\ (select_one soup "h1.eventitem-title" = None ->
        dict_get details "title" = Some (lit "No title found"))
    /\ (select_one soup "time.event-date" = None ->
        dict_get details "date" = Some (lit "No date found")
        /\ dict_get details "date_datetime" = Some [])
    /\ (select_one soup "time.event-time-localized-start" = None ->
        dict_get details "start_time" = Some (lit "No start time found"))
    /\ (select_one soup "time.event-time-localized-end" = None ->
        dict_get details "end_time" = Some (lit "No end time found"))
    /\ (select_one soup
          "a.sqs-block-button-element--medium.sqs-button-element--primary.sqs-block-button-element"
        = None ->
        dict_get details "book_link" = Some []
        /\ dict_get details "book_link_text" = Some [])
    /\ (select_one soup "div.sqs-block.html-block.sqs-block-html" = None ->
        dict_get details "description" = Some (lit "No description found")).
Proof.
  intros Hpage.
  exists (extract_details soup).
  split; [apply (scrape_event_details_fetched _ _ Hpage) |].
  split; [apply extract_details_keys |].
  rewrite extract_details_eq.
  repeat (split || intro);
    match goal with
    | H : select_one _ _ = None |- _ => rewrite H; reflexivity
    end.
Qed.

(** C10: on the failure path the record that [scrape_event_details]
    returns has six keys only; it has neither [date_datetime] nor
    [book_link_text], so the merged record of a failed event has eight
    fields where the merged record of a scraped event has ten. The
    record is returned whenever the console can print the error
    line. *)
Theorem scrape_event_details_failure_keys (event_url : str) (w : World)
    (e : exn) :
  fetch_page event_url w = Raise e ->
  (can_print (w_console w) (details_error_line event_url e) = true ->
   exists details, fst (scrape_event_details event_url w) = Ok details)
  /\ forall details,
       fst (scrape_event_details event_url w) = Ok details ->
       dict_keys details
       = ["title"; "date"; "start_time"; "end_time"; "book_link";
          "description"]%string
       /\ dict_get details "date_datetime" = None
       /\ dict_get details "book_link_text" = None
       /\ forall event,
            List.length (detailed_event event details) = 8
            /\ forall event_url' w' soup,
                 fetch_page event_url' w' = Ok soup ->
                 exists details',
                   fst (scrape_event_details event_url' w') = Ok details'
                   /\ List.length (detailed_event event details') = 10.
Proof.
  intros Hpage. split.
  - intros Hp. eexists. apply (scrape_event_details_failed _ _ Hpage Hp).
  - intros details Hrun.
    destruct (scrape_event_details_returns _ _ Hrun) as [-> _].
    rewrite Hpage. cbn [details_of_page].
    repeat split.
    intros event_url' w' soup Hpage'.
    exists (extract_details soup).
    split; [apply (scrape_event_details_fetched _ _ Hpage') |].
    rewrite extract_details_eq. reflexivity.
Qed.





(** * The orchestrator *)

(** C4: whenever [scrape_all_event_details] returns, its output has
    one record per reference, in the order of the references. The
    record of rank [i] is the merge of the reference of rank [i] with
    what [scrape_event_details] returns for its url at the request of
    that rank: it carries the url and scraped_at of the reference and
    every field of the detail record, the title among them. The titles
    of the references have no part in the output. The function returns
    whenever the console can print every line of the loop. *)
Theorem scrape_all_event_details_order (events : list EventReference)
    (w : World) :
  (loop_lines_printable w events ->
   exists out, fst (scrape_all_event_details events w) = Ok out)
  /\ forall out,
       fst (scrape_all_event_details events w) = Ok out ->
       List.length out = List.length events
       /\ (forall i event,
             nth_error events i = Some event ->
             forall wi,
               same_oracles w wi ->
               w_console wi = w_console w ->
               List.length (w_requests wi) = List.length (w_requests w) + i ->
               exists details,
                 fst (scrape_event_details (ev_url event) wi) = Ok details
                 /\ nth_error out i = Some (detailed_event event details)
                 /\ dict_get (detailed_event event details) "url"
                    = Some (ev_url event)
                 /\ dict_get (detailed_event event details) "scraped_at"
                    = Some (ev_scraped_at event)
                 /\ dict_get (detailed_event event details) "title"
                    = dict_get details "title"
                 /\ (forall k v,
                       dict_get details k = Some v ->
                       dict_get (detailed_event event details) k = Some v)
                 /\ dict_keys (detailed_event event details)
                    = "url"%string :: "scraped_at"%string
                      :: dict_keys details)
       /\ (forall events' out',
             map ev_url events' = map ev_url events ->
             map ev_scraped_at events' = map ev_scraped_at events ->
             fst (scrape_all_event_details events' w) = Ok out' ->
             out' = out).
Proof.
  split.
  - intros Hp. apply scrape_all_event_details_returns_iff. exact Hp.
  - intros out Hout.
    destruct (scrape_all_event_details_returns _ _ Hout) as [Hp ->].
    split; [apply detailed_from_length |].
    split.
    + intros i event Hnth wi (Ho1 & Ho2 & _) Hcon Hlen.
      edestruct loop_printable_nth as [_ Hdet]; [exact Hp | exact Hnth |].
      assert (Hpage : fetch_page (ev_url event) wi
                      = page_of_reply (w_parser w)
                          (w_server w (List.length (w_requests w) + i)
                             (request_for (ev_url event)))).
      { unfold fetch_page. rewrite Ho1, Ho2, Hlen. reflexivity. }
      exists (details_of_page (fetch_page (ev_url event) wi)).
      split.
      { apply scrape_event_details_printable.
        rewrite Hcon, Hpage. exact Hdet. }
      set (page := fetch_page (ev_url event) wi) in *.
      destruct (detailed_event_lookup event page) as (Hu & Hs & Hall & Hkeys).
      split.
      { rewrite (detailed_from_nth _ _ _ _ _ Hnth), Hpage. reflexivity. }
      split; [exact Hu |].
      split; [exact Hs |].
      split.
      { rewrite detailed_event_eq. reflexivity. }
      split; [exact Hall | exact Hkeys].
    + intros events' out' Hurl Hat Hout'.
      destruct (scrape_all_event_details_returns _ _ Hout') as [_ ->].
      apply detailed_from_ext; assumption.
Qed.

(** * The references of the listing *)

Lemma has_usable_href_true (link : Tag) :
  has_usable_href link = true <->
  exists href, tag_get link "href" = Some href /\ href <> [].
Proof.
  unfold has_usable_href, usable_href.
  destruct (tag_get link "href") as [[| c href] |]; cbn [truthy]; split;
    try discriminate.
  - intros (href & H & Hne). injection H as <-. contradiction.
  - intros _. exists (c :: href). split; [reflexivity | discriminate].
  - intros _. reflexivity.
  - intros (href & H & _). discriminate H.
Qed.

Lemma has_usable_href_false (link : Tag) :
  has_usable_href link = false <->
  (tag_get link "href" = None \/ tag_get link "href" = Some []).
Proof.
  unfold has_usable_href, usable_href.
  destruct (tag_get link "href") as [[| c href] |]; cbn [truthy]; split;
    try discriminate; auto.
  - intros [H | H]; discriminate H.
Qed.

Lemma harvested_Forall2 (clock : nat -> str) (links : list Tag) :
  forall k,
    Forall2
      (fun link r =>
         exists href,
           tag_get link "href" = Some href
           /\ ev_title r = link_title link
           /\ ev_url r = SITE_ORIGIN ++ href)
      (filter has_usable_href links) (harvested clock k links).
Proof.
  induction links as [| link rest IH]; intros k; cbn [filter harvested].
  - constructor.
  - unfold has_usable_href, usable_href.
    destruct (tag_get link "href") as [href |] eqn:Hh; [| apply IH].
    destruct (truthy href); [| apply IH].
    constructor; [| apply IH].
    exists href. repeat split. exact Hh.
Qed.

Lemma first_unprintable_none (con : Console) (lines : list str) :
  first_unprintable con lines = None <-> forallb (can_print con) lines = true.
Proof.
  induction lines as [| line rest IH]; cbn [first_unprintable forallb].
  - split; reflexivity.
  - destruct (can_print con line); cbn [andb].
    + rewrite <- IH.
      destruct (first_unprintable con rest) as [[before bad] |];
        split; intros H; (reflexivity || discriminate H).
    + split; intros H; discriminate H.
Qed.

(** The first line that cannot be printed comes after lines that can,
    and the lines up to it are the first lines of the list. *)
Lemma first_unprintable_some (con : Console) (lines : list str) :
  forall before bad,
    first_unprintable con lines = Some (before, bad) ->
    forallb (can_print con) before = true
    /\ can_print con bad = false
    /\ exists rest, lines = before ++ bad :: rest.
Proof.
  induction lines as [| line rest IH]; intros before bad H;
    cbn [first_unprintable] in H; [discriminate H |].
  destruct (can_print con line) eqn:Hp.
  - destruct (first_unprintable con rest) as [[before' bad'] |];
      [| discriminate H].
    injection H as <- <-.
    destruct (IH before' bad' eq_refl) as (Hb & Hbad & rest' & ->).
    split; [cbn [forallb]; rewrite Hp, Hb; reflexivity |].
    split; [exact Hbad |]. exists rest'. reflexivity.
  - injection H as <- <-. split; [reflexivity |].
    split; [exact Hp |]. exists rest. reflexivity.
Qed.

(** When the listing page is fetched and parsed, the harvest is the
    list of the kept anchors' references, or the empty list when a
    ['Found event'] line cannot be printed. *)
Lemma scrape_runway_events_fetched (w : World) (soup : Soup) :
  fetch_page LISTING_URL w = Ok soup ->
  fst (scrape_runway_events w)
  = Ok (if forallb (can_print (w_console w))
             (map found_line (kept_links (select soup LISTING_SELECTOR)))
        then harvested (w_clock w) (w_clock_reads w)
               (select soup LISTING_SELECTOR)
        else []).
Proof.
  intros Hpage. rewrite scrape_runway_events_result.
  rewrite (listing_report_fetched _ Hpage). unfold select.
  destruct (first_unprintable (w_console w)
              (map found_line (kept_links (soup LISTING_SELECTOR))))
    as [[before bad] |] eqn:Hf.
  - destruct (forallb _ _) eqn:Hall; [| reflexivity].
    apply first_unprintable_none in Hall. congruence.
  - apply first_unprintable_none in Hf. rewrite Hf. reflexivity.
Qed.

(** C6: the references that [scrape_runway_events] emits are paired,
    in order, with anchors the loop keeps, and the url of each is the
    site origin followed by the href of its anchor as it stands in the
    markup, whatever the href is: a leading slash or an absolute href
    is concatenated like any other. The anchors so paired are all the
    kept anchors when the console can print their ['Found event']
    lines, and none otherwise. *)
Theorem reference_url_is_origin_then_href (w : World) (soup : Soup) :
  fetch_page LISTING_URL w = Ok soup ->
  exists events links,
    fst (scrape_runway_events w) = Ok events
    /\ Forall2
         (fun link r =>
            exists href,
              tag_get link "href" = Some href
              /\ ev_url r = lit "https://www.runwayplayavista.com/" ++ href)
         links events
    /\ (links = filter has_usable_href (select soup LISTING_SELECTOR)
        \/ links = [])
    /\ (forallb (can_print (w_console w))
          (map found_line
             (filter has_usable_href (select soup LISTING_SELECTOR))) = true ->
        links = filter has_usable_href (select soup LISTING_SELECTOR)).
Proof.
  intros Hpage. rewrite (scrape_runway_events_fetched _ Hpage).
  unfold kept_links.
  destruct (forallb (can_print (w_console w))
              (map found_line
                 (filter has_usable_href (select soup LISTING_SELECTOR)))).
  - eexists. eexists. split; [reflexivity |].
    split; [| split; [left; reflexivity | reflexivity]].
    eapply Forall2_impl; [| apply harvested_Forall2].
    intros link r (href & Hh & _ & Hu). exists href. split; assumption.
  - exists [], []. split; [reflexivity |].
    split; [constructor |]. split; [right; reflexivity | discriminate].
Qed.

(** C7 (amended): an anchor without href, or with an empty href, gives
    no reference; when the console can print the ['Found event']
    lines, every other matched anchor gives one reference, in order,
    whose title is the stripped text of the anchor when it is not
    empty, else the title attribute when there is one, else
    ["No title"]. *)
Theorem listing_titles_and_skips (w : World) (soup : Soup) :
  fetch_page LISTING_URL w = Ok soup ->
  forallb (can_print (w_console w))
    (map found_line (filter has_usable_href (select soup LISTING_SELECTOR)))
  = true ->
  exists events,
    fst (scrape_runway_events w) = Ok events
    /\ Forall2
         (fun link r =>
            (get_text [] link <> [] -> ev_title r = get_text [] link)
            /\ (get_text [] link = [] ->
                forall t, tag_get link "title" = Some t -> ev_title r = t)
            /\ (get_text [] link = [] -> tag_get link "title" = None ->
                ev_title r = lit "No title"))
         (filter has_usable_href (select soup LISTING_SELECTOR)) events
    /\ (forall link,
          has_usable_href link = false <->
          (tag_get link "href" = None \/ tag_get link "href" = Some []))
    /\ (forall link,
          has_usable_href link = true <->
          exists href, tag_get link "href" = Some href /\ href <> []).
Proof.
  intros Hpage Hp. rewrite (scrape_runway_events_fetched _ Hpage).
  unfold kept_links. rewrite Hp.
  eexists. split; [reflexivity |].
  split; [| split; [apply has_usable_href_false | apply has_usable_href_true]].
  eapply Forall2_impl; [| apply harvested_Forall2].
  intros link r (href & _ & Ht & _). rewrite Ht.
  unfold link_title, str_or, tag_get_default, dict_get_default, tag_get.
  destruct (get_text [] link) as [| c text]; cbn [truthy].
  - split; [intros H; contradiction H; reflexivity |].
    split.
    + intros _ t Htitle. rewrite Htitle. reflexivity.
    + intros _ Htitle. rewrite Htitle. reflexivity.
  - split; [reflexivity |]. split; intros H; discriminate H.
Qed.

(** * The run of the script *)

Lemma join_cons (sep p : str) (rest : list str) :
  join sep (p :: rest) = p ++ flat_map (fun q => sep ++ q) rest.
Proof.
  revert p. induction rest as [| q rest IH]; intros p.
  - cbn [join flat_map]. rewrite app_nil_r. reflexivity.
  - change (join sep (p :: q :: rest)) with (p ++ sep ++ join sep (q :: rest)).
    rewrite (IH q). cbn [flat_map]. rewrite <- !app_assoc. reflexivity.
Qed.

Lemma concat_items_chunks (separator : str) (d : Dict) :
  List.concat (Json.items_chunks separator d)
  = flat_map (fun q => separator ++ q) (map Json.encode_item d).
Proof.
  induction d as [| kv d IH]; cbn [Json.items_chunks map flat_map];
    [reflexivity |].
  rewrite concat_app. cbn [List.concat]. rewrite concat_app, IH.
  unfold Json.item_chunks, Json.encode_item. cbn [List.concat].
  rewrite !app_nil_r, <- !app_assoc. reflexivity.
Qed.

Lemma concat_dict_chunks (indent level : nat) (d : Dict) :
  List.concat (Json.dict_chunks indent level d) = Json.encode_dict indent level d.
Proof.
  destruct d as [| kv d]; [reflexivity |].
  unfold Json.dict_chunks, Json.encode_dict.
  cbn [map]. rewrite join_cons.
  rewrite !concat_app, concat_items_chunks.
  unfold Json.item_chunks, Json.encode_item. cbn [List.concat].
  rewrite !app_nil_r, <- !app_assoc. reflexivity.
Qed.

Lemma concat_dicts_chunks (indent level : nat) (separator : str)
    (l : list Dict) :
  List.concat (Json.dicts_chunks indent level separator l)
  = flat_map (fun q => separator ++ q) (map (Json.encode_dict indent level) l).
Proof.
  induction l as [| d l IH]; cbn [Json.dicts_chunks map flat_map];
    [reflexivity |].
  rewrite !concat_app, IH, concat_dict_chunks. cbn [List.concat].
  rewrite app_nil_r, <- !app_assoc. reflexivity.
Qed.

(** The pieces that [json.dump] writes make up the text of
    [json.dumps]. *)
Lemma concat_chunks (indent : nat) (l : list Dict) :
  List.concat (Json.chunks indent l) = Json.dumps indent l.
Proof.
  destruct l as [| d l]; [reflexivity |].
  unfold Json.chunks, Json.dumps, Json.encode_list.
  cbn [map]. rewrite join_cons.
  rewrite !concat_app, concat_dicts_chunks, concat_dict_chunks.
  cbn [List.concat]. rewrite !app_nil_r, <- !app_assoc. reflexivity.
Qed.

Lemma utf8_ok_app (a b : str) : utf8_ok (a ++ b) = utf8_ok a && utf8_ok b.
Proof. apply forallb_app. Qed.

Lemma utf8_ok_concat (chunks : list str) :
  utf8_ok (List.concat chunks) = forallb utf8_ok chunks.
Proof.
  induction chunks as [| chunk rest IH]; cbn [List.concat forallb];
    [reflexivity |].
  rewrite utf8_ok_app, IH. reflexivity.
Qed.

Lemma write_chunks_clean (chunks : list str) :
  forall written,
    forallb utf8_ok chunks = true ->
    write_chunks chunks written = (written ++ List.concat chunks, None).
Proof.
  induction chunks as [| chunk rest IH]; intros written H;
    cbn [write_chunks List.concat forallb] in *.
  - rewrite app_nil_r. reflexivity.
  - apply andb_true_iff in H. destruct H as [Hc Hrest].
    rewrite Hc, (IH _ Hrest), <- app_assoc. reflexivity.
Qed.

(** What is written is the beginning of the text; it is the whole text
    exactly when no write raises, and a write raises exactly when the
    text has a surrogate. *)
Lemma write_chunks_prefix (chunks : list str) :
  forall written,
    exists rest,
      written ++ List.concat chunks
      = fst (write_chunks chunks written) ++ rest
      /\ (snd (write_chunks chunks written) = None -> rest = [])
      /\ (snd (write_chunks chunks written) = None
          <-> forallb utf8_ok chunks = true).
Proof.
  induction chunks as [| chunk rest IH]; intros written;
    cbn [write_chunks List.concat forallb].
  - exists []. cbn [fst snd]. repeat split; reflexivity.
  - destruct (utf8_ok chunk); cbn [andb].
    + destruct (IH (written ++ chunk)) as (tail & Heq & Hnone & Hiff).
      exists tail. rewrite app_assoc. repeat split; tauto.
    + exists (chunk ++ List.concat rest). cbn [fst snd].
      split; [reflexivity |]. split; [discriminate |].
      split; discriminate.
Qed.

Lemma open_w_utf8_json_dump_run (path : str) (data : list Dict) (indent : nat)
    (w : World) :
  open_w_utf8_json_dump path data indent w
  = match w_open w path with
    | Some e => (Raise e, w)
    | None =>
        (match snd (write_chunks (Json.chunks indent data) []) with
         | Some e => Raise e
         | None => Ok tt
         end,
         advance [] 0 [] 0
           [{| fw_path := path; fw_mode := "w"; fw_encoding := "utf-8";
               fw_text := fst (write_chunks (Json.chunks indent data) []) |}]
           w)
    end.
Proof.
  unfold open_w_utf8_json_dump.
  destruct (w_open w path); [reflexivity |].
  destruct (write_chunks (Json.chunks indent data) []) as [text error].
  cbn [fst snd]. f_equal. destruct w. same_world.
Qed.

(** [main] after the harvest. *)
Lemma main_after_harvest (w : World) :
  main w
  = match scrape_runway_events w with
    | (Raise e, w1) => (Raise e, w1)
    | (Ok [], w1) => (Ok tt, advance [] 0 [NO_EVENTS_LINE] 0 [] w1)
    | (Ok events, w1) =>
        match scrape_all_event_details events
                (advance [] 0 [SCRAPING_LINE (List.length events)] 0 [] w1)
        with
        | (Raise e, w2) => (Raise e, w2)
        | (Ok detailed_events, w2) =>
            match open_w_utf8_json_dump OUTPUT_PATH detailed_events 2 w2 with
            | (Raise e, w3) => (Raise e, w3)
            | (Ok _, w3) => (Ok tt, advance [] 0 [SAVED_LINE] 0 [] w3)
            end
        end
    end.
Proof.
  unfold main. unfold bind at 1.
  destruct (scrape_runway_events w) as [[events | e] w1]; [| reflexivity].
  destruct events as [| event rest].
  - fold NO_EVENTS_LINE. apply print_ascii. reflexivity.
  - fold (SCRAPING_LINE (List.length (event :: rest))).
    unfold bind at 1. rewrite (print_ascii _ _ (SCRAPING_LINE_ascii _)).
    unfold bind at 1.
    destruct (scrape_all_event_details (event :: rest) _)
      as [[detailed_events | e] w2]; [| reflexivity].
    unfold bind at 1.
    destruct (open_w_utf8_json_dump OUTPUT_PATH detailed_events 2 w2)
      as [[[] | e] w3]; [| reflexivity].
    fold SAVED_LINE. apply print_ascii. reflexivity.
Qed.

(** The harvest leaves the console, the file system and the oracles as
    they are, and sends one request. *)
Lemma scrape_runway_events_world (w : World) :
  exists reads lines,
    snd (scrape_runway_events w)
    = advance [request_for LISTING_URL] reads lines 0 [] w.
Proof.
  rewrite scrape_runway_events_exact. eexists. eexists. reflexivity.
Qed.


Lemma main_nonempty (w : World) (events : list EventReference) (w1 : World) :
  scrape_runway_events w = (Ok events, w1) ->
  events <> [] ->
  main w
  = match scrape_all_event_details events
            (advance [] 0 [SCRAPING_LINE (List.length events)] 0 [] w1)
    with
    | (Raise e, w2) => (Raise e, w2)
    | (Ok detailed_events, w2) =>
        match open_w_utf8_json_dump OUTPUT_PATH detailed_events 2 w2 with
        | (Raise e, w3) => (Raise e, w3)
        | (Ok _, w3) => (Ok tt, advance [] 0 [SAVED_LINE] 0 [] w3)
        end
    end.
Proof.
  intros Hrun Hne. rewrite main_after_harvest, Hrun.
  destruct events; [contradiction Hne; reflexivity | reflexivity].
Qed.

(** The five ways a run of [main] can go, by what the harvest returns,
    whether the console can print the lines of the loop, whether the
    file can be opened and whether every piece can be encoded. *)
Section MainCases.

Variable w : World.
Variable reads : nat.
Variable lines : list str.

Local Abbreviation listing_request := (request_for LISTING_URL).

Lemma main_harvest_raises (e : exn) :
  listing_report w = (Raise e, reads, lines) ->
  main w = (Raise e, advance [listing_request] reads lines 0 [] w).
Proof.
  intros Hrep. rewrite main_after_harvest, scrape_runway_events_exact, Hrep.
  reflexivity.
Qed.

Lemma main_no_events :
  listing_report w = (Ok [], reads, lines) ->
  main w
  = (Ok tt,
     advance [listing_request] reads (lines ++ [NO_EVENTS_LINE]) 0 [] w).
Proof.
  intros Hrep. rewrite main_after_harvest, scrape_runway_events_exact, Hrep.
  cbn [fst snd]. f_equal. advance_eq.
Qed.

Variable events : list EventReference.
Hypothesis Hreport : listing_report w = (Ok events, reads, lines).
Hypothesis Hevents : events <> [].

Local Abbreviation k := (S (List.length (w_requests w))).
Local Abbreviation detailed :=
  (detailed_from (w_server w) (w_parser w) k events).
Local Abbreviation progress :=
  (progress_console (w_server w) (w_parser w) (List.length events) 1 k events).
Local Abbreviation requests :=
  (listing_request :: map (fun event => request_for (ev_url event)) events).

Lemma main_loop_raises :
  loop_printable (w_console w) (w_server w) (w_parser w) (List.length events)
    1 k events = false ->
  exists e requests' lines' seconds,
    main w = (Raise e, advance requests' reads lines' seconds [] w).
Proof.
  intros Hp.
  rewrite (@main_nonempty w events
             (advance [listing_request] reads lines 0 [] w))
    by (try exact Hevents;
        rewrite scrape_runway_events_exact, Hreport; reflexivity).
  match goal with
  | |- context [scrape_all_event_details ?evs ?w2] =>
      destruct (scrape_all_event_details_unprintable evs w2)
        as (e & m & lines' & seconds & _ & _ & _ & Hrun)
  end.
  { advance_proj. rewrite app_nil_r, length_app. cbn [List.length].
    rewrite Nat.add_1_r. exact Hp. }
  rewrite Hrun. rewrite !advance_advance.
  eexists. eexists. eexists. eexists. f_equal. f_equal. lia.
Qed.

Hypothesis Hprintable :
  loop_printable (w_console w) (w_server w) (w_parser w) (List.length events)
    1 k events = true.

Lemma main_reaches_open :
  main w
  = match open_w_utf8_json_dump OUTPUT_PATH detailed 2
            (advance requests reads
               (lines ++ [SCRAPING_LINE (List.length events)] ++ progress)
               (List.length events) [] w) with
    | (Raise e, w3) => (Raise e, w3)
    | (Ok _, w3) => (Ok tt, advance [] 0 [SAVED_LINE] 0 [] w3)
    end.
Proof.
  rewrite (@main_nonempty w events
             (advance [listing_request] reads lines 0 [] w))
    by (try exact Hevents;
        rewrite scrape_runway_events_exact, Hreport; reflexivity).
  rewrite scrape_all_event_details_printable
    by (advance_proj; rewrite app_nil_r, length_app; cbn [List.length];
        rewrite Nat.add_1_r; exact Hprintable).
  advance_proj. rewrite app_nil_r, length_app. cbn [List.length].
  rewrite Nat.add_1_r.
  rewrite !advance_advance.
  match goal with
  | |- context [open_w_utf8_json_dump _ _ _ ?w2] =>
      replace w2
        with (advance requests reads
                (lines ++ [SCRAPING_LINE (List.length events)] ++ progress)
                (List.length events) [] w)
  end.
  - reflexivity.
  - f_equal;
      cbn [app map]; rewrite <- ?app_assoc, ?app_nil_r;
      try reflexivity; lia.
Qed.

Lemma main_open_raises (e : exn) :
  w_open w OUTPUT_PATH = Some e ->
  main w
  = (Raise e,
     advance requests reads
       (lines ++ [SCRAPING_LINE (List.length events)] ++ progress)
       (List.length events) [] w).
Proof.
  intros Hopen. rewrite main_reaches_open, open_w_utf8_json_dump_run.
  advance_proj. rewrite Hopen. reflexivity.
Qed.

Lemma main_writes :
  w_open w OUTPUT_PATH = None ->
  main w
  = (match snd (write_chunks (Json.chunks 2 detailed) []) with
     | Some e => Raise e
     | None => Ok tt
     end,
     advance requests reads
       (lines ++ [SCRAPING_LINE (List.length events)] ++ progress
        ++ match snd (write_chunks (Json.chunks 2 detailed) []) with
           | Some _ => []
           | None => [SAVED_LINE]
           end)
       (List.length events)
       [output_file (fst (write_chunks (Json.chunks 2 detailed) []))] w).
Proof.
  intros Hopen. rewrite main_reaches_open, open_w_utf8_json_dump_run.
  advance_proj. rewrite Hopen. fold (output_file
    (fst (write_chunks (Json.chunks 2 detailed) []))).
  destruct (snd (write_chunks (Json.chunks 2 detailed) []));
    rewrite ?advance_advance; f_equal; f_equal;
    rewrite ?app_nil_r, <- ?app_assoc; try reflexivity; lia.
Qed.

End MainCases.

Lemma harvest_world (w : World) (result : result (list EventReference))
    (w1 : World) :
  scrape_runway_events w = (result, w1) ->
  exists reads lines,
    listing_report w = (result, reads, lines)
    /\ w1 = advance [request_for LISTING_URL] reads lines 0 [] w.
Proof.
  rewrite scrape_runway_events_exact. intros H. injection H as <- <-.
  exists (snd (fst (listing_report w))), (snd (listing_report w)).
  split; [| reflexivity].
  destruct (listing_report w) as [[result reads] lines]. reflexivity.
Qed.

(** The loop of [scrape_all_event_details] after the harvest, on the
    world the harvest leaves. *)
Lemma after_harvest_returns (w : World) (events : list EventReference)
    (reads : nat) (lines : list str) (detailed : list Dict) :
  fst (scrape_all_event_details events
         (advance [request_for LISTING_URL] reads lines 0 [] w))
  = Ok detailed ->
  loop_printable (w_console w) (w_server w) (w_parser w) (List.length events)
    1 (S (List.length (w_requests w))) events = true
  /\ detailed = detailed_from (w_server w) (w_parser w)
                  (S (List.length (w_requests w))) events.
Proof.
  intros Hout.
  destruct (scrape_all_event_details_returns _ _ Hout) as [Hp Hd].
  revert Hp Hd. advance_proj. rewrite length_app. cbn [List.length].
  rewrite Nat.add_1_r. intros Hp Hd. split; assumption.
Qed.

(** The files of a run: none, or the one output file with what
    [json.dump] wrote of the records. *)
Lemma main_files (w : World) :
  w_files (snd (main w)) = w_files w
  \/ exists events reads lines,
       listing_report w = (Ok events, reads, lines)
       /\ events <> []
       /\ loop_printable (w_console w) (w_server w) (w_parser w)
            (List.length events) 1 (S (List.length (w_requests w))) events
          = true
       /\ w_open w OUTPUT_PATH = None
       /\ w_files (snd (main w))
          = w_files w
            ++ [output_file
                  (fst (write_chunks
                          (Json.chunks 2
                             (detailed_from (w_server w) (w_parser w)
                                (S (List.length (w_requests w))) events))
                          []))].
Proof.
  destruct (listing_report w) as [[[events | e] reads] lines] eqn:Hrep.
  - destruct events as [| event rest] eqn:Hev.
    + left. rewrite (main_no_events w Hrep). cbn [snd]. advance_proj.
      apply app_nil_r.
    + rewrite <- Hev in *.
      assert (Hne : events <> []) by (rewrite Hev; discriminate).
      destruct (loop_printable (w_console w) (w_server w) (w_parser w)
                  (List.length events) 1 (S (List.length (w_requests w)))
                  events) eqn:Hp.
      * destruct (w_open w OUTPUT_PATH) as [e |] eqn:Hopen.
        -- left. rewrite (main_open_raises w Hrep Hne Hp Hopen). cbn [snd].
           advance_proj. apply app_nil_r.
        -- right. exists events, reads, lines.
           split; [reflexivity |]. split; [exact Hne |].
           split; [exact Hp |]. split; [reflexivity |].
           rewrite (main_writes w Hrep Hne Hp Hopen). cbn [snd].
           advance_proj. reflexivity.
      * left.
        destruct (main_loop_raises w Hrep Hne Hp)
          as (e & requests' & lines' & seconds & Hrun).
        rewrite Hrun. cbn [snd]. advance_proj. apply app_nil_r.
  - left. rewrite (main_harvest_raises w Hrep). cbn [snd]. advance_proj.
    apply app_nil_r.
Qed.

Lemma escape_char_non_ascii (c : char) :
  (128 <= c)%N -> Json.escape_char c = [c].
Proof.
  intros H. unfold Json.escape_char.
  repeat match goal with
         | |- context [(c =? ?n)%N] =>
             destruct (N.eqb_spec c n); [lia |]
         end.
  destruct (N.ltb_spec c 32); [lia | reflexivity].
Qed.

Lemma encode_string_non_ascii (s : str) :
  Forall (fun c => (128 <= c)%N) s ->
  Json.encode_string s = Json.QUOTE :: s ++ [Json.QUOTE].
Proof.
  intros H. unfold Json.encode_string. do 2 f_equal.
  induction H as [| c s Hc _ IH]; cbn [flat_map].
  - reflexivity.
  - rewrite (escape_char_non_ascii Hc), IH. reflexivity.
Qed.

Lemma write_chunks_whole (indent : nat) (data : list Dict) :
  utf8_ok (Json.dumps indent data) = true ->
  write_chunks (Json.chunks indent data) [] = (Json.dumps indent data, None).
Proof.
  intros Hok. rewrite <- concat_chunks in Hok |- *.
  rewrite utf8_ok_concat in Hok.
  rewrite (write_chunks_clean _ [] Hok). reflexivity.
Qed.

(** C8 (amended): a run whose harvested listing is empty writes no
    file. A run whose harvested listing is not empty, whose loop
    returns the detailed records, whose output file can be opened and
    whose document has no lone surrogate returns normally and writes
    exactly one file, [runway_events_detailed.json], opened for
    writing in UTF-8, holding the array of the detailed records dumped
    with an indent of two spaces, records at two spaces and fields at
    four, and with every character from U+0080 on written as it is.
    No run writes more than this one file. *)
Theorem main_writes_output (w : World) :
  (fst (scrape_runway_events w) = Ok [] ->
   fst (main w) = Ok tt /\ w_files (snd (main w)) = w_files w)
  /\ (forall events w1 detailed,
        scrape_runway_events w = (Ok events, w1) ->
        events <> [] ->
        fst (scrape_all_event_details events w1) = Ok detailed ->
        w_open w (lit "runway_events_detailed.json") = None ->
        utf8_ok (Json.dumps 2 detailed) = true ->
        fst (main w) = Ok tt
        /\ List.length detailed = List.length events
        /\ w_files (snd (main w))
           = w_files w ++
             [{| fw_path := lit "runway_events_detailed.json";
                 fw_mode := "w"; fw_encoding := "utf-8";
                 fw_text := Json.dumps 2 detailed |}])
  /\ (exists files,
        w_files (snd (main w)) = w_files w ++ files
        /\ (files = []
            \/ exists text,
                 files = [{| fw_path := lit "runway_events_detailed.json";
                             fw_mode := "w"; fw_encoding := "utf-8";
                             fw_text := text |}]))
  /\ (forall s,
        Forall (fun c => (128 <= c)%N) s ->
        Json.encode_string s = Json.QUOTE :: s ++ [Json.QUOTE])
  /\ (forall d ds,
        Json.dumps 2 (d :: ds)
        = lit "[" ++ [NL; SP; SP]
          ++ join (lit "," ++ [NL; SP; SP])
               (map (Json.encode_dict 2 1) (d :: ds))
          ++ [NL] ++ lit "]")
  /\ (forall kv d,
        Json.encode_dict 2 1 (kv :: d)
        = lit "{" ++ [NL; SP; SP; SP; SP]
          ++ join (lit "," ++ [NL; SP; SP; SP; SP])
               (map Json.encode_item (kv :: d))
          ++ [NL; SP; SP] ++ lit "}").
Proof.
  split; [| split; [| split; [| split; [| split]]]].
  - intros Hev.
    destruct (scrape_runway_events w) as [result w1] eqn:Hrun.
    cbn [fst] in Hev. subst result.
    destruct (harvest_world _ Hrun) as (reads & lines & Hrep & _).
    rewrite (main_no_events w Hrep). cbn [fst snd]. advance_proj.
    split; [reflexivity | apply app_nil_r].
  - intros events w1 detailed Hrun Hne Hout Hopen Hok.
    destruct (harvest_world _ Hrun) as (reads & lines & Hrep & ->).
    destruct (after_harvest_returns _ _ _ _ Hout) as [Hp Hd].
    rewrite (main_writes w Hrep Hne Hp Hopen). rewrite <- Hd.
    rewrite (write_chunks_whole _ _ Hok). cbn [fst snd]. advance_proj.
    split; [reflexivity |].
    split; [rewrite Hd; apply detailed_from_length | reflexivity].
  - destruct (main_files w)
      as [Hf | (events & reads & lines & _ & _ & _ & _ & Hf)].
    + exists []. split; [rewrite app_nil_r; exact Hf | left; reflexivity].
    + eexists. split; [exact Hf |]. right. eexists. reflexivity.
  - apply encode_string_non_ascii.
  - reflexivity.
  - reflexivity.
Qed.

(** * The theorems at the sample worlds *)

Lemma scrape_runway_events_never_raises_witness :
  (fetch_page LISTING_URL Demo.offline_world
   = Raise {| exn_class_of := RequestException;
              exn_str := lit "Connection refused" |}
   /\ fst (scrape_runway_events Demo.offline_world) = Ok [])
  /\ ((400 <= 404 < 600)%N
      /\ fst (scrape_runway_events Demo.not_found_world) = Ok [])
  /\ (fetch_page LISTING_URL Demo.garbled_world
      = Raise {| exn_class_of := OtherException;
                 exn_str := lit "cannot parse" |}
      /\ fst (scrape_runway_events Demo.garbled_world) = Ok [])
  /\ (fetch_page LISTING_URL Samples.cafe_ascii_world
      = Ok (Demo.listing_soup Samples.cafe_links)
      /\ fst (scrape_runway_events Samples.cafe_ascii_world) = Ok []).
Proof.
  split; [| split; [| split]].
  - split; [reflexivity |].
    apply (proj1 (scrape_runway_events_never_raises Demo.offline_world))
      with (e := {| exn_class_of := RequestException;
                    exn_str := lit "Connection refused" |});
      reflexivity.
  - split; [lia |].
    destruct (proj1 (proj2
                (scrape_runway_events_never_raises Demo.not_found_world))
                {| status_code := 404; reason := lit "Not Found";
                   resp_url := LISTING_URL; content := [] |} eq_refl)
      as (e & He & _ & Hret).
    + cbn [status_code]. lia.
    + apply Hret. injection He as <-. reflexivity.
  - split; [reflexivity |].
    apply (proj1 (scrape_runway_events_never_raises Demo.garbled_world))
      with (e := {| exn_class_of := OtherException;
                    exn_str := lit "cannot parse" |});
      reflexivity.
  - split; [reflexivity |].
    destruct (proj1 (proj2 (proj2
                (scrape_runway_events_never_raises Samples.cafe_ascii_world)))
                (Demo.listing_soup Samples.cafe_links) eq_refl)
      as (events & Hrun & Hempty).
    rewrite Hrun. f_equal.
    apply (Hempty (print_error Demo.ascii_console
                     (found_line (nth 1 Samples.cafe_links
                                    (Demo.anchor [] []))))
             (snd (scrape_runway_events_try Samples.cafe_ascii_world))).
    vm_compute. reflexivity.
Defined.

Lemma scrape_event_details_sentinels_witness :
  fetch_page (SITE_ORIGIN ++ lit "/events2/event-c") Demo.assorted_world
  = Ok Demo.bare_soup
  /\ exists details,
       fst (scrape_event_details (SITE_ORIGIN ++ lit "/events2/event-c")
              Demo.assorted_world) = Ok details
       /\ dict_keys details = DETAIL_KEYS
       /\ dict_get details "title" = Some (lit "No title found")
       /\ dict_get details "date_datetime" = Some []
       /\ dict_get details "description" = Some (lit "No description found").
Proof.
  split; [reflexivity |].
  destruct (scrape_event_details_sentinels
              (SITE_ORIGIN ++ lit "/events2/event-c") Demo.assorted_world
              (soup := Demo.bare_soup) eq_refl)
    as (details & Hrun & Hkeys & Ht & Hd & _ & _ & _ & Hdesc).
  exists details.
  split; [exact Hrun |]. split; [exact Hkeys |].
  split; [apply Ht; reflexivity |].
  split; [apply Hd; reflexivity |].
  apply Hdesc; reflexivity.
Defined.

Lemma scrape_event_details_failure_keys_witness :
  fetch_page (ev_url Demo.event_b) Demo.world
  = Raise {| exn_class_of := RequestException;
             exn_str := lit "Connection refused" |}
  /\ fetch_page (ev_url Demo.event_a) Demo.world = Ok Demo.event_a_soup
  /\ exists details details',
       fst (scrape_event_details (ev_url Demo.event_b) Demo.world) = Ok details
       /\ fst (scrape_event_details (ev_url Demo.event_a) Demo.world)
          = Ok details'
       /\ dict_keys details = ERROR_KEYS
       /\ List.length (detailed_event Demo.event_b details) = 8
       /\ List.length (detailed_event Demo.event_a details') = 10.
Proof.
  split; [reflexivity |]. split; [reflexivity |].
  destruct (scrape_event_details_failure_keys
              (ev_url Demo.event_b) Demo.world
              (e := {| exn_class_of := RequestException;
                       exn_str := lit "Connection refused" |}) eq_refl)
    as (Hret & Hshape).
  destruct (Hret eq_refl) as (details & Hrun).
  destruct (Hshape details Hrun) as (Hkeys & _ & _ & Hlen).
  destruct (proj2 (Hlen Demo.event_a) (ev_url Demo.event_a) Demo.world
              Demo.event_a_soup eq_refl)
    as (details' & Hrun' & Hlen').
  exists details, details'.
  split; [exact Hrun |]. split; [exact Hrun' |]. split; [exact Hkeys |].
  split; [exact (proj1 (Hlen Demo.event_b)) | exact Hlen'].
Defined.


Lemma scrape_all_event_details_order_witness :
  nth_error [Demo.event_a; Demo.event_b] 1 = Some Demo.event_b
  /\ exists out details,
       fst (scrape_all_event_details [Demo.event_a; Demo.event_b] Demo.world)
       = Ok out
       /\ List.length out = 2
       /\ fst (scrape_event_details (ev_url Demo.event_b)
                 (sent (ev_url Demo.event_a) Demo.world)) = Ok details
       /\ nth_error out 1 = Some (detailed_event Demo.event_b details)
       /\ dict_get (detailed_event Demo.event_b details) "url"
          = Some (ev_url Demo.event_b).
Proof.
  split; [reflexivity |].
  destruct (scrape_all_event_details_order [Demo.event_a; Demo.event_b]
              Demo.world)
    as (Hret & Hshape).
  destruct Hret as (out & Hout).
  { apply (loop_printable_iff Demo.world [Demo.event_a; Demo.event_b] 2 1).
    reflexivity. }
  destruct (Hshape out Hout) as (Hlen & Hnth & _).
  destruct (Hnth 1 Demo.event_b eq_refl
              (sent (ev_url Demo.event_a) Demo.world))
    as (details & Hrun & Hrec & Hu & _).
  { repeat split. }
  { reflexivity. }
  { reflexivity. }
  exists out, details.
  split; [exact Hout |]. split; [exact Hlen |]. split; [exact Hrun |].
  split; [exact Hrec | exact Hu].
Defined.

Lemma reference_url_is_origin_then_href_witness :
  fetch_page LISTING_URL Demo.assorted_world
  = Ok (Demo.listing_soup Demo.assorted_links)
  /\ exists events,
       fst (scrape_runway_events Demo.assorted_world) = Ok events
       /\ Forall2
            (fun link r =>
               exists href,
                 tag_get link "href" = Some href
                 /\ ev_url r = lit "https://www.runwayplayavista.com/" ++ href)
            (filter has_usable_href Demo.assorted_links) events.
Proof.
  split; [reflexivity |].
  destruct (reference_url_is_origin_then_href Demo.assorted_world
              (soup := Demo.listing_soup Demo.assorted_links) eq_refl)
    as (events & links & Hrun & Hall & _ & Hlinks).
  exists events. split; [exact Hrun |].
  rewrite (Hlinks eq_refl) in Hall. exact Hall.
Defined.

Lemma listing_titles_and_skips_witness :
  fetch_page LISTING_URL Demo.assorted_world
  = Ok (Demo.listing_soup Demo.assorted_links)
  /\ exists events,
       fst (scrape_runway_events Demo.assorted_world) = Ok events
       /\ List.length events = 4
       /\ has_usable_href Demo.gala_link = false.
Proof.
  split; [reflexivity |].
  destruct (listing_titles_and_skips Demo.assorted_world
              (soup := Demo.listing_soup Demo.assorted_links) eq_refl eq_refl)
    as (events & Hrun & Hall & Hskip & _).
  exists events. split; [exact Hrun |]. split.
  - rewrite <- (Forall2_length Hall). reflexivity.
  - apply Hskip. right. reflexivity.
Defined.

Lemma main_writes_output_witness :
  (exists text,
     w_files (snd (main Demo.world))
     = [{| fw_path := lit "runway_events_detailed.json"; fw_mode := "w";
           fw_encoding := "utf-8"; fw_text := text |}]
     /\ fst (main Demo.world) = Ok tt)
  /\ w_files (snd (main Demo.empty_listing_world)) = [].
Proof.
  split.
  - destruct (scrape_runway_events Demo.world) as [result w1] eqn:Hrun.
    assert (Hres : result = Ok [Demo.event_a; Demo.event_b]).
    { change result with (fst (result, w1)). rewrite <- Hrun.
      vm_compute. reflexivity. }
    subst result.
    destruct (proj1 (proj2 (main_writes_output Demo.world))
                [Demo.event_a; Demo.event_b] w1
                (detailed_from Demo.server (Demo.parser Demo.listing_links) 1
                   [Demo.event_a; Demo.event_b])
                Hrun)
      as (Hmain & _ & Hfiles).
    + discriminate.
    + change w1 with (snd (Ok [Demo.event_a; Demo.event_b], w1)).
      rewrite <- Hrun. vm_compute. reflexivity.
    + reflexivity.
    + vm_compute. reflexivity.
    + eexists. split; [exact Hfiles | exact Hmain].
  - apply (proj1 (main_writes_output Demo.empty_listing_world)).
    vm_compute. reflexivity.
Defined.

(** * What the claims miss, at the sample worlds *)


(** C3 as stated fails on a reply with a status that is neither a
    success nor an error status for [raise_for_status]: a listing
    answered with 304 is parsed and its two references are returned,
    not the empty list. *)
Lemma not_modified_listing_is_harvested :
  (exists r,
     w_server Samples.not_modified_world 0 (request_for LISTING_URL) = Ok r
     /\ status_code r = 304%N
     /\ ((200 <=? status_code r) && (status_code r <? 300))%N = false)
  /\ fst (scrape_runway_events Samples.not_modified_world)
     = Ok [Demo.event_a; Demo.event_b]
  /\ fst (scrape_runway_events Samples.not_modified_world) <> Ok [].
Proof.
  split; [| split].
  - eexists. split; [reflexivity |]. split; reflexivity.
  - vm_compute. reflexivity.
  - vm_compute. intros H. discriminate H.
Qed.

(** C7 as stated fails on an anchor whose href attribute is the empty
    string: the anchor has an href and a text, and no reference is
    emitted for it. *)
Lemma empty_href_anchor_skipped :
  fetch_page LISTING_URL Demo.empty_href_world
  = Ok (Demo.listing_soup [Demo.gala_link])
  /\ select (Demo.listing_soup [Demo.gala_link]) LISTING_SELECTOR
     = [Demo.gala_link]
  /\ tag_get Demo.gala_link "href" = Some []
  /\ tag_get Demo.gala_link "href" <> None
  /\ get_text [] Demo.gala_link = lit "Gala"
  /\ fst (scrape_runway_events Demo.empty_href_world) = Ok [].
Proof.
  repeat split; try reflexivity.
  intros H. discriminate H.
Qed.

(** C8 as stated fails on a run whose harvested listing is empty: the
    run ends normally and no file is written, whether the listing page
    has no anchor or could not be fetched. *)
Lemma empty_listing_writes_no_file :
  fst (scrape_runway_events Demo.empty_listing_world) = Ok []
  /\ fst (main Demo.empty_listing_world) = Ok tt
  /\ w_files (snd (main Demo.empty_listing_world)) = []
  /\ fst (scrape_runway_events Demo.offline_world) = Ok []
  /\ fst (main Demo.offline_world) = Ok tt
  /\ w_files (snd (main Demo.offline_world)) = [].
Proof.
  repeat split; vm_compute; reflexivity.
Qed.

(** The end-to-end scenario: two anchors, the first page complete and
    the second unreachable. An absolute href is prefixed like any
    other. *)
Example end_to_end_records :
  exists out,
    fst (scrape_all_event_details [Demo.event_a; Demo.event_b]
           (snd (scrape_runway_events Demo.world))) = Ok out
    /\ map (fun record => dict_get record "title") out
       = [Some (lit "Jazz Night"); Some []]
    /\ map (fun record => dict_get record "date") out
       = [Some (lit "August 6, 2025"); Some []]
    /\ map (fun record => dict_get record "description") out
       = [Some (lit "Live music on the lawn.");
          Some (lit "Error: Connection refused")]
    /\ map dict_keys out
       = [ "url" :: "scraped_at" :: DETAIL_KEYS;
           "url" :: "scraped_at" :: ERROR_KEYS ]%string.
Proof.
  eexists. split; [vm_compute; reflexivity |].
  repeat split; vm_compute; reflexivity.
Qed.

Example absolute_href_is_prefixed :
  exists events,
    fst (scrape_runway_events Demo.assorted_world) = Ok events
    /\ map ev_url events
       = [ lit "https://www.runwayplayavista.com//events2/event-a";
           lit "https://www.runwayplayavista.com//events2/event-c";
           lit "https://www.runwayplayavista.com//events2/event-d";
           lit "https://www.runwayplayavista.com/https://example.org/x" ]
    /\ map ev_title events
       = [lit "Jazz Night"; lit "Yoga"; lit "No title"; lit "Away"].
Proof.
  eexists. split; [vm_compute; reflexivity |].
  split; vm_compute; reflexivity.
Qed.

(** On a console in ASCII: a title with an accent stops the harvest at
    its ['Found event'] line, after two readings of the clock, and the
    handler reports the error and returns the empty list; the progress
    line of such a title raises out of [scrape_all_event_details]
    before any request is sent; and an error message with an accent
    raises out of the handler of [scrape_event_details] and out of the
    handler of [scrape_runway_events]. *)
Example ascii_console_runs :
  (fst (scrape_runway_events Samples.cafe_ascii_world) = Ok []
   /\ w_clock_reads (snd (scrape_runway_events Samples.cafe_ascii_world)) = 2
   /\ w_stdout (snd (scrape_runway_events Samples.cafe_ascii_world))
      = [ FETCH_LINE;
          lit "Found event: Jazz Night - /events2/event-a";
          lit "Error parsing the webpage: 'ascii' codec can't encode character '\xe9' in position 16: ordinal not in range(128)" ])
  /\ (fst (scrape_all_event_details [Samples.cafe_event] Samples.ascii_world)
      = Raise (UnicodeEncodeError (lit "ascii")
                 (lit "ordinal not in range(128)") (fun c => negb (is_ascii c))
                 (progress_line 1 1 Samples.cafe_event))
      /\ w_requests
           (snd (scrape_all_event_details [Samples.cafe_event]
                   Samples.ascii_world)) = []
      /\ w_stdout
           (snd (scrape_all_event_details [Samples.cafe_event]
                   Samples.ascii_world)) = [])
  /\ (exists e,
        fst (scrape_event_details (ev_url Demo.event_a)
               Samples.refused_ascii_world) = Raise e
        /\ exn_str e
           = lit "'ascii' codec can't encode characters in position 100-101: ordinal not in range(128)"
        /\ w_stdout (snd (scrape_event_details (ev_url Demo.event_a)
                            Samples.refused_ascii_world)) = [])
  /\ (exists e,
        fst (scrape_runway_events Samples.refused_ascii_world) = Raise e
        /\ w_stdout (snd (scrape_runway_events Samples.refused_ascii_world))
           = [FETCH_LINE]).
Proof.
  split; [| split; [| split]].
  - repeat split; vm_compute; reflexivity.
  - repeat split; vm_compute; reflexivity.
  - eexists. repeat split; vm_compute; reflexivity.
  - eexists. split; vm_compute; reflexivity.
Qed.

(** A directory that refuses the file, and a record with a lone
    surrogate: the run raises; nothing is written in the first case
    and the beginning of the document in the second. *)
Example failing_writes :
  (exists e,
     fst (main Samples.read_only_world) = Raise e
     /\ w_files (snd (main Samples.read_only_world)) = [])
  /\ (exists e,
        fst (main Samples.surrogate_world) = Raise e
        /\ exn_str e
           = lit "'utf-8' codec can't encode character '\ud83d' in position 43: surrogates not allowed"
        /\ map fw_text (w_files (snd (main Samples.surrogate_world)))
           = [lit "[" ++ [NL] ++ lit "  {" ++ [NL] ++ lit "    "
              ++ [Json.QUOTE] ++ lit "url" ++ [Json.QUOTE] ++ lit ": "]
        /\ last (w_stdout (snd (main Samples.surrogate_world))) []
           <> SAVED_LINE).
Proof.
  split.
  - eexists. split; vm_compute; reflexivity.
  - eexists. split; [vm_compute; reflexivity |].
    split; [vm_compute; reflexivity |].
    split; [vm_compute; reflexivity |].
    vm_compute. intros H. discriminate H.
Qed.
(** * More on the text of the fields *)

Lemma startswith_app (p s : str) : startswith p (p ++ s) = true.
Proof.
  induction p as [| c p IH]; cbn [startswith app]; [reflexivity |].
  rewrite N.eqb_refl. exact IH.
Qed.

Lemma startswith_split (p s : str) :
  startswith p s = true -> s = p ++ skipn (List.length p) s.
Proof.
  revert s. induction p as [| c p IH]; intros s H; [reflexivity |].
  destruct s as [| d s]; [discriminate H |].
  cbn [startswith] in H. apply andb_true_iff in H. destruct H as [Hc Hp].
  apply N.eqb_eq in Hc. subst d. cbn [List.length skipn app].
  f_equal. apply IH. exact Hp.
Qed.

Lemma partition_first_some (sep s before after : str) :
  partition_first sep s = Some (before, after) ->
  s = before ++ sep ++ after.
Proof.
  revert before. induction s as [| c s IH]; intros before H.
  - cbn [partition_first] in H.
    destruct (startswith sep []) eqn:Hs; [| discriminate H].
    injection H as <- <-. apply (startswith_split _ _ Hs).
  - cbn [partition_first] in H.
    destruct (startswith sep (c :: s)) eqn:Hs.
    + injection H as <- <-. apply (startswith_split _ _ Hs).
    + destruct (partition_first sep s) as [[b a] |]; [| discriminate H].
      injection H as <- <-. cbn [app]. f_equal. apply IH. reflexivity.
Qed.

Lemma partition_first_none_inv (sep s : str) :
  partition_first sep s = None -> contains sep s = false.
Proof.
  induction s as [| c s IH]; cbn [partition_first contains]; intros H.
  - destruct (startswith sep []); [discriminate H | reflexivity].
  - destruct (startswith sep (c :: s)); [discriminate H |].
    destruct (partition_first sep s) as [[b a] |]; [discriminate H |].
    cbn [orb]. apply IH. reflexivity.
Qed.

Lemma partition_first_comma_space_first (s before after : str) :
  partition_first (lit ", ") s = Some (before, after) ->
  contains (lit ", ") (before ++ [COMMA]) = false.
Proof.
  change (lit ", ") with [COMMA; SP].
  revert before. induction s as [| c s IH]; intros before H.
  - discriminate H.
  - cbn [partition_first] in H.
    destruct (startswith [COMMA; SP] (c :: s)) eqn:Hs.
    + injection H as <- <-. reflexivity.
    + destruct (partition_first [COMMA; SP] s) as [[b a] |] eqn:Hp;
        [| discriminate H].
      injection H as <- <-.
      pose proof (partition_first_some _ _ Hp) as Hsplit.
      cbn [app contains]. rewrite (IH b eq_refl), orb_false_r.
      subst s. cbn [startswith] in *.
      destruct (N.eqb COMMA c); [| reflexivity].
      destruct b as [| d b]; [reflexivity |].
      cbn [app andb startswith] in *.
      destruct (N.eqb SP d); [discriminate Hs | reflexivity].
Qed.

(** X1: the date field is always the end of the text of the date
    element. Either the text has no comma followed by a space and the
    date is the whole text, or the text is some [before], a comma and a
    space, and the date, where no comma-space starts inside
    [before]. *)
Theorem date_of_text_cases (text : str) :
  (contains (lit ", ") text = false /\ date_of_text text = text)
  \/ (exists before,
        text = before ++ lit ", " ++ date_of_text text
        /\ contains (lit ", ") (before ++ [COMMA]) = false).
Proof.
  unfold date_of_text, split1.
  destruct (partition_first (lit ", ") text) as [[before after] |] eqn:Hp.
  - right. exists before. split.
    + apply partition_first_some. exact Hp.
    + apply (partition_first_comma_space_first _ Hp).
  - left. split; [apply partition_first_none_inv; exact Hp | reflexivity].
Qed.

Lemma lstrip_starts (s : str) : starts_with_space (lstrip s) = false.
Proof.
  induction s as [| c s IH]; cbn [lstrip]; [reflexivity |].
  destruct (isspace c) eqn:Hc; [exact IH | cbn [starts_with_space]; exact Hc].
Qed.

Lemma lstrip_snoc (s : str) (c : char) :
  isspace c = false -> lstrip (s ++ [c]) = lstrip s ++ [c].
Proof.
  intros Hc. induction s as [| d s IH]; cbn [lstrip app].
  - rewrite Hc. reflexivity.
  - destruct (isspace d); [exact IH | reflexivity].
Qed.

Lemma ends_with_space_cons (c : char) (s : str) :
  s <> [] -> ends_with_space (c :: s) = ends_with_space s.
Proof. destruct s; [intros H; contradiction H; reflexivity | reflexivity]. Qed.

Lemma ends_with_space_snoc (s : str) (c : char) :
  ends_with_space (s ++ [c]) = isspace c.
Proof.
  induction s as [| d s IH]; [reflexivity |].
  cbn [app]. rewrite ends_with_space_cons; [exact IH |].
  destruct s; discriminate.
Qed.

Lemma ends_with_space_app (a b : str) :
  b <> [] -> ends_with_space (a ++ b) = ends_with_space b.
Proof.
  intros Hb. induction a as [| c a IH]; [reflexivity |].
  cbn [app]. rewrite ends_with_space_cons; [exact IH |].
  destruct a; [exact Hb | discriminate].
Qed.

Lemma ends_with_space_rev (s : str) :
  ends_with_space (rev s) = starts_with_space s.
Proof.
  destruct s as [| c s]; [reflexivity |].
  cbn [rev starts_with_space]. apply ends_with_space_snoc.
Qed.

Lemma rstrip_ends (s : str) : ends_with_space (rstrip s) = false.
Proof. unfold rstrip. rewrite ends_with_space_rev. apply lstrip_starts. Qed.

Lemma rstrip_starts (s : str) :
  starts_with_space s = false -> starts_with_space (rstrip s) = false.
Proof.
  destruct s as [| c s]; [reflexivity |].
  cbn [starts_with_space]. intros Hc. unfold rstrip. cbn [rev].
  rewrite lstrip_snoc by exact Hc. rewrite rev_app_distr. exact Hc.
Qed.

Lemma strip_trimmed (s : str) :
  starts_with_space (strip s) = false /\ ends_with_space (strip s) = false.
Proof.
  unfold strip. split; [apply rstrip_starts, lstrip_starts | apply rstrip_ends].
Qed.

Lemma ink_app (a b : str) : ink (a ++ b) = ink a ++ ink b.
Proof. apply filter_app. Qed.

Lemma ink_lstrip (s : str) : ink (lstrip s) = ink s.
Proof.
  induction s as [| c s IH]; [reflexivity |].
  cbn [lstrip]. destruct (isspace c) eqn:Hc; [| reflexivity].
  rewrite IH. unfold ink. cbn [filter]. rewrite Hc. reflexivity.
Qed.

Lemma ink_rev (s : str) : ink (rev s) = rev (ink s).
Proof.
  induction s as [| c s IH]; [reflexivity |].
  cbn [rev]. rewrite ink_app, IH. unfold ink at 2 3. cbn [filter].
  destruct (negb (isspace c)); [reflexivity | apply app_nil_r].
Qed.

Lemma ink_strip (s : str) : ink (strip s) = ink s.
Proof.
  unfold strip, rstrip.
  rewrite ink_rev, ink_lstrip, ink_rev, rev_involutive. apply ink_lstrip.
Qed.

Lemma lstrip_blank (s : str) : forallb isspace s = true -> lstrip s = [].
Proof.
  induction s as [| c s IH]; [reflexivity |].
  cbn [forallb lstrip]. intros H. apply andb_true_iff in H.
  destruct H as [Hc Hs]. rewrite Hc. exact (IH Hs).
Qed.

Lemma strip_blank (s : str) : forallb isspace s = true -> strip s = [].
Proof. intros H. unfold strip. rewrite lstrip_blank by exact H. reflexivity. Qed.

Lemma stripped_strings_solid (l : list str) : Forall solid (stripped_strings l).
Proof.
  induction l as [| s l IH]; cbn [stripped_strings]; [constructor |].
  destruct (strip s) as [| c p] eqn:Hs; cbn [truthy]; [exact IH |].
  constructor; [| exact IH].
  destruct (strip_trimmed s) as [H1 H2]. rewrite Hs in H1, H2.
  split; [discriminate | split; assumption].
Qed.

Lemma stripped_strings_ink (l : list str) :
  ink (List.concat (stripped_strings l)) = ink (List.concat l).
Proof.
  induction l as [| s l IH]; [reflexivity |].
  cbn [stripped_strings List.concat]. rewrite ink_app, <- (ink_strip s), <- IH.
  destruct (strip s) as [| c p]; cbn [truthy]; [reflexivity |].
  cbn [List.concat]. rewrite ink_app. reflexivity.
Qed.

Lemma stripped_strings_blank (l : list str) :
  forallb (forallb isspace) l = true -> stripped_strings l = [].
Proof.
  induction l as [| s l IH]; [reflexivity |].
  cbn [forallb stripped_strings]. intros H. apply andb_true_iff in H.
  destruct H as [Hs Hl]. rewrite strip_blank by exact Hs. cbn [truthy].
  exact (IH Hl).
Qed.

Lemma join_ink (sep : str) (parts : list str) :
  ink sep = [] -> ink (join sep parts) = ink (List.concat parts).
Proof.
  intros Hsep. induction parts as [| p rest IH]; [reflexivity |].
  destruct rest as [| q rest].
  - cbn [join List.concat]. rewrite app_nil_r. reflexivity.
  - change (join sep (p :: q :: rest)) with (p ++ sep ++ join sep (q :: rest)).
    cbn [List.concat] in *. rewrite !ink_app, Hsep, IH, !ink_app. reflexivity.
Qed.

Lemma join_solid (sep : str) (parts : list str) :
  Forall solid parts ->
  starts_with_space (join sep parts) = false
  /\ ends_with_space (join sep parts) = false
  /\ (parts <> [] -> join sep parts <> []).
Proof.
  induction 1 as [| p rest (Hne & Hs & He) Hrest IH]; [repeat split; auto |].
  destruct rest as [| q rest].
  - cbn [join]. repeat split; auto.
  - change (join sep (p :: q :: rest)) with (p ++ sep ++ join sep (q :: rest)).
    destruct IH as (_ & IHe & IHne).
    assert (Hj : join sep (q :: rest) <> []) by (apply IHne; discriminate).
    split; [| split].
    + destruct p; [contradiction Hne; reflexivity | exact Hs].
    + rewrite app_assoc, ends_with_space_app; assumption.
    + intros _. destruct p; [contradiction Hne; reflexivity | discriminate].
Qed.

Lemma get_text_trimmed (separator : str) (t : Tag) :
  starts_with_space (get_text separator t) = false
  /\ ends_with_space (get_text separator t) = false.
Proof.
  unfold get_text.
  destruct (join_solid separator (stripped_strings_solid (tag_strings t)))
    as (H1 & H2 & _).
  split; assumption.
Qed.

Lemma get_text_blank (separator : str) (t : Tag) :
  forallb (forallb isspace) (tag_strings t) = true ->
  get_text separator t = [].
Proof.
  intros H. unfold get_text. rewrite stripped_strings_blank by exact H. reflexivity.
Qed.

Lemma sub_ws_from_collapsed (s : str) :
  forall in_run after_space,
    (after_space = true -> in_run = true) ->
    collapsed_from after_space (sub_ws_from in_run s) = true.
Proof.
  induction s as [| c s IH]; intros in_run after_space Hle;
    cbn [sub_ws_from]; [reflexivity |].
  destruct (isspace c) eqn:Hc.
  - destruct in_run.
    + apply IH. trivial.
    + cbn [collapsed_from]. rewrite isspace_SP, N.eqb_refl.
      destruct after_space; [discriminate (Hle eq_refl) |].
      cbn [negb andb]. apply IH. trivial.
  - cbn [collapsed_from]. rewrite Hc. apply IH. intros H. discriminate H.
Qed.

Lemma collapsed_from_fixed (s : str) :
  forall b, collapsed_from b s = true -> sub_ws_from b s = s.
Proof.
  induction s as [| c s IH]; intros b H; cbn [sub_ws_from]; [reflexivity |].
  cbn [collapsed_from] in H. destruct (isspace c).
  - apply andb_true_iff in H. destruct H as [H Hs].
    apply andb_true_iff in H. destruct H as [Hc Hb].
    apply N.eqb_eq in Hc. subst c.
    destruct b; [discriminate Hb |]. f_equal. apply IH. exact Hs.
  - f_equal. apply IH. exact H.
Qed.

Lemma sub_ws_from_ink (s : str) :
  forall b, ink (sub_ws_from b s) = ink s.
Proof.
  induction s as [| c s IH]; intros b; cbn [sub_ws_from]; [reflexivity |].
  unfold ink in *. cbn [filter]. destruct (isspace c) eqn:Hc; cbn [negb].
  - destruct b; [apply IH |].
    cbn [filter]. rewrite isspace_SP. cbn [negb]. apply IH.
  - cbn [filter]. rewrite Hc. cbn [negb]. f_equal. apply IH.
Qed.

Lemma sub_ws_from_length (s : str) :
  forall b, List.length (sub_ws_from b s) <= List.length s.
Proof.
  induction s as [| c s IH]; intros b; cbn [sub_ws_from List.length]; [lia |].
  destruct (isspace c); [destruct b |]; cbn [List.length];
    match goal with
    | |- context [sub_ws_from ?b' s] => specialize (IH b'); lia
    end.
Qed.

Lemma sub_ws_from_starts (s : str) :
  starts_with_space (sub_ws_from false s) = starts_with_space s.
Proof.
  destruct s as [| c s]; [reflexivity |].
  cbn [sub_ws_from starts_with_space].
  destruct (isspace c) eqn:Hc; cbn [starts_with_space]; [reflexivity | exact Hc].
Qed.

Lemma sub_ws_from_nil (s : str) :
  forall b, sub_ws_from b s = [] -> s = [] \/ ends_with_space s = true.
Proof.
  induction s as [| c s IH]; intros b H; [left; reflexivity |].
  right. cbn [sub_ws_from] in H.
  destruct (isspace c) eqn:Hc; [destruct b |]; try discriminate H.
  destruct (IH true H) as [-> | He]; [exact Hc |].
  rewrite ends_with_space_cons; [exact He |].
  intros ->. discriminate He.
Qed.

Lemma sub_ws_from_ends (s : str) :
  forall b,
    ends_with_space (sub_ws_from b s) = true -> ends_with_space s = true.
Proof.
  induction s as [| c s IH]; intros b H; [discriminate H |].
  cbn [sub_ws_from] in H.
  assert (Hstep : forall b',
             ends_with_space (sub_ws_from b' s) = true ->
             ends_with_space (c :: s) = true).
  { intros b' H'. pose proof (IH b' H') as He.
    rewrite ends_with_space_cons; [exact He |].
    intros ->. discriminate He. }
  destruct (isspace c) eqn:Hc; [destruct b |].
  - apply (Hstep true H).
  - destruct (sub_ws_from true s) as [| d t] eqn:Ht.
    + destruct (sub_ws_from_nil _ _ Ht) as [-> | He]; [exact Hc |].
      rewrite ends_with_space_cons; [exact He |].
      intros ->. discriminate He.
    + rewrite ends_with_space_cons in H by discriminate.
      apply (Hstep true). rewrite Ht. exact H.
  - destruct (sub_ws_from false s) as [| d t] eqn:Ht.
    + cbn [ends_with_space] in H. congruence.
    + rewrite ends_with_space_cons in H by discriminate.
      apply (Hstep false). rewrite Ht. exact H.
Qed.

Lemma re_sub_ws_trimmed (s : str) :
  starts_with_space s = false -> ends_with_space s = false ->
  starts_with_space (re_sub_ws s) = false
  /\ ends_with_space (re_sub_ws s) = false.
Proof.
  intros Hs He. unfold re_sub_ws. split.
  - rewrite sub_ws_from_starts. exact Hs.
  - destruct (ends_with_space (sub_ws_from false s)) eqn:H; [| reflexivity].
    rewrite (sub_ws_from_ends _ _ H) in He. discriminate He.
Qed.

(** X2: on every parsed page the description field is in normal form:
    its only white-space characters are plain spaces, no two of them
    are adjacent, and it neither begins nor ends with one. *)
Theorem description_normal_form (soup : Soup) :
  exists description,
    dict_get (extract_details soup) "description" = Some description
    /\ collapsed description = true
    /\ starts_with_space description = false
    /\ ends_with_space description = false.
Proof.
  rewrite extract_details_eq.
  destruct (select_one soup "div.sqs-block.html-block.sqs-block-html")
    as [e |].
  - eexists. split; [reflexivity |].
    destruct (get_text_trimmed (lit " ") e) as [Hs He].
    destruct (re_sub_ws_trimmed _ Hs He) as [Hs' He'].
    split; [| split; assumption].
    apply sub_ws_from_collapsed. trivial.
  - eexists. split; [reflexivity |]. repeat split.
Qed.

(** X3: when the description block is present, the description holds
    exactly the characters of the block's text nodes that are not white
    space, in their order, and is no longer than the joined text. *)
Theorem description_keeps_ink (soup : Soup) (e : Tag) :
  select_one soup "div.sqs-block.html-block.sqs-block-html" = Some e ->
  exists description,
    dict_get (extract_details soup) "description" = Some description
    /\ ink description = ink (List.concat (tag_strings e))
    /\ List.length description <= List.length (get_text (lit " ") e).
Proof.
  intros He. rewrite extract_details_eq, He.
  eexists. split; [reflexivity |]. split.
  - unfold re_sub_ws. rewrite sub_ws_from_ink. unfold get_text.
    rewrite join_ink by reflexivity. apply stripped_strings_ink.
  - apply sub_ws_from_length.
Qed.

Lemma description_keeps_ink_witness :
  select_one Demo.event_a_soup "div.sqs-block.html-block.sqs-block-html"
  = Some (Demo.anchor [] [lit " Live   music "; lit "on the  lawn. "])
  /\ exists description,
       dict_get (extract_details Demo.event_a_soup) "description"
       = Some description
       /\ ink description = lit "Livemusiconthelawn.".
Proof.
  split; [reflexivity |].
  destruct (description_keeps_ink Demo.event_a_soup
              (e := Demo.anchor [] [lit " Live   music "; lit "on the  lawn. "])
              eq_refl)
    as (description & Hd & Hink & _).
  exists description. split; [exact Hd |]. rewrite Hink. reflexivity.
Defined.

(** X4: the white-space collapse leaves a text unchanged exactly when
    the text is already in normal form (plain spaces only, never two in
    a row). *)
Theorem re_sub_ws_fixed_iff (s : str) :
  re_sub_ws s = s <-> collapsed s = true.
Proof.
  split.
  - intros H. rewrite <- H. apply sub_ws_from_collapsed. trivial.
  - apply collapsed_from_fixed.
Qed.

Lemma extract_details_text_fields (soup : Soup) :
  dict_get (extract_details soup) "title"
  = Some match select_one soup "h1.eventitem-title" with
         | Some e => get_text [] e
         | None => lit "No title found"
         end
  /\ dict_get (extract_details soup) "start_time"
     = Some match select_one soup "time.event-time-localized-start" with
            | Some e => get_text [] e
            | None => lit "No start time found"
            end
  /\ dict_get (extract_details soup) "end_time"
     = Some match select_one soup "time.event-time-localized-end" with
            | Some e => get_text [] e
            | None => lit "No end time found"
            end
  /\ dict_get (extract_details soup) "book_link_text"
     = Some match select_one soup
                   "a.sqs-block-button-element--medium.sqs-button-element--primary.sqs-block-button-element" with
            | Some e => get_text [] e
            | None => []
            end.
Proof. rewrite extract_details_eq. repeat split. Qed.

(** X5: on every parsed page the title, the start time, the end time
    and the text of the booking button neither begin nor end with
    white space. *)
Theorem text_fields_trimmed (soup : Soup) (k : string) :
  In k ["title"; "start_time"; "end_time"; "book_link_text"]%string ->
  exists v,
    dict_get (extract_details soup) k = Some v
    /\ starts_with_space v = false
    /\ ends_with_space v = false.
Proof.
  intros Hk.
  destruct (extract_details_text_fields soup) as (Ht & Hs & He & Hb).
  cbn [In] in Hk.
  destruct Hk as [<- | [<- | [<- | [<- | []]]]];
    eexists; (split; [eassumption |]);
    match goal with
    | |- context [select_one soup ?sel] => destruct (select_one soup sel) as [e |]
    end;
    try apply get_text_trimmed; split; reflexivity.
Qed.

Lemma text_fields_trimmed_witness :
  In "title"%string
     ["title"; "start_time"; "end_time"; "book_link_text"]%string
  /\ exists v,
       dict_get (extract_details Demo.event_a_soup) "title" = Some v
       /\ starts_with_space v = false
       /\ ends_with_space v = false.
Proof.
  split; [left; reflexivity |].
  apply (text_fields_trimmed Demo.event_a_soup (k := "title")).
  left. reflexivity.
Defined.

(** X6: an element that is present but holds white space only gives an
    empty field, not the sentinel; and a date element without a
    datetime attribute, or a booking button without an href, gives an
    empty [date_datetime], or [book_link]. *)
Theorem blank_elements_give_empty_fields (soup : Soup) :
  let blank e := forallb (forallb isspace) (tag_strings e) = true in
  let details := extract_details soup in
  (forall e, select_one soup "h1.eventitem-title" = Some e -> blank e ->
             dict_get details "title" = Some [])
  /\ (forall e, select_one soup "time.event-date" = Some e -> blank e ->
                dict_get details "date" = Some [])
  /\ (forall e, select_one soup "time.event-date" = Some e ->
                tag_get e "datetime" = None ->
                dict_get details "date_datetime" = Some [])
  /\ (forall e, select_one soup "time.event-time-localized-start" = Some e ->
                blank e -> dict_get details "start_time" = Some [])
  /\ (forall e, select_one soup "time.event-time-localized-end" = Some e ->
                blank e -> dict_get details "end_time" = Some [])
  /\ (forall e,
        select_one soup
          "a.sqs-block-button-element--medium.sqs-button-element--primary.sqs-block-button-element"
        = Some e ->
        (blank e -> dict_get details "book_link_text" = Some [])
        /\ (tag_get e "href" = None -> dict_get details "book_link" = Some []))
  /\ (forall e, select_one soup "div.sqs-block.html-block.sqs-block-html"
                = Some e ->
                blank e -> dict_get details "description" = Some []).
Proof.
  cbv zeta. rewrite extract_details_eq.
  repeat split; intros;
    repeat match goal with
           | H : select_one _ _ = Some _ |- _ => rewrite H; clear H
           end;
    cbn [dict_get String.eqb Ascii.eqb Bool.eqb andb];
    unfold tag_get_default, dict_get_default, tag_get in *;
    repeat match goal with
           | H : forallb _ _ = true |- _ =>
               rewrite ?(get_text_blank [] _ H), ?(get_text_blank (lit " ") _ H);
               clear H
           | H : dict_get _ _ = None |- _ => rewrite H; clear H
           end;
    reflexivity.
Qed.

Lemma blank_elements_give_empty_fields_witness :
  select_one Samples.blank_soup "h1.eventitem-title" = Some Samples.blank
  /\ forallb (forallb isspace) (tag_strings Samples.blank) = true
  /\ tag_get Samples.blank "datetime" = None
  /\ dict_get (extract_details Samples.blank_soup) "title" = Some []
  /\ dict_get (extract_details Samples.blank_soup) "date_datetime" = Some [].
Proof.
  split; [reflexivity |]. split; [reflexivity |]. split; [reflexivity |].
  pose proof (blank_elements_give_empty_fields Samples.blank_soup) as H.
  cbv zeta in H. destruct H as (Ht & _ & Hd & _).
  split.
  - apply (Ht Samples.blank); reflexivity.
  - apply (Hd Samples.blank); reflexivity.
Defined.


(** * The listing harvester: requests, clock and console *)

(** X7: whatever the outcome, [scrape_runway_events] sends exactly one
    request, for the listing URL with the browser User-Agent header;
    it never sleeps, writes no file and leaves the oracles alone. *)
Theorem scrape_runway_events_one_request (w : World) :
  let w' := snd (scrape_runway_events w) in
  w_requests w'
  = w_requests w
    ++ [{| rq_url := lit "https://www.runwayplayavista.com/events2";
           rq_headers := [("User-Agent"%string, USER_AGENT)] |}]
  /\ w_slept w' = w_slept w
  /\ w_files w' = w_files w
  /\ same_oracles w w'.
Proof.
  cbv zeta. rewrite scrape_runway_events_exact. cbn [snd].
  unfold advance. cbn [w_requests w_slept w_files].
  split; [reflexivity |].
  split; [apply Nat.add_0_r |].
  split; [apply app_nil_r | repeat split].
Qed.


Lemma listing_report_printable (w : World) (soup : Soup) :
  fetch_page LISTING_URL w = Ok soup ->
  forallb (can_print (w_console w))
    (map found_line (kept_links (soup LISTING_SELECTOR))) = true ->
  listing_report w
  = (Ok (harvested (w_clock w) (w_clock_reads w) (soup LISTING_SELECTOR)),
     List.length (kept_links (soup LISTING_SELECTOR)),
     [FETCH_LINE] ++ map found_line (kept_links (soup LISTING_SELECTOR))
     ++ [total_line (List.length (kept_links (soup LISTING_SELECTOR)))]).
Proof.
  intros Hpage Hp. apply first_unprintable_none in Hp.
  unfold listing_report. rewrite Hpage, Hp. reflexivity.
Qed.


(** The clock readings of the harvest, whatever the console. *)
Lemma harvest_reads (w : World) :
  match fst (fst (listing_report w)) with
  | Ok events =>
      List.length events <= snd (fst (listing_report w))
      /\ (events <> [] -> snd (fst (listing_report w)) = List.length events)
      /\ forall i r,
           nth_error events i = Some r ->
           ev_scraped_at r = w_clock w (w_clock_reads w + i)
  | Raise _ => snd (fst (listing_report w)) = 0
  end.
Proof.
  unfold listing_report.
  destruct (fetch_page LISTING_URL w) as [soup | e].
  - destruct (first_unprintable (w_console w)
                (map found_line (kept_links (soup LISTING_SELECTOR))))
      as [[before bad] |]; cbn [fst snd].
    + split; [cbn [List.length]; lia |].
      split; [intros H; contradiction H; reflexivity |].
      intros [| i] r H; discriminate H.
    + rewrite harvested_length. split; [lia |]. split; [reflexivity |].
      intros i r H. apply (harvested_nth _ _ _ _ H).
  - destruct (can_print (w_console w) (listing_error_line e)); cbn [fst snd].
    + split; [cbn [List.length]; lia |].
      split; [intros H; contradiction H; reflexivity |].
      intros [| i] r H; discriminate H.
    + reflexivity.
Qed.

(** X8: the references that [scrape_runway_events] returns carry
    consecutive readings of the clock: the reference of rank [i]
    carries the reading of rank [i] after those made before the call,
    so the time stamps follow the order of the listing. When the
    returned list is not empty the clock was read exactly once per
    reference; the clock is never read fewer times than references
    are returned, and not at all when the fetch fails. *)
Theorem scrape_runway_events_clock (w : World) :
  let w' := snd (scrape_runway_events w) in
  (forall events,
      fst (scrape_runway_events w) = Ok events ->
      w_clock_reads w + List.length events <= w_clock_reads w'
      /\ (events <> [] ->
          w_clock_reads w' = w_clock_reads w + List.length events)
      /\ forall i r,
           nth_error events i = Some r ->
           ev_scraped_at r = w_clock w (w_clock_reads w + i))
  /\ (forall e,
        fetch_page LISTING_URL w = Raise e ->
        w_clock_reads w' = w_clock_reads w).
Proof.
  cbv zeta. rewrite scrape_runway_events_exact. cbn [fst snd]. advance_proj.
  pose proof (harvest_reads w) as H.
  split.
  - intros events Hev. rewrite Hev in H. destruct H as (Hle & Heq & Hnth).
    split; [lia |]. split; [| exact Hnth].
    intros Hne. rewrite (Heq Hne). reflexivity.
  - intros e Hpage. unfold listing_report in *. rewrite Hpage in *.
    destruct (can_print (w_console w) (listing_error_line e));
      cbn [fst snd]; lia.
Qed.

Lemma scrape_runway_events_clock_witness :
  exists events r,
    fst (scrape_runway_events Demo.world) = Ok events
    /\ nth_error events 1 = Some r
    /\ ev_scraped_at r = Demo.clock 1
    /\ w_clock_reads (snd (scrape_runway_events Demo.world)) = 2.
Proof.
  pose proof (scrape_runway_events_clock Demo.world) as H. cbv zeta in H.
  destruct H as (Hret & _).
  destruct (Hret [Demo.event_a; Demo.event_b]) as (_ & Hreads & Hnth).
  { vm_compute. reflexivity. }
  exists [Demo.event_a; Demo.event_b], Demo.event_b.
  split; [vm_compute; reflexivity |]. split; [reflexivity |].
  split; [apply (Hnth 1 Demo.event_b eq_refl) |].
  apply Hreads. discriminate.
Defined.

(** X9: when the listing page is fetched and parsed and the console
    can print the ['Found event'] lines, the console gets the line
    announcing the fetch, then one line per emitted reference with its
    title and the href of its anchor, in order, then the line with the
    number of references. *)
Theorem scrape_runway_events_console_success (w : World) (soup : Soup) :
  fetch_page LISTING_URL w = Ok soup ->
  forallb (can_print (w_console w))
    (map found_line (filter has_usable_href (select soup LISTING_SELECTOR)))
  = true ->
  w_stdout (snd (scrape_runway_events w))
  = w_stdout w
    ++ [lit "Fetching events from: https://www.runwayplayavista.com/events2"]
    ++ map (fun link =>
              lit "Found event: " ++ link_title link ++ lit " - "
              ++ tag_get_default link "href" [])
         (filter has_usable_href (select soup LISTING_SELECTOR))
    ++ [[NL] ++ lit "Total events found: "
        ++ str_of_nat
             (List.length
                (filter has_usable_href (select soup LISTING_SELECTOR)))].
Proof.
  intros Hpage Hp. rewrite scrape_runway_events_exact.
  rewrite (listing_report_printable _ Hpage Hp). reflexivity.
Qed.

Lemma scrape_runway_events_console_success_witness :
  fetch_page LISTING_URL Demo.world = Ok (Demo.listing_soup Demo.listing_links)
  /\ w_stdout (snd (scrape_runway_events Demo.world))
     = [ lit "Fetching events from: https://www.runwayplayavista.com/events2";
         lit "Found event: Jazz Night - /events2/event-a";
         lit "Found event: Trivia - /events2/event-b";
         [NL] ++ lit "Total events found: 2" ].
Proof.
  split; [reflexivity |].
  rewrite (scrape_runway_events_console_success Demo.world
             (soup := Demo.listing_soup Demo.listing_links) eq_refl eq_refl).
  reflexivity.
Defined.

Lemma http_error_class (w : World) (url : str) (e : exn) (r : Response) :
  fetch_page url w = Raise e ->
  w_server w (List.length (w_requests w)) (request_for url) = Ok r ->
  http_error r <> None ->
  exn_class_of e = RequestException.
Proof.
  intros Hpage Hr Hh. unfold fetch_page, page_of_reply in Hpage.
  rewrite Hr in Hpage. unfold http_error in *.
  destruct ((400 <=? status_code r) && (status_code r <? 500))%N.
  - injection Hpage as <-. reflexivity.
  - destruct ((500 <=? status_code r) && (status_code r <? 600))%N.
    + injection Hpage as <-. reflexivity.
    + contradiction Hh. reflexivity.
Qed.

(** X10: when the fetch of the listing page fails with [e] and the
    console can print the error line, the console gets the line
    announcing the fetch and exactly one more line: the text of [e]
    after ["Error fetching the webpage: "] for a request error, an
    error status among them, and after ["Error parsing the webpage: "]
    for any other exception. When the console cannot print that line,
    it gets the first line only and the function raises. *)
Theorem scrape_runway_events_console_failure (w : World) (e : exn) :
  fetch_page LISTING_URL w = Raise e ->
  let error_line :=
    (match exn_class_of e with
     | RequestException => lit "Error fetching the webpage: "
     | OtherException => lit "Error parsing the webpage: "
     end) ++ exn_str e in
  (can_print (w_console w) error_line = true ->
   fst (scrape_runway_events w) = Ok []
   /\ w_stdout (snd (scrape_runway_events w))
      = w_stdout w
        ++ [ lit "Fetching events from: https://www.runwayplayavista.com/events2";
             error_line ])
  /\ (can_print (w_console w) error_line = false ->
      (exists e', fst (scrape_runway_events w) = Raise e')
      /\ w_stdout (snd (scrape_runway_events w))
         = w_stdout w
           ++ [lit "Fetching events from: https://www.runwayplayavista.com/events2"])
  /\ (forall r,
        w_server w (List.length (w_requests w)) (request_for LISTING_URL)
        = Ok r ->
        http_error r <> None ->
        exn_class_of e = RequestException).
Proof.
  intros Hpage. cbv zeta.
  assert (Hline : (match exn_class_of e with
                   | RequestException => lit "Error fetching the webpage: "
                   | OtherException => lit "Error parsing the webpage: "
                   end) ++ exn_str e = listing_error_line e).
  { unfold listing_error_line. destruct (exn_class_of e); reflexivity. }
  rewrite Hline. rewrite scrape_runway_events_exact.
  unfold listing_report. rewrite Hpage.
  split; [| split].
  - intros Hp. rewrite Hp. cbn [fst snd]. split; reflexivity.
  - intros Hp. rewrite Hp. cbn [fst snd].
    split; [eexists; reflexivity | reflexivity].
  - intros r Hr Hh. apply (http_error_class _ _ Hpage Hr Hh).
Qed.

Lemma scrape_runway_events_console_failure_witness :
  fetch_page LISTING_URL Demo.not_found_world
  = Raise {| exn_class_of := RequestException;
             exn_str := lit "404 Client Error: Not Found for url: https://www.runwayplayavista.com/events2" |}
  /\ w_stdout (snd (scrape_runway_events Demo.not_found_world))
     = [ lit "Fetching events from: https://www.runwayplayavista.com/events2";
         lit "Error fetching the webpage: 404 Client Error: Not Found for url: https://www.runwayplayavista.com/events2" ].
Proof.
  split; [reflexivity |].
  pose proof (scrape_runway_events_console_failure Demo.not_found_world
                (e := {| exn_class_of := RequestException;
                         exn_str := lit "404 Client Error: Not Found for url: https://www.runwayplayavista.com/events2" |})
                eq_refl) as H.
  cbv zeta in H. destruct H as (Hprinted & _).
  destruct (Hprinted eq_refl) as (_ & Hout).
  rewrite Hout. reflexivity.
Defined.

Lemma link_title_empty (link : Tag) :
  link_title link = [] <->
  (get_text [] link = [] /\ tag_get link "title" = Some []).
Proof.
  unfold link_title, str_or, tag_get_default, dict_get_default, tag_get.
  destruct (get_text [] link) as [| c t]; cbn [truthy].
  - destruct (dict_get (tag_attrs link) "title") as [v |].
    + split; [intros ->; split; reflexivity | intros [_ H]; congruence].
    + split; [intros H; discriminate H | intros [_ H]; discriminate H].
  - split; [intros H; discriminate H | intros [H _]; discriminate H].
Qed.

(** X11: a reference can have an empty title: when the console can
    print the ['Found event'] lines, the title of an emitted reference
    is the empty string exactly when its anchor has no text and has a
    title attribute that is empty. *)
Theorem reference_title_empty (w : World) (soup : Soup) :
  fetch_page LISTING_URL w = Ok soup ->
  forallb (can_print (w_console w))
    (map found_line (filter has_usable_href (select soup LISTING_SELECTOR)))
  = true ->
  exists events,
    fst (scrape_runway_events w) = Ok events
    /\ Forall2
         (fun link r =>
            ev_title r = [] <->
            (get_text [] link = [] /\ tag_get link "title" = Some []))
         (filter has_usable_href (select soup LISTING_SELECTOR)) events.
Proof.
  intros Hpage Hp. rewrite (scrape_runway_events_fetched _ Hpage).
  unfold kept_links. rewrite Hp.
  eexists. split; [reflexivity |].
  eapply Forall2_impl; [| apply harvested_Forall2].
  intros link r (href & _ & Ht & _). rewrite Ht. apply link_title_empty.
Qed.

Lemma reference_title_empty_witness :
  fetch_page LISTING_URL Samples.untitled_world
  = Ok (Demo.listing_soup [Samples.untitled_link])
  /\ exists r,
       fst (scrape_runway_events Samples.untitled_world) = Ok [r]
       /\ ev_title r = [].
Proof.
  split; [reflexivity |].
  destruct (reference_title_empty Samples.untitled_world
              (soup := Demo.listing_soup [Samples.untitled_link])
              eq_refl eq_refl)
    as (events & Hrun & Hall).
  change (filter has_usable_href
            (select (Demo.listing_soup [Samples.untitled_link])
               LISTING_SELECTOR))
    with [Samples.untitled_link] in Hall.
  inversion Hall as [| link r ls rs Hr Hrest]; subst.
  inversion Hrest; subst.
  exists r. split; [exact Hrun |].
  apply Hr. split; reflexivity.
Defined.

Lemma kept_links_nil (links : list Tag) :
  kept_links links = [] <->
  forall link,
    In link links ->
    tag_get link "href" = None \/ tag_get link "href" = Some [].
Proof.
  unfold kept_links. split.
  - intros Hk link Hin. apply has_usable_href_false.
    destruct (has_usable_href link) eqn:Hu; [| reflexivity].
    assert (Hin' : In link (filter has_usable_href links))
      by (apply filter_In; split; assumption).
    rewrite Hk in Hin'. contradiction Hin'.
  - intros Hall. induction links as [| link rest IH]; [reflexivity |].
    cbn [filter].
    rewrite (proj2 (has_usable_href_false link)
               (Hall link (or_introl eq_refl))).
    apply IH. intros l Hl. apply Hall. right. exact Hl.
Qed.

Lemma harvested_nil (clock : nat -> str) (k : nat) (links : list Tag) :
  harvested clock k links = [] <-> kept_links links = [].
Proof.
  rewrite <- !length_zero_iff_nil, harvested_length. reflexivity.
Qed.

(** X12: the caller cannot tell a failure from an empty listing: the
    returned list is empty exactly when the fetch of the listing page
    failed with an error the console can report, or the page was
    fetched and no matched anchor has a non-empty href, or the page
    was fetched and the console cannot print one of the ['Found
    event'] lines. *)
Theorem scrape_runway_events_empty_iff (w : World) :
  fst (scrape_runway_events w) = Ok [] <->
  ((exists e,
      fetch_page LISTING_URL w = Raise e
      /\ can_print (w_console w) (listing_error_line e) = true)
   \/ (exists soup,
         fetch_page LISTING_URL w = Ok soup
         /\ ((forall link,
                In link (select soup LISTING_SELECTOR) ->
                tag_get link "href" = None \/ tag_get link "href" = Some [])
             \/ forallb (can_print (w_console w))
                  (map found_line
                     (filter has_usable_href (select soup LISTING_SELECTOR)))
                = false))).
Proof.
  destruct (fetch_page LISTING_URL w) as [soup | e] eqn:Hpage.
  - rewrite (scrape_runway_events_fetched _ Hpage). unfold kept_links.
    split.
    + intros H. right. exists soup. split; [reflexivity |].
      destruct (forallb (can_print (w_console w))
                  (map found_line
                     (filter has_usable_href (select soup LISTING_SELECTOR))));
        [left | right; reflexivity].
      apply kept_links_nil. injection H as H.
      apply (proj1 (harvested_nil _ _ _) H).
    + intros [(e & He & _) | (soup' & Hs & Hcase)]; [discriminate He |].
      injection Hs as <-.
      destruct Hcase as [Hall | Hp].
      * apply kept_links_nil in Hall.
        apply (harvested_nil (w_clock w) (w_clock_reads w)) in Hall.
        rewrite Hall. destruct (forallb _ _); reflexivity.
      * rewrite Hp. reflexivity.
  - rewrite scrape_runway_events_result. unfold listing_report.
    rewrite Hpage. split.
    + intros H. left. exists e. split; [reflexivity |].
      destruct (can_print (w_console w) (listing_error_line e));
        [reflexivity | discriminate H].
    + intros [(e' & He & Hp) | (soup & Hs & _)]; [| discriminate Hs].
      injection He as <-. rewrite Hp. reflexivity.
Qed.



(** * The detail extractor and the orchestrator: requests, sleep, console *)

(** X13: whether it returns or raises, [scrape_event_details] sends
    exactly one request, for the given URL with the browser User-Agent
    header, whether the page can be used or not; it does not read the
    clock, sleep or write a file. It returns a record unless the fetch
    failed and the console cannot print the error line. *)
Theorem scrape_event_details_effects (event_url : str) (w : World) :
  let w' := snd (scrape_event_details event_url w) in
  w_requests w'
  = w_requests w
    ++ [{| rq_url := event_url;
           rq_headers := [("User-Agent"%string, USER_AGENT)] |}]
  /\ w_clock_reads w' = w_clock_reads w
  /\ w_slept w' = w_slept w
  /\ w_files w' = w_files w
  /\ same_oracles w w'
  /\ ((exists details, fst (scrape_event_details event_url w) = Ok details)
      <-> forall e,
            fetch_page event_url w = Raise e ->
            can_print (w_console w)
              (lit "Error scraping event details from " ++ event_url
               ++ lit ": " ++ exn_str e) = true).
Proof.
  cbv zeta. rewrite scrape_event_details_exact. cbn [fst snd].
  unfold advance. cbn [w_requests w_clock_reads w_slept w_files].
  split; [reflexivity |].
  split; [apply Nat.add_0_r |].
  split; [apply Nat.add_0_r |].
  split; [apply app_nil_r |].
  split; [repeat split |].
  unfold details_report.
  destruct (fetch_page event_url w) as [soup | e].
  - split; [intros _ e H; discriminate H | intros _; eexists; reflexivity].
  - fold (details_error_line event_url e).
    destruct (can_print (w_console w) (details_error_line event_url e)) eqn:Hp;
      cbn [fst].
    + split; [| intros _; eexists; reflexivity].
      intros _ e' H. injection H as <-. exact Hp.
    + split; [intros (details & H); discriminate H |].
      intros H. specialize (H e eq_refl).
      unfold details_error_line in Hp. congruence.
Qed.



Lemma NoDup_detail_keys :
  NoDup ("url" :: "scraped_at" :: DETAIL_KEYS)%string
  /\ NoDup ("url" :: "scraped_at" :: ERROR_KEYS)%string.
Proof.
  split;
    repeat (constructor;
            [cbn [In]; intros H;
             repeat (destruct H as [H | H]; [discriminate H |]);
             exact H |]);
    constructor.
Qed.

Lemma detailed_event_invariant (event : EventReference) (page : result Soup) :
  let record := detailed_event event (details_of_page page) in
  NoDup (dict_keys record)
  /\ (forall k,
        In k ["url"; "scraped_at"; "title"; "date"; "start_time"; "end_time";
              "book_link"; "description"]%string ->
        dict_get record k <> None)
  /\ (List.length record = 8 \/ List.length record = 10).
Proof.
  cbv zeta. rewrite detailed_event_eq.
  destruct NoDup_detail_keys as [Hd He].
  destruct page as [soup | e]; cbn [details_of_page].
  - rewrite extract_details_eq. split; [exact Hd |]. split.
    + intros k Hk. cbn [In] in Hk.
      repeat (destruct Hk as [<- | Hk]; [discriminate |]). contradiction Hk.
    + right. reflexivity.
  - split; [exact He |]. split.
    + intros k Hk. cbn [In] in Hk.
      repeat (destruct Hk as [<- | Hk]; [discriminate |]). contradiction Hk.
    + left. reflexivity.
Qed.

Lemma detailed_from_Forall (P : Dict -> Prop) server parser :
  (forall event page, P (detailed_event event (details_of_page page))) ->
  forall events k, Forall P (detailed_from server parser k events).
Proof.
  intros HP. induction events as [| event rest IH]; intros k;
    cbn [detailed_from]; constructor; [apply HP | apply IH].
Qed.

(** X15: every record of an output of [scrape_all_event_details],
    scraped or failed, has pairwise distinct keys, has the eight keys
    url, scraped_at, title, date, start_time, end_time, book_link and
    description, and has eight or ten fields. *)
Theorem output_records_invariant (events : list EventReference) (w : World)
    (out : list Dict) :
  fst (scrape_all_event_details events w) = Ok out ->
  Forall
    (fun record =>
       NoDup (dict_keys record)
       /\ (forall k,
             In k ["url"; "scraped_at"; "title"; "date"; "start_time";
                   "end_time"; "book_link"; "description"]%string ->
             dict_get record k <> None)
       /\ (List.length record = 8 \/ List.length record = 10))
    out.
Proof.
  intros Hout.
  destruct (scrape_all_event_details_returns _ _ Hout) as [_ ->].
  apply detailed_from_Forall. intros event page.
  apply (detailed_event_invariant event page).
Qed.

Lemma output_records_invariant_witness :
  exists out,
    fst (scrape_all_event_details [Demo.event_a; Demo.event_b] Demo.world)
    = Ok out
    /\ Forall (fun record => NoDup (dict_keys record)) out
    /\ map (@List.length (string * str)) out = [10; 8].
Proof.
  eexists. split; [vm_compute; reflexivity |]. split.
  - eapply Forall_impl;
      [| apply (@output_records_invariant [Demo.event_a; Demo.event_b]
                  Demo.world);
         vm_compute; reflexivity].
    intros record (Hnd & _). exact Hnd.
  - reflexivity.
Defined.

(** The state a run of [scrape_all_event_details] leaves, whether it
    returns or raises. *)
Lemma scrape_all_event_details_world (events : list EventReference)
    (w : World) :
  exists m lines seconds,
    m <= List.length events
    /\ seconds <= m
    /\ snd (scrape_all_event_details events w)
       = advance
           (map (fun event => request_for (ev_url event)) (firstn m events))
           0 lines seconds [] w
    /\ (forall out,
          fst (scrape_all_event_details events w) = Ok out ->
          m = List.length events /\ seconds = List.length events
          /\ lines = progress_console (w_server w) (w_parser w)
                       (List.length events) 1 (List.length (w_requests w))
                       events).
Proof.
  destruct (loop_printable (w_console w) (w_server w) (w_parser w)
              (List.length events) 1 (List.length (w_requests w)) events)
    eqn:Hp.
  - rewrite (scrape_all_event_details_printable _ _ Hp). cbn [fst snd].
    exists (List.length events). eexists. exists (List.length events).
    rewrite firstn_all.
    split; [lia |]. split; [lia |]. split; [reflexivity |].
    intros out _. repeat split.
  - destruct (scrape_all_event_details_unprintable _ _ Hp)
      as (e & m & lines & seconds & Hm & Hs & _ & Hrun).
    rewrite Hrun. cbn [fst snd].
    exists m, lines, seconds.
    split; [exact Hm |]. split; [exact Hs |]. split; [reflexivity |].
    intros out H. discriminate H.
Qed.

(** X16: [scrape_all_event_details] sends its requests in the order of
    the references, each for the url of its reference with the browser
    User-Agent header, and never more than one per reference; when it
    returns it has sent exactly one request per reference, a url that
    occurs twice being fetched twice. *)
Theorem scrape_all_event_details_requests (events : list EventReference)
    (w : World) :
  let w' := snd (scrape_all_event_details events w) in
  let request event :=
    {| rq_url := ev_url event;
       rq_headers := [("User-Agent"%string, USER_AGENT)] |} in
  (exists m,
     m <= List.length events
     /\ w_requests w' = w_requests w ++ map request (firstn m events))
  /\ (forall out,
        fst (scrape_all_event_details events w) = Ok out ->
        w_requests w' = w_requests w ++ map request events).
Proof.
  cbv zeta.
  destruct (scrape_all_event_details_world events w)
    as (m & lines & seconds & Hm & _ & Hw & Hret).
  rewrite Hw. advance_proj. split.
  - exists m. split; [exact Hm | reflexivity].
  - intros out Hout. destruct (Hret out Hout) as (-> & _).
    rewrite firstn_all. reflexivity.
Qed.

(** X17: [scrape_all_event_details] does not read the clock, writes no
    file and leaves the oracles alone; it never sleeps more than one
    second per request it has sent, and when it returns it has slept
    exactly one second per reference, after failed fetches and after
    the last reference as well. *)
Theorem scrape_all_event_details_sleep (events : list EventReference)
    (w : World) :
  let w' := snd (scrape_all_event_details events w) in
  w_clock_reads w' = w_clock_reads w
  /\ w_files w' = w_files w
  /\ same_oracles w w'
  /\ w_slept w <= w_slept w'
  /\ w_slept w' - w_slept w
     <= List.length (w_requests w') - List.length (w_requests w)
  /\ (forall out,
        fst (scrape_all_event_details events w) = Ok out ->
        w_slept w' = w_slept w + List.length events).
Proof.
  cbv zeta.
  destruct (scrape_all_event_details_world events w)
    as (m & lines & seconds & Hm & Hs & Hw & Hret).
  rewrite Hw. advance_proj.
  split; [apply Nat.add_0_r |].
  split; [apply app_nil_r |].
  split; [repeat split |].
  split; [lia |].
  split.
  - rewrite length_app, length_map, length_firstn. lia.
  - intros out Hout. destruct (Hret out Hout) as (_ & -> & _). reflexivity.
Qed.

Lemma detailed_from_app server parser (a b : list EventReference) :
  forall k,
    detailed_from server parser k (a ++ b)
    = detailed_from server parser k a
      ++ detailed_from server parser (k + List.length a) b.
Proof.
  induction a as [| event a IH]; intros k; cbn [app detailed_from List.length].
  - rewrite Nat.add_0_r. reflexivity.
  - rewrite IH. do 3 f_equal. lia.
Qed.

Lemma loop_printable_app (con : Console) server parser
    (a b : list EventReference) :
  forall total i k,
    loop_printable con server parser total i k (a ++ b)
    = loop_printable con server parser total i k a
      && loop_printable con server parser total (i + List.length a)
           (k + List.length a) b.
Proof.
  induction a as [| event a IH]; intros total i k;
    cbn [app loop_printable List.length].
  - rewrite !Nat.add_0_r. reflexivity.
  - rewrite IH, <- !andb_assoc. do 3 f_equal; f_equal; lia.
Qed.

(** X18: a run for a list of references in two parts returns exactly
    when the run for the first part returns and the run for the second
    part, in the world the first leaves, returns; its records are the
    records of the first run followed by those of the second. *)
Theorem scrape_all_event_details_app (a b : list EventReference) (w : World)
    (out : list Dict) :
  fst (scrape_all_event_details (a ++ b) w) = Ok out <->
  exists out_a out_b,
    fst (scrape_all_event_details a w) = Ok out_a
    /\ fst (scrape_all_event_details b (snd (scrape_all_event_details a w)))
       = Ok out_b
    /\ out = out_a ++ out_b.
Proof.
  split.
  - intros Hout.
    destruct (scrape_all_event_details_returns _ _ Hout) as [Hp ->].
    rewrite loop_printable_app in Hp. apply andb_true_iff in Hp.
    destruct Hp as [Ha Hb].
    rewrite (loop_printable_numbering _ _ _ _ _ (List.length a) 1 1) in Ha.
    rewrite (loop_printable_numbering _ _ _ _ _ (List.length b) _ 1) in Hb.
    rewrite (scrape_all_event_details_printable _ _ Ha). cbn [fst snd].
    rewrite scrape_all_event_details_printable;
      advance_proj; rewrite ?length_app, ?length_map; [| exact Hb].
    eexists. eexists. split; [reflexivity |]. split; [reflexivity |].
    apply detailed_from_app.
  - intros (out_a & out_b & Ha & Hb & ->).
    destruct (scrape_all_event_details_returns _ _ Ha) as [Hpa ->].
    rewrite (scrape_all_event_details_printable _ _ Hpa) in Hb.
    cbn [snd] in Hb.
    destruct (scrape_all_event_details_returns _ _ Hb) as [Hpb ->].
    revert Hpb. advance_proj. rewrite length_app, length_map. intros Hpb.
    rewrite scrape_all_event_details_printable.
    + cbn [fst]. rewrite detailed_from_app. reflexivity.
    + rewrite loop_printable_app.
      rewrite (loop_printable_numbering _ _ _ _ _ (List.length a) 1 1), Hpa.
      rewrite (loop_printable_numbering _ _ _ _ _ (List.length b) _ 1), Hpb.
      reflexivity.
Qed.

Lemma scrape_all_event_details_app_witness :
  exists out_a out_b,
    fst (scrape_all_event_details [Demo.event_a] Demo.world) = Ok out_a
    /\ fst (scrape_all_event_details [Demo.event_b]
              (snd (scrape_all_event_details [Demo.event_a] Demo.world)))
       = Ok out_b
    /\ fst (scrape_all_event_details [Demo.event_a; Demo.event_b] Demo.world)
       = Ok (out_a ++ out_b).
Proof.
  destruct (proj1 (@scrape_all_event_details_app [Demo.event_a] [Demo.event_b]
                     Demo.world
                     (detailed_from Demo.server
                        (Demo.parser Demo.listing_links) 0
                        [Demo.event_a; Demo.event_b])))
    as (out_a & out_b & Ha & Hb & Hout).
  { vm_compute. reflexivity. }
  exists out_a, out_b. split; [exact Ha |]. split; [exact Hb |].
  rewrite <- Hout. vm_compute. reflexivity.
Defined.

Lemma progress_console_bounds server parser (events : list EventReference) :
  forall total i k,
    List.length events
    <= List.length (progress_console server parser total i k events)
    <= 2 * List.length events.
Proof.
  induction events as [| event rest IH]; intros total i k;
    cbn [progress_console List.length app]; [lia |].
  rewrite length_app. specialize (IH total (S i) (S k)).
  unfold details_console.
  destruct (page_of_reply parser (server k (request_for (ev_url event))));
    cbn [List.length]; lia.
Qed.

Lemma progress_console_In server parser (events : list EventReference) :
  forall total i k j event,
    nth_error events j = Some event ->
    In (lit "Scraping details for event " ++ str_of_nat (i + j) ++ lit "/"
        ++ str_of_nat total ++ lit ": " ++ ev_title event)
       (progress_console server parser total i k events).
Proof.
  induction events as [| ev rest IH]; intros total i k j event H.
  - destruct j; discriminate H.
  - cbn [progress_console app]. destruct j as [| j]; cbn [nth_error] in H.
    + injection H as ->. rewrite Nat.add_0_r. apply in_eq.
    + apply in_cons. apply in_or_app. right.
      replace (i + S j) with (S i + j) by lia. apply IH. exact H.
Qed.

(** X19: [scrape_all_event_details] only appends to the console. When
    it returns, it has printed, for the reference of rank [j], the
    progress line numbered [j + 1] out of the number of references,
    with the title of the reference, and at least one line and at
    most two lines per reference. *)
Theorem scrape_all_event_details_console (events : list EventReference)
    (w : World) :
  exists lines,
    w_stdout (snd (scrape_all_event_details events w)) = w_stdout w ++ lines
    /\ forall out,
         fst (scrape_all_event_details events w) = Ok out ->
         List.length events <= List.length lines <= 2 * List.length events
         /\ forall j event,
              nth_error events j = Some event ->
              In (lit "Scraping details for event " ++ str_of_nat (j + 1)
                  ++ lit "/" ++ str_of_nat (List.length events) ++ lit ": "
                  ++ ev_title event)
                 lines.
Proof.
  destruct (scrape_all_event_details_world events w)
    as (m & lines & seconds & _ & _ & Hw & Hret).
  rewrite Hw. advance_proj. exists lines. split; [reflexivity |].
  intros out Hout. destruct (Hret out Hout) as (_ & _ & ->).
  split; [apply progress_console_bounds |].
  intros j event H. rewrite Nat.add_comm. apply progress_console_In. exact H.
Qed.

Lemma scrape_all_event_details_console_witness :
  nth_error [Demo.event_a; Demo.event_b] 1 = Some Demo.event_b
  /\ In (lit "Scraping details for event 2/2: Trivia")
        (w_stdout (snd (scrape_all_event_details [Demo.event_a; Demo.event_b]
                          Demo.world))).
Proof.
  split; [reflexivity |].
  destruct (scrape_all_event_details_console [Demo.event_a; Demo.event_b]
              Demo.world)
    as (lines & Hout & Hin).
  rewrite Hout. apply in_or_app. right.
  destruct (Hin (detailed_from Demo.server (Demo.parser Demo.listing_links) 0
                   [Demo.event_a; Demo.event_b])) as (_ & Hline).
  { vm_compute. reflexivity. }
  apply (Hline 1 Demo.event_b eq_refl).
Defined.


(** * The merge and the run *)

Lemma dict_get_set (d : Dict) (k k' : string) (v : str) :
  dict_get (dict_set d k v) k'
  = if String.eqb k k' then Some v else dict_get d k'.
Proof.
  induction d as [| [k0 v0] d IH]; cbn [dict_set dict_get]; [reflexivity |].
  destruct (String.eqb k0 k) eqn:E0; cbn [dict_get].
  - apply String.eqb_eq in E0. subst k0.
    destruct (String.eqb k k'); reflexivity.
  - destruct (String.eqb k0 k') eqn:E1; [| exact IH].
    apply String.eqb_eq in E1. subst k0.
    rewrite String.eqb_sym, E0. reflexivity.
Qed.

Lemma dict_get_absent (d : Dict) (k : string) :
  ~ In k (dict_keys d) -> dict_get d k = None.
Proof.
  induction d as [| [k0 v0] d IH]; cbn [dict_keys map dict_get fst In];
    intros H; [reflexivity |].
  destruct (String.eqb k0 k) eqn:E.
  - apply String.eqb_eq in E. contradiction H. left. exact E.
  - apply IH. intros Hin. apply H. right. exact Hin.
Qed.

Lemma dict_get_update (extra : Dict) :
  NoDup (dict_keys extra) ->
  forall d k,
    dict_get (dict_update d extra) k
    = match dict_get extra k with
      | Some v => Some v
      | None => dict_get d k
      end.
Proof.
  unfold dict_update.
  induction extra as [| [k0 v0] extra IH]; intros Hnd d k;
    cbn [fold_left dict_get fst snd]; [reflexivity |].
  cbn [dict_keys map fst] in Hnd. inversion Hnd as [| ? ? Hnotin Hnd']; subst.
  rewrite (IH Hnd'), dict_get_set.
  destruct (String.eqb k0 k) eqn:E.
  - apply String.eqb_eq in E. subst k0.
    rewrite dict_get_absent by exact Hnotin. reflexivity.
  - reflexivity.
Qed.

(** X20: in the merged record the fields of the detail record win: for
    any detail record with distinct keys, a key of the detail record
    keeps the detail's value, also when the key is [url] or
    [scraped_at]; the two keys of the reference are read from the
    reference only when the detail record lacks them, and no other key
    appears. *)
Theorem detailed_event_precedence (event : EventReference) (details : Dict) :
  NoDup (dict_keys details) ->
  forall k,
    dict_get (detailed_event event details) k
    = match dict_get details k with
      | Some v => Some v
      | None =>
          if String.eqb "url" k then Some (ev_url event)
          else if String.eqb "scraped_at" k then Some (ev_scraped_at event)
          else None
      end.
Proof.
  intros Hnd k. unfold detailed_event.
  rewrite dict_get_update by exact Hnd. reflexivity.
Qed.

Lemma detailed_event_precedence_witness :
  NoDup (dict_keys Samples.clashing_details)
  /\ dict_get (detailed_event Demo.event_a Samples.clashing_details) "url"
     = Some (lit "other")
  /\ dict_get (detailed_event Demo.event_a Samples.clashing_details)
       "scraped_at"
     = Some (ev_scraped_at Demo.event_a).
Proof.
  assert (Hnd : NoDup (dict_keys Samples.clashing_details)).
  { repeat (constructor;
            [cbn [In]; intros H;
             repeat (destruct H as [H | H]; [discriminate H |]); exact H |]).
    constructor. }
  split; [exact Hnd |]. split.
  - rewrite (@detailed_event_precedence Demo.event_a _ Hnd). reflexivity.
  - rewrite (@detailed_event_precedence Demo.event_a _ Hnd). reflexivity.
Defined.

(** The pieces are written whole exactly when the document has no lone
    surrogate, and what is written is always the beginning of the
    document. *)
Lemma write_chunks_document (indent : nat) (data : list Dict) :
  exists rest,
    Json.dumps indent data
    = fst (write_chunks (Json.chunks indent data) []) ++ rest
    /\ (snd (write_chunks (Json.chunks indent data) []) = None -> rest = [])
    /\ (snd (write_chunks (Json.chunks indent data) []) = None
        <-> utf8_ok (Json.dumps indent data) = true).
Proof.
  destruct (write_chunks_prefix (Json.chunks indent data) [])
    as (rest & Heq & Hnone & Hiff).
  exists rest. rewrite <- concat_chunks, utf8_ok_concat.
  split; [exact Heq |]. split; assumption.
Qed.

(** A run that ends normally: either the harvest was empty and the
    last line says so, or the whole document was written. *)
Lemma main_returns (w : World) :
  fst (main w) = Ok tt ->
  exists events reads lines,
    listing_report w = (Ok events, reads, lines)
    /\ ((events = []
         /\ main w
            = (Ok tt,
               advance [request_for LISTING_URL] reads
                 (lines ++ [NO_EVENTS_LINE]) 0 [] w))
        \/ (events <> []
            /\ loop_printable (w_console w) (w_server w) (w_parser w)
                 (List.length events) 1 (S (List.length (w_requests w)))
                 events = true
            /\ main w
               = (Ok tt,
                  advance
                    (request_for LISTING_URL
                     :: map (fun event => request_for (ev_url event)) events)
                    reads
                    (lines ++ [SCRAPING_LINE (List.length events)]
                     ++ progress_console (w_server w) (w_parser w)
                          (List.length events) 1
                          (S (List.length (w_requests w))) events
                     ++ [SAVED_LINE])
                    (List.length events)
                    [output_file
                       (Json.dumps 2
                          (detailed_from (w_server w) (w_parser w)
                             (S (List.length (w_requests w))) events))]
                    w))).
Proof.
  intros Hmain.
  destruct (listing_report w) as [[[events | e] reads] lines] eqn:Hrep.
  - exists events, reads, lines. split; [reflexivity |].
    destruct events as [| event rest] eqn:Hev.
    + left. split; [reflexivity | apply (main_no_events w Hrep)].
    + rewrite <- Hev in *.
      assert (Hne : events <> []) by (rewrite Hev; discriminate).
      right. split; [exact Hne |].
      destruct (loop_printable (w_console w) (w_server w) (w_parser w)
                  (List.length events) 1 (S (List.length (w_requests w)))
                  events) eqn:Hp.
      * split; [reflexivity |].
        destruct (w_open w OUTPUT_PATH) as [e |] eqn:Hopen.
        -- rewrite (main_open_raises w Hrep Hne Hp Hopen) in Hmain.
           discriminate Hmain.
        -- rewrite (main_writes w Hrep Hne Hp Hopen) in Hmain |- *.
           cbn [fst] in Hmain.
           destruct (write_chunks_document 2
                       (detailed_from (w_server w) (w_parser w)
                          (S (List.length (w_requests w))) events))
             as (tail & Heq & Hnone & _).
           destruct (snd (write_chunks _ [])) as [e |];
             [discriminate Hmain |].
           rewrite (Hnone eq_refl), app_nil_r in Heq. rewrite <- Heq.
           reflexivity.
      * destruct (main_loop_raises w Hrep Hne Hp)
          as (e & requests' & lines' & seconds & Hrun).
        rewrite Hrun in Hmain. discriminate Hmain.
  - rewrite (main_harvest_raises w Hrep) in Hmain. discriminate Hmain.
Qed.

Lemma listing_report_result (w : World) (events : list EventReference)
    (reads : nat) (lines : list str) :
  listing_report w = (Ok events, reads, lines) ->
  fst (scrape_runway_events w) = Ok events
  /\ snd (scrape_runway_events w)
     = advance [request_for LISTING_URL] reads lines 0 [] w
  /\ List.length events <= reads
  /\ (events <> [] -> reads = List.length events).
Proof.
  intros Hrep. rewrite scrape_runway_events_exact, Hrep. cbn [fst snd].
  split; [reflexivity |]. split; [reflexivity |].
  pose proof (harvest_reads w) as H. rewrite Hrep in H. cbn [fst snd] in H.
  destruct H as (Hle & Heq & _). split; assumption.
Qed.

(** X21: a run of the script that ends normally has sent the request
    for the listing page and then one request per harvested reference,
    in order, and nothing else; it has slept one second per reference;
    and, when the harvest is not empty, it has read the clock once per
    reference. *)
Theorem main_requests_and_sleep (w : World) :
  fst (main w) = Ok tt ->
  exists events,
    fst (scrape_runway_events w) = Ok events
    /\ w_requests (snd (main w))
       = w_requests w
         ++ request_for LISTING_URL
            :: map (fun event => request_for (ev_url event)) events
    /\ w_slept (snd (main w)) = w_slept w + List.length events
    /\ w_clock_reads w + List.length events <= w_clock_reads (snd (main w))
    /\ (events <> [] ->
        w_clock_reads (snd (main w)) = w_clock_reads w + List.length events).
Proof.
  intros Hmain.
  destruct (main_returns w Hmain)
    as (events & reads & lines & Hrep
        & [(-> & Hrun) | (Hne & _ & Hrun)]);
    destruct (listing_report_result _ Hrep) as (Hev & _ & Hle & Heq);
    exists events || exists (@nil EventReference);
    (split; [exact Hev |]);
    rewrite Hrun; cbn [snd]; advance_proj; cbn [map List.length] in *.
  - split; [reflexivity |]. split; [reflexivity |]. split; [lia |].
    intros H. contradiction H. reflexivity.
  - split; [reflexivity |]. split; [reflexivity |]. split; [lia |].
    intros _. rewrite (Heq Hne). reflexivity.
Qed.

Lemma main_requests_and_sleep_witness :
  List.length (w_requests (snd (main Demo.world))) = 3
  /\ w_slept (snd (main Demo.world)) = 2
  /\ w_clock_reads (snd (main Demo.world)) = 2.
Proof.
  destruct (main_requests_and_sleep Demo.world)
    as (events & Hev & Hreq & Hslept & _ & Hreads).
  { vm_compute. reflexivity. }
  assert (Hevents : events = [Demo.event_a; Demo.event_b]).
  { vm_compute in Hev. injection Hev as <-. reflexivity. }
  subst events.
  split; [rewrite Hreq; reflexivity |].
  split; [rewrite Hslept; reflexivity |].
  rewrite Hreads; [reflexivity | discriminate].
Defined.

(** X22: the last console line of a run that ends normally tells
    whether the file was written: it is the line about the saved file
    when the harvest was not empty, and then one file was written; it
    is the line about no events when the harvest was empty, and then
    none was. *)
Theorem main_last_line (w : World) :
  fst (main w) = Ok tt ->
  exists events,
    fst (scrape_runway_events w) = Ok events
    /\ (events = [] ->
        last (w_stdout (snd (main w))) []
        = lit "No events found to scrape details for."
        /\ w_files (snd (main w)) = w_files w)
    /\ (events <> [] ->
        last (w_stdout (snd (main w))) []
        = lit "Detailed events saved to runway_events_detailed.json"
        /\ List.length (w_files (snd (main w)))
           = S (List.length (w_files w))).
Proof.
  intros Hmain.
  destruct (main_returns w Hmain)
    as (events & reads & lines & Hrep
        & [(-> & Hrun) | (Hne & _ & Hrun)]);
    destruct (listing_report_result _ Hrep) as (Hev & _);
    exists events || exists (@nil EventReference);
    (split; [exact Hev |]);
    rewrite Hrun; cbn [snd]; advance_proj.
  - split; [| intros H; contradiction H; reflexivity].
    intros _. split; [| apply app_nil_r].
    rewrite !app_assoc. apply last_last.
  - split; [intros H; contradiction (Hne H) |].
    intros _. split.
    + rewrite !app_assoc. apply last_last.
    + rewrite length_app. cbn [List.length]. lia.
Qed.

Lemma main_last_line_witness :
  (last (w_stdout (snd (main Demo.world))) []
   = lit "Detailed events saved to runway_events_detailed.json")
  /\ (last (w_stdout (snd (main Demo.offline_world))) []
      = lit "No events found to scrape details for.").
Proof.
  split.
  - destruct (main_last_line Demo.world) as (events & Hev & _ & Hsaved).
    { vm_compute. reflexivity. }
    apply Hsaved. intros ->. vm_compute in Hev. discriminate Hev.
  - destruct (main_last_line Demo.offline_world) as (events & Hev & Hnone & _).
    { vm_compute. reflexivity. }
    apply Hnone. vm_compute in Hev. congruence.
Defined.

Lemma Forall2_compose (A B C : Type) (P : A -> B -> Prop) (Q : B -> C -> Prop)
    (R : A -> C -> Prop) :
  (forall a b c, P a b -> Q b c -> R a c) ->
  forall la lb lc, Forall2 P la lb -> Forall2 Q lb lc -> Forall2 R la lc.
Proof.
  intros H la lb lc HP. revert lc.
  induction HP as [| a b la lb Hab _ IH]; intros lc HQ;
    inversion HQ; subst; constructor; eauto.
Qed.

Lemma detailed_from_Forall2 server parser (events : list EventReference) :
  forall k,
    Forall2
      (fun event record =>
         dict_get record "url" = Some (ev_url event)
         /\ dict_get record "scraped_at" = Some (ev_scraped_at event))
      events (detailed_from server parser k events).
Proof.
  induction events as [| event rest IH]; intros k; cbn [detailed_from];
    constructor; [| apply IH].
  destruct (detailed_event_lookup event
              (page_of_reply parser (server k (request_for (ev_url event)))))
    as (Hu & Hs & _).
  split; assumption.
Qed.

(** X23: end to end, when the listing page is fetched and parsed, some
    anchor has a non-empty href, the console can print the ['Found
    event'] lines and the run ends normally, the run has written one
    document whose records are paired, in order, with those anchors:
    each record carries the site origin followed by the href of its
    anchor as url, whether its detail page could be scraped or not. *)
Theorem main_document_follows_listing (w : World) (soup : Soup) :
  fetch_page LISTING_URL w = Ok soup ->
  filter has_usable_href (select soup LISTING_SELECTOR) <> [] ->
  forallb (can_print (w_console w))
    (map found_line (filter has_usable_href (select soup LISTING_SELECTOR)))
  = true ->
  fst (main w) = Ok tt ->
  exists detailed,
    w_files (snd (main w))
    = w_files w
      ++ [{| fw_path := lit "runway_events_detailed.json"; fw_mode := "w";
             fw_encoding := "utf-8"; fw_text := Json.dumps 2 detailed |}]
    /\ Forall2
         (fun link record =>
            exists href,
              tag_get link "href" = Some href
              /\ dict_get record "url" = Some (SITE_ORIGIN ++ href))
         (filter has_usable_href (select soup LISTING_SELECTOR)) detailed.
Proof.
  intros Hpage Hkept Hp Hmain.
  destruct (main_returns w Hmain)
    as (events & reads & lines & Hrep & Hcase).
  rewrite (listing_report_printable _ Hpage Hp) in Hrep.
  injection Hrep as <- _ _.
  destruct Hcase as [(Hnil & _) | (_ & _ & Hrun)].
  - exfalso. apply Hkept.
    apply (harvested_nil (w_clock w) (w_clock_reads w)). exact Hnil.
  - rewrite Hrun. cbn [snd]. advance_proj.
    eexists. split; [reflexivity |].
    eapply Forall2_compose;
      [| apply harvested_Forall2 | apply detailed_from_Forall2].
    intros link r record (href & Hh & _ & Hu) (Hurl & _).
    exists href. split; [exact Hh |]. rewrite Hurl, Hu. reflexivity.
Qed.

Lemma main_document_follows_listing_witness :
  fetch_page LISTING_URL Demo.world = Ok (Demo.listing_soup Demo.listing_links)
  /\ filter has_usable_href
       (select (Demo.listing_soup Demo.listing_links) LISTING_SELECTOR) <> []
  /\ exists detailed,
       List.length (w_files (snd (main Demo.world))) = 1
       /\ Forall2
            (fun link record =>
               exists href,
                 tag_get link "href" = Some href
                 /\ dict_get record "url" = Some (SITE_ORIGIN ++ href))
            Demo.listing_links detailed.
Proof.
  assert (Hkept : filter has_usable_href
                    (select (Demo.listing_soup Demo.listing_links)
                       LISTING_SELECTOR) <> [])
    by (intros H; discriminate H).
  split; [reflexivity |]. split; [exact Hkept |].
  destruct (main_document_follows_listing Demo.world
              (soup := Demo.listing_soup Demo.listing_links) eq_refl Hkept
              eq_refl)
    as (detailed & Hfiles & Hall).
  { vm_compute. reflexivity. }
  exists detailed. split; [rewrite Hfiles; reflexivity | exact Hall].
Defined.

(** X27: what a run leaves in the output file is always the beginning
    of the document of the detailed records: a run writes no file, or
    it writes the one file with a text that the document starts with.
    The text is the whole document when the run ends normally, and
    the run ends normally exactly when the document has no lone
    surrogate. *)
Theorem main_file_is_prefix (w : World) :
  w_files (snd (main w)) = w_files w
  \/ exists events detailed text rest,
       fst (scrape_runway_events w) = Ok events
       /\ fst (scrape_all_event_details events (snd (scrape_runway_events w)))
          = Ok detailed
       /\ w_files (snd (main w))
          = w_files w
            ++ [{| fw_path := lit "runway_events_detailed.json";
                   fw_mode := "w"; fw_encoding := "utf-8";
                   fw_text := text |}]
       /\ Json.dumps 2 detailed = text ++ rest
       /\ (fst (main w) = Ok tt -> rest = [])
       /\ (fst (main w) = Ok tt <-> utf8_ok (Json.dumps 2 detailed) = true).
Proof.
  destruct (main_files w)
    as [Hf | (events & reads & lines & Hrep & Hne & Hp & Hopen & Hf)];
    [left; exact Hf | right].
  destruct (listing_report_result _ Hrep) as (Hev & Hw & _).
  set (detailed := detailed_from (w_server w) (w_parser w)
                     (S (List.length (w_requests w))) events) in *.
  destruct (write_chunks_document 2 detailed) as (rest & Heq & Hnone & Hiff).
  exists events, detailed, (fst (write_chunks (Json.chunks 2 detailed) [])),
    rest.
  split; [exact Hev |].
  split.
  { rewrite Hw. rewrite scrape_all_event_details_printable;
      advance_proj; rewrite ?length_app; cbn [List.length];
      rewrite ?Nat.add_1_r; [reflexivity | exact Hp]. }
  split; [exact Hf |]. split; [exact Heq |].
  rewrite (main_writes w Hrep Hne Hp Hopen). cbn [fst].
  fold detailed. rewrite <- Hiff.
  destruct (snd (write_chunks (Json.chunks 2 detailed) [])) as [e |].
  - split; [intros H; discriminate H |].
    split; intros H; discriminate H.
  - split; [intros _; apply Hnone; reflexivity |].
    split; reflexivity.
Qed.

Lemma main_file_is_prefix_witness :
  exists text rest,
    map fw_text (w_files (snd (main Samples.surrogate_world))) = [text]
    /\ rest <> []
    /\ exists detailed,
         fst (scrape_all_event_details
                [{| ev_title := lit "Jazz Night";
                    ev_url := SITE_ORIGIN ++ lit "/events2/"
                              ++ [Samples.LONE_SURROGATE];
                    ev_scraped_at := Demo.clock 0 |}]
                (snd (scrape_runway_events Samples.surrogate_world)))
         = Ok detailed
         /\ Json.dumps 2 detailed = text ++ rest.
Proof.
  destruct (main_file_is_prefix Samples.surrogate_world)
    as [Hf | (events & detailed & text & rest & Hev & Hd & Hf & Heq & _
              & Hiff)].
  - exfalso. vm_compute in Hf. discriminate Hf.
  - exists text, rest. split; [rewrite Hf; reflexivity |].
    assert (Hevents :
              events
              = [{| ev_title := lit "Jazz Night";
                    ev_url := SITE_ORIGIN ++ lit "/events2/"
                              ++ [Samples.LONE_SURROGATE];
                    ev_scraped_at := Demo.clock 0 |}]).
    { vm_compute in Hev. injection Hev as <-. reflexivity. }
    subst events.
    split.
    + intros ->. rewrite app_nil_r in Heq.
      assert (Hbad : utf8_ok (Json.dumps 2 detailed) = false).
      { assert (Hdet : Ok detailed
                       = Ok (detailed_from Demo.server
                               (Demo.parser Samples.surrogate_links) 1
                               [{| ev_title := lit "Jazz Night";
                                   ev_url := SITE_ORIGIN ++ lit "/events2/"
                                             ++ [Samples.LONE_SURROGATE];
                                   ev_scraped_at := Demo.clock 0 |}])).
        { rewrite <- Hd. vm_compute. reflexivity. }
        injection Hdet as ->. vm_compute. reflexivity. }
      assert (Hmain : fst (main Samples.surrogate_world) <> Ok tt).
      { vm_compute. intros H. discriminate H. }
      apply Hmain, Hiff. rewrite Heq.
      assert (Ht : [text]
                   = map fw_text
                       (w_files (snd (main Samples.surrogate_world))))
        by (rewrite Hf; reflexivity).
      vm_compute in Ht. injection Ht as ->. reflexivity.
    + exists detailed. split; [exact Hd | exact Heq].
Defined.
Lemma date_of_text_ends (text : str) :
  ends_with_space text = false -> ends_with_space (date_of_text text) = false.
Proof.
  intros He. unfold date_of_text, split1.
  destruct (partition_first (lit ", ") text) as [[before after] |] eqn:Hp;
    [| exact He].
  destruct after as [| c after]; [reflexivity |].
  rewrite (partition_first_some _ _ Hp) in He.
  rewrite app_assoc, ends_with_space_app in He by discriminate. exact He.
Qed.

(** X24: on every parsed page the date field does not end with white
    space. (It can begin with white space: the split consumes one
    space after the comma and keeps any further one.) *)
Theorem date_field_end (soup : Soup) :
  exists date,
    dict_get (extract_details soup) "date" = Some date
    /\ ends_with_space date = false.
Proof.
  rewrite extract_details_eq.
  destruct (select_one soup "time.event-date") as [e |].
  - eexists. split; [reflexivity |].
    apply date_of_text_ends. apply get_text_trimmed.
  - eexists. split; reflexivity.
Qed.

Example date_field_can_start_with_space :
  date_of_text (lit "Wednesday,  August 6") = lit " August 6"
  /\ starts_with_space (date_of_text (lit "Wednesday,  August 6")) = true.
Proof. split; reflexivity. Qed.
